(** * GPT-Neo: graph construction of the GPT-2 style model (models/gpt2/gpt2.py)
      and of the estimator entry point (model_fns.py).

    The Python code builds a Mesh-TensorFlow graph.  A tensor is modelled by its
    shape (named dimensions) and its denotation: the element it holds under an
    assignment of an index to every dimension name, over exact arithmetic on an
    abstract scalar type.  Python exceptions are results, the mutable decoding
    context is threaded as state. *)

From Stdlib Require Import ZArith QArith Qround List String Bool Lia Ring DecimalString
                               DecimalNat.
Import ListNotations.
Local Open Scope string_scope.
Local Open Scope Z_scope.
Local Open Scope list_scope.

Set Implicit Arguments.

(* ------------------------------------------------------------------------ *)
(** ** Python values and exceptions *)

Inductive exn : Type :=
| TypeError (msg : string)
| ValueError (msg : string)
| IndexError (msg : string)
| KeyError (msg : string)
| AttributeError (msg : string)
| AssertionError
| ZeroDivisionError
| NotImplementedError (msg : string)
| SystemExit
| Exception (msg : string).

Inductive result (A : Type) : Type :=
| Ok (a : A)
| Raise (e : exn).
Arguments Ok {A} a.
Arguments Raise {A} e.

Definition is_ok {A} (r : result A) : bool :=
  match r with Ok _ => true | Raise _ => false end.

(** A [str] object.  [x is y] compares identity, [x == y] compares contents.
    String constants of a module that look like identifiers are interned by
    the compiler: one object per content.  A string built at run time (read
    from a JSON configuration, say) is an object of its own. *)
Inductive pystr : Type :=
| Interned (s : string)
| Heap (addr : nat) (s : string).

Definition str_val (p : pystr) : string :=
  match p with Interned s => s | Heap _ s => s end.

Definition py_is (a b : pystr) : bool :=
  match a, b with
  | Interned s, Interned t => String.eqb s t
  | Heap i _, Heap j _ => Nat.eqb i j
  | _, _ => false
  end.

Definition py_eq (a : pystr) (s : string) : bool := String.eqb (str_val a) s.

(** An argument of a call: a required parameter that the call does not bind
    makes the call raise [TypeError] before the body runs. *)
Inductive arg (A : Type) : Type :=
| Given (a : A)
| Missing.
Arguments Given {A} a.
Arguments Missing {A}.

(** Monads: pure code that may raise, and code that may raise and mutates the
    object [S] it shares with its caller. *)
Class Monad (M : Type -> Type) : Type := {
  ret : forall {A}, A -> M A;
  bind : forall {A B}, M A -> (A -> M B) -> M B
}.

Notation "x <- m ;; k" := (bind m (fun x => k))
  (at level 61, m at next level, right associativity).
Notation "' pat <- m ;; k" := (bind m (fun x => match x with pat => k end))
  (at level 61, pat pattern, m at next level, right associativity).
Notation "m ;;; k" := (bind m (fun _ => k))
  (at level 61, right associativity).

#[global] Instance result_Monad : Monad result := {
  ret := fun A a => Ok a;
  bind := fun A B m f => match m with Ok a => f a | Raise e => Raise e end
}.

Definition Py (S A : Type) : Type := S -> result A * S.

#[global] Instance Py_Monad (S : Type) : Monad (Py S) := {
  ret := fun A a s => (Ok a, s);
  bind := fun A B m f s =>
            match m s with
            | (Ok a, s') => f a s'
            | (Raise e, s') => (Raise e, s')
            end
}.

Definition lift {S A} (r : result A) : Py S A := fun s => (r, s).
Definition raise {S A} (e : exn) : Py S A := fun s => (Raise e, s).

Definition required {A} (fn name : string) (a : arg A) : result A :=
  match a with
  | Given x => Ok x
  | Missing => Raise (TypeError (fn ++ "() missing 1 required argument: '" ++ name ++ "'")%string)
  end.

(** [l[i]] for [i >= 0]. *)
Definition list_get {A} (l : list A) (i : nat) : result A :=
  match nth_error l i with
  | Some x => Ok x
  | None => Raise (IndexError "index out of range")
  end.

(** [l[-1]]. *)
Definition list_last {A} (l : list A) : result A :=
  match rev l with
  | x :: _ => Ok x
  | [] => Raise (IndexError "index out of range")
  end.

(* ------------------------------------------------------------------------ *)
(** ** Scalars

    The element type of floating tensors, with the arithmetic the graph uses.
    The transcendental functions are left uninterpreted. *)

Class Scalars : Type := {
  R : Type;
  r0 : R;
  r1 : R;
  radd : R -> R -> R;
  rsub : R -> R -> R;
  rmul : R -> R -> R;
  rdiv : R -> R -> R;
  ropp : R -> R;
  r_of_Z : Z -> R;
  r_of_Q : Q -> R;
  r_exp : R -> R;
  r_elu : R -> R;
  r_gelu : R -> R;
  r_sqrt : R -> R;
  r_rsqrt : R -> R;
  (** softmax of one row: the row, then the index read *)
  softmax_row : list R -> Z -> R
}.

(* ------------------------------------------------------------------------ *)
(** ** Mesh-TensorFlow tensors with named dimensions *)

Module mtf.

Record Dimension : Type := mkDim { dname : string; dsize : Z }.

Definition Dimension_eq_dec (a b : Dimension) : {a = b} + {a <> b}.
Proof. decide equality; [apply Z.eq_dec | apply string_dec]. Defined.

Definition dim_eqb (a b : Dimension) : bool :=
  if Dimension_eq_dec a b then true else false.

Definition Shape : Type := list Dimension.

Definition dim_in (d : Dimension) (s : Shape) : bool := existsb (dim_eqb d) s.

Inductive DType : Type := float32 | bfloat16 | int32 | int64.

Record VariableDType : Type := mkVariableDType {
  master_dtype : DType;
  slice_dtype : DType;
  activation_dtype : DType
}.

(** An index assignment: the index chosen along every dimension name. *)
Definition Env : Type := string -> Z.

Definition upd (e : Env) (n : string) (i : Z) : Env :=
  fun m => if String.eqb m n then i else e m.

Record Tensor (A : Type) : Type := mkTensor {
  shape : Shape;
  dtype : DType;
  elem : Env -> A
}.

(** [is_subsequence short long] *)
Fixpoint is_subsequence (short long : Shape) : bool :=
  match short, long with
  | [], _ => true
  | _ :: _, [] => false
  | a :: short', b :: long' =>
      if dim_eqb a b then is_subsequence short' long' else is_subsequence short long'
  end.

Definition broadcast_shape (s1 s2 : Shape) : Shape :=
  if is_subsequence s1 s2 then s2
  else if is_subsequence s2 s1 then s1
  else s1 ++ filter (fun d => negb (dim_in d s1)) s2.

Definition binary {A B C} (f : A -> B -> C) (x : Tensor A) (y : Tensor B) : Tensor C :=
  mkTensor (broadcast_shape (shape x) (shape y)) (dtype x)
           (fun e => f (elem x e) (elem y e)).

Definition unary {A B} (f : A -> B) (x : Tensor A) : Tensor B :=
  mkTensor (shape x) (dtype x) (fun e => f (elem x e)).

(** A Python number used as an operand. *)
Definition scalar {A} (dt : DType) (c : A) : Tensor A := mkTensor [] dt (fun _ => c).

Definition rename_dim (old new : string) (d : Dimension) : Dimension :=
  if String.eqb (dname d) old then mkDim new (dsize d) else d.

Definition rename_dimension {A} (x : Tensor A) (old new : string) : Tensor A :=
  mkTensor (map (rename_dim old new) (shape x)) (dtype x)
           (fun e => elem x (upd e old (e new))).

(** [mtf.rename_dimension(x, old, new)]: the library raises [ValueError] when
    [x] has no dimension named [old]; [rename_dimension] above is the tensor
    it returns otherwise. *)
Definition rename_dimension_checked {A} (x : Tensor A) (old new : string)
  : result (Tensor A) :=
  if existsb (fun d => String.eqb (dname d) old) (shape x)
  then Ok (rename_dimension x old new)
  else Raise (ValueError ("Shape does not have dimension named " ++ old)%string).

Definition cast {A} (x : Tensor A) (dt : DType) : Tensor A :=
  mkTensor (shape x) dt (elem x).

Definition broadcast {A} (x : Tensor A) (s : Shape) : Tensor A :=
  mkTensor s (dtype x) (elem x).

Definition gather {A} (weights : Tensor A) (indices : Tensor Z) (dim : Dimension)
  : Tensor A :=
  mkTensor (shape indices ++ filter (fun d => negb (dim_eqb d dim)) (shape weights))
           (dtype weights)
           (fun e => elem weights (upd e (dname dim) (elem indices e))).

Definition range (dim : Dimension) (dt : DType) : Tensor Z :=
  mkTensor [dim] dt (fun e => e (dname dim)).

Definition where_ {A} (c : Tensor bool) (x y : Tensor A) : Tensor A :=
  mkTensor (broadcast_shape (shape c) (broadcast_shape (shape x) (shape y))) (dtype x)
           (fun e => if elem c e then elem x e else elem y e).

Definition not_equal (x : Tensor Z) (c : Z) : Tensor bool :=
  unary (fun v => negb (Z.eqb v c)) x.

(** [mtf.replace_dimensions(x, old, new)] for one dimension. *)
Definition replace_dimensions {A} (x : Tensor A) (old new : Dimension) : Tensor A :=
  mkTensor (map (fun d => if dim_eqb d old then new else d) (shape x)) (dtype x)
           (fun e => elem x (upd e (dname old) (e (dname new)))).

(** [mtf.concat([a, b], name)]: [b] after [a] along the dimension [name]. *)
Definition size_of (name : string) (s : Shape) : Z :=
  match find (fun d => String.eqb (dname d) name) s with
  | Some d => dsize d
  | None => 0
  end.

Definition concat {A} (a b : Tensor A) (name : string) : Tensor A :=
  let na := size_of name (shape a) in
  mkTensor (map (fun d => if String.eqb (dname d) name
                          then mkDim name (na + size_of name (shape b)) else d)
                (shape a))
           (dtype a)
           (fun e => if Z.ltb (e name) na then elem a e else elem b (upd e name (e name - na))).

(** [mtf.split(x, dim, 2)]: the two halves of [x] along [dim]. *)
Definition split2 {A} (x : Tensor A) (dim : Dimension) : Tensor A * Tensor A :=
  let half := dsize dim / 2 in
  let sh := map (fun d => if dim_eqb d dim then mkDim (dname dim) half else d) (shape x) in
  (mkTensor sh (dtype x) (elem x),
   mkTensor sh (dtype x) (fun e => elem x (upd e (dname dim) (e (dname dim) + half)))).

(** Row-major position of an index assignment in a shape, and back. *)
Definition flat_index (s : Shape) (e : Env) : Z :=
  fold_left (fun acc d => acc * dsize d + e (dname d)) s 0.

Definition unflatten (s : Shape) (n : Z) (e : Env) : Env :=
  snd (fold_right (fun d '(m, e') => (m / dsize d, upd e' (dname d) (m mod dsize d)))
                  (n, e) s).

Definition reshape {A} (x : Tensor A) (new_shape : Shape) : Tensor A :=
  mkTensor new_shape (dtype x)
           (fun e => elem x (unflatten (shape x) (flat_index new_shape e) e)).

Section Float.
Context {SC : Scalars}.

Definition add : Tensor R -> Tensor R -> Tensor R := binary radd.
Definition sub : Tensor R -> Tensor R -> Tensor R := binary rsub.
Definition mul : Tensor R -> Tensor R -> Tensor R := binary rmul.
Definition div : Tensor R -> Tensor R -> Tensor R := binary rdiv.
Definition square (x : Tensor R) : Tensor R := unary (fun v => rmul v v) x.
Definition rsqrt : Tensor R -> Tensor R := unary r_rsqrt.
Definition elu : Tensor R -> Tensor R := unary r_elu.
Definition gelu : Tensor R -> Tensor R := unary r_gelu.

Definition zeros (s : Shape) (dt : DType) : Tensor R := mkTensor s dt (fun _ => r0).
Definition zeros_like (x : Tensor R) : Tensor R := zeros (shape x) (dtype x).

(** [rsum n f] is [f 0 + ... + f (n-1)], added from the left. *)
Definition rsum (n : nat) (f : Z -> R) : R :=
  fold_left (fun acc t => radd acc (f (Z.of_nat t))) (seq 0 n) r0.

(** The sum of [f] over every index of the dimensions [dims]. *)
Fixpoint sum_over (dims : list Dimension) (f : Env -> R) (e : Env) : R :=
  match dims with
  | [] => f e
  | d :: ds =>
      rsum (Z.to_nat (dsize d)) (fun t => sum_over ds f (upd e (dname d) t))
  end.

Definition num_elements (s : Shape) : Z := fold_left Z.mul (map dsize s) 1.

Definition reduce_sum_all (x : Tensor R) : Tensor R :=
  mkTensor [] (dtype x) (sum_over (shape x) (elem x)).

(** [mtf.reduce_mean(x)]: the mean over every dimension. *)
Definition reduce_mean_all (x : Tensor R) : Tensor R :=
  mkTensor [] (dtype x)
           (fun e => rdiv (sum_over (shape x) (elem x) e) (r_of_Z (num_elements (shape x)))).

(** [mtf.reduce_mean(x, reduced_dim=axis)] *)
Definition reduce_mean (x : Tensor R) (axis : Dimension) : Tensor R :=
  mkTensor (filter (fun d => negb (dim_eqb d axis)) (shape x)) (dtype x)
           (fun e => rdiv (sum_over [axis] (elem x) e) (r_of_Z (dsize axis))).

(** [mtf.cumsum(x, dim)]: inclusive sum of the positions up to the current one. *)
Definition cumsum (x : Tensor R) (dim : Dimension) : Tensor R :=
  mkTensor (shape x) (dtype x)
           (fun e => rsum (Z.to_nat (e (dname dim) + 1))
                          (fun t => elem x (upd e (dname dim) t))).

(** [mtf.einsum(xs, output_shape)]: the product of the operands, summed over
    every dimension of an operand that the output does not have. *)
Definition reduced_dims (xs : list (Tensor R)) (output_shape : Shape) : list Dimension :=
  nodup Dimension_eq_dec
        (filter (fun d => negb (dim_in d output_shape)) (flat_map (@shape R) xs)).

Definition einsum (xs : list (Tensor R)) (output_shape : Shape) : Tensor R :=
  mkTensor output_shape
           (match xs with x :: _ => dtype x | [] => float32 end)
           (sum_over (reduced_dims xs output_shape)
                     (fun e => fold_left rmul (map (fun x => elem x e) xs) r1)).

Definition softmax (x : Tensor R) (dim : Dimension) : Tensor R :=
  mkTensor (shape x) (dtype x)
           (fun e => softmax_row
                       (map (fun i => elem x (upd e (dname dim) (Z.of_nat i)))
                            (seq 0 (Z.to_nat (dsize dim))))
                       (e (dname dim))).

(** [mtf.one_hot(indices, dim, dtype)]: 1 where the index along [dim] is the
    one [indices] holds, 0 elsewhere (everywhere, for an index out of range). *)
Definition one_hot (indices : Tensor Z) (dim : Dimension) (dt : DType) : Tensor R :=
  mkTensor (shape indices ++ [dim]) dt
           (fun e => if Z.eqb (e (dname dim)) (elem indices e) then r1 else r0).

End Float.
End mtf.

Import mtf.

Notation "x [+] y" := (mtf.add x y) (at level 50, left associativity).
Notation "x [-] y" := (mtf.sub x y) (at level 50, left associativity).
Notation "x [*] y" := (mtf.mul x y) (at level 40, left associativity).
Notation "x [/] y" := (mtf.div x y) (at level 40, left associativity).

(* ------------------------------------------------------------------------ *)
(** ** The configuration dictionary [params]

    A key that the code reads with [params.get(key, default)] or tests with
    [exists] is an [option]; a flag tested with [== True] or for truth is a
    [bool]. *)

Record Params : Type := mkParams {
  p_model : option string;
  p_mode : string;
  p_n_ctx : Z;
  p_n_embd : Z;
  p_n_vocab : Z;
  p_n_head : Z;
  p_n_layer : Z;
  p_attention_types : list pystr;
  p_num_mem_kv : option Z;
  p_local_attention_radius : option Z;
  p_attn_dropout : Q;
  p_res_dropout : Q;
  p_embed_dropout : Q;
  p_mlp_glu : bool;
  p_scalenorm : bool;
  p_rezero : bool;
  p_moe_layers : option (list Z);
  p_moe_params : option (list (string * Q));
  p_recompute_grad : bool;
  p_axial_pos_emb : option (Z * Z);
  p_no_weight_tie : bool;
  p_share_parameters : option bool;
  p_scale_by_depth : bool;
  p_scale_by_in : bool;
  p_causal : option bool;
  p_padding_id : option Z;
  p_z_loss : option Q;
  p_num_microbatches : Z;
  p_train_batch_size : Z;
  p_tokens_per_mb_per_replica : option Z;
  p_auto_layout : bool;
  p_auto_layout_and_mesh_shape : bool
}.

(** [x > 0] for a float of the configuration *)
Definition Qgt0 (q : Q) : bool := negb (Qle_bool q 0).

(** [params["num_microbatches"] = n] *)
Definition set_num_microbatches (p : Params) (n : Z) : Params :=
  mkParams (p_model p) (p_mode p) (p_n_ctx p) (p_n_embd p) (p_n_vocab p) (p_n_head p)
           (p_n_layer p) (p_attention_types p) (p_num_mem_kv p)
           (p_local_attention_radius p) (p_attn_dropout p) (p_res_dropout p)
           (p_embed_dropout p) (p_mlp_glu p) (p_scalenorm p) (p_rezero p) (p_moe_layers p)
           (p_moe_params p) (p_recompute_grad p) (p_axial_pos_emb p) (p_no_weight_tie p)
           (p_share_parameters p) (p_scale_by_depth p) (p_scale_by_in p) (p_causal p)
           (p_padding_id p) (p_z_loss p) n (p_train_batch_size p)
           (p_tokens_per_mb_per_replica p) (p_auto_layout p)
           (p_auto_layout_and_mesh_shape p).

(** The configuration [p] with other dropout rates. *)
Definition set_dropout (p : Params) (attn_dropout res_dropout embed_dropout : Q) : Params :=
  mkParams (p_model p) (p_mode p) (p_n_ctx p) (p_n_embd p) (p_n_vocab p) (p_n_head p)
           (p_n_layer p) (p_attention_types p) (p_num_mem_kv p)
           (p_local_attention_radius p) attn_dropout res_dropout
           embed_dropout (p_mlp_glu p) (p_scalenorm p) (p_rezero p) (p_moe_layers p)
           (p_moe_params p) (p_recompute_grad p) (p_axial_pos_emb p) (p_no_weight_tie p)
           (p_share_parameters p) (p_scale_by_depth p) (p_scale_by_in p) (p_causal p)
           (p_padding_id p) (p_z_loss p) (p_num_microbatches p) (p_train_batch_size p)
           (p_tokens_per_mb_per_replica p) (p_auto_layout p)
           (p_auto_layout_and_mesh_shape p).

(** [d.get(key, default)] *)
Definition get_default {A} (o : option A) (default : A) : A :=
  match o with Some a => a | None => default end.

(* ------------------------------------------------------------------------ *)
(** ** The Mesh-TensorFlow library layers the model calls

    Their shapes are the ones the library documents; their values are left
    uninterpreted.  [variable_value] is the current value of a trainable
    variable, by its scoped name. *)

Class Library {SC : Scalars} : Type := {
  variable_value : string -> Env -> R;
  compute_q_value : string -> Dimension -> Dimension -> Dimension -> Tensor R -> Env -> R;
  compute_k_value : string -> Dimension -> Dimension -> Dimension -> Tensor R -> Env -> R;
  compute_v_value : string -> Dimension -> Dimension -> Dimension -> Tensor R -> Env -> R;
  compute_output_value :
    string -> Dimension -> Dimension -> Dimension -> Tensor R -> Shape -> Env -> R;
  local_attention_1d_value :
    Tensor R -> Tensor R -> Tensor R -> Dimension -> Dimension -> Dimension -> Z -> Env -> R;
  attention_value :
    Tensor R -> Tensor R -> Tensor R -> Dimension -> Dimension -> Dimension ->
    option (Tensor R) -> Q -> Env -> R;
  dense_value : string -> Tensor R -> Dimension -> Dimension -> string -> R -> Env -> R;
  dropout_value : Tensor R -> Q -> string -> Env -> R;
  moe_output_value : string -> Tensor R -> Dimension -> list (string * Q) -> bool -> Env -> R;
  moe_loss_value : string -> Tensor R -> Dimension -> list (string * Q) -> bool -> Env -> R;
  softmax_cross_entropy_value : Tensor R -> Tensor Z -> Dimension -> Q -> Env -> R
}.

Section LibraryLayers.
Context {SC : Scalars} {LB : Library}.

Definition T : Type := Tensor R.

Definition remove_dim (d : Dimension) (s : Shape) : Shape :=
  filter (fun d' => negb (dim_eqb d' d)) s.

(** [with tf.variable_scope(scope)] inside the scope [vs] *)
Definition variable_scope (vs scope : string) : string := (vs ++ "/" ++ scope)%string.

Inductive initializer : Type :=
| constant_initializer (c : R)
| random_normal_initializer (stddev : R).

(** [mtf.get_variable]: a trainable variable holds its current value; a
    variable that is not trainable and that no operation assigns holds the
    constant it is initialised with. *)
Definition get_variable (vs name : string) (sh : Shape) (init : initializer)
           (trainable : bool) (dt : DType) : T :=
  mkTensor sh dt
           (match init, trainable with
            | constant_initializer c, false => fun _ => c
            | _, _ => variable_value (variable_scope vs name)
            end).

(** [mtf.transformer.attention.attention_params_simple] *)
Record AttentionParams : Type := mkAttentionParams {
  ap_scope : string;
  ap_io_dim : Dimension;
  ap_kv_dim : Dimension;
  ap_heads_dim : Dimension;
  ap_dtype : VariableDType
}.

Definition attention_params_simple (vs : string) (io_dim kv_dim heads_dim : Dimension)
           (variable_dtype : VariableDType) : AttentionParams :=
  mkAttentionParams vs io_dim kv_dim heads_dim variable_dtype.

Definition projected (p : AttentionParams) (x : T) : Shape :=
  remove_dim (ap_io_dim p) (shape x) ++ [ap_heads_dim p; ap_kv_dim p].

Definition compute_q (p : AttentionParams) (x : T) : T :=
  mkTensor (projected p x) (activation_dtype (ap_dtype p))
           (compute_q_value (ap_scope p) (ap_io_dim p) (ap_kv_dim p) (ap_heads_dim p) x).

Definition compute_k (p : AttentionParams) (x : T) : T :=
  mkTensor (projected p x) (activation_dtype (ap_dtype p))
           (compute_k_value (ap_scope p) (ap_io_dim p) (ap_kv_dim p) (ap_heads_dim p) x).

Definition compute_v (p : AttentionParams) (x : T) : T :=
  mkTensor (projected p x) (activation_dtype (ap_dtype p))
           (compute_v_value (ap_scope p) (ap_io_dim p) (ap_kv_dim p) (ap_heads_dim p) x).

Definition compute_output (p : AttentionParams) (a : T) (output_shape : Shape) : T :=
  mkTensor output_shape (dtype a)
           (compute_output_value (ap_scope p) (ap_io_dim p) (ap_kv_dim p) (ap_heads_dim p)
                                 a output_shape).

Definition local_attention_1d (q k v : T) (length_dim key_dim value_dim : Dimension)
           (radius : Z) : T :=
  mkTensor (shape q) (dtype q)
           (local_attention_1d_value q k v length_dim key_dim value_dim radius).

Definition attention (q k v : T) (memory_length_dim key_dim value_dim : Dimension)
           (bias : option T) (dropout_rate : Q) : T :=
  mkTensor (shape q) (dtype q)
           (attention_value q k v memory_length_dim key_dim value_dim bias dropout_rate).

(** [mtf.layers.dense(x, new_dims=[nf], reduced_dims=[reduced], name=name, ...)] *)
Definition dense (vs : string) (x : T) (nf reduced : Dimension) (name : string)
           (stddev : R) (variable_dtype : VariableDType) : T :=
  mkTensor (remove_dim reduced (shape x) ++ [nf]) (activation_dtype variable_dtype)
           (dense_value vs x nf reduced name stddev).

Definition dropout (x : T) (rate : Q) (name : string) : T :=
  mkTensor (shape x) (dtype x) (dropout_value x rate name).

Definition transformer_moe_layer_v1 (vs : string) (x : T) (output_dim : Dimension)
           (hparams : list (string * Q)) (train : bool) : T * T :=
  (mkTensor (shape x) (dtype x) (moe_output_value vs x output_dim hparams train),
   mkTensor [] (dtype x) (moe_loss_value vs x output_dim hparams train)).

Definition softmax_cross_entropy_with_logits (logits : T) (targets : Tensor Z)
           (vocab_dim : Dimension) (z_loss : Q) : T :=
  mkTensor (remove_dim vocab_dim (shape logits)) (dtype logits)
           (softmax_cross_entropy_value logits targets vocab_dim z_loss).

(** [mtf.recompute_grad(fn, [x])] calls [fn] once while the graph is built. *)
Definition mtf_recompute_grad {A B : Type} (fn : A -> B) (x : A) : B := fn x.

(** [mtf.transformer.Context], the per-session decoding state: [get_states]
    reads the cached states after the ones recorded in this pass, and
    [record_new_states] appends. *)
Record Context : Type := mkContext {
  ctx_mode : string;
  position : Tensor Z;
  states : list T;
  new_states : list T
}.

Definition get_states (c : Context) (n : nat) : list T :=
  firstn n (skipn (List.length (new_states c)) (states c)).

Definition St : Type := option Context.

Definition get_context : Py St St := fun s => (Ok s, s).

Definition record_new_states (l : list T) : Py St unit :=
  fun s =>
    match s with
    | Some c =>
        (Ok tt, Some (mkContext (ctx_mode c) (position c) (states c) (new_states c ++ l)))
    | None => (Raise (AttributeError "record_new_states"), None)
    end.

(** The context [st'] is [st] with [added] after the states recorded so far. *)
Definition records (st st' : St) (added : list T) : Prop :=
  match st, st' with
  | Some c, Some c' =>
      c' = mkContext (ctx_mode c) (position c) (states c) (new_states c ++ added)
  | None, None => added = []
  | _, _ => False
  end.

End LibraryLayers.

(* ------------------------------------------------------------------------ *)
(** ** models/gpt2/gpt2.py: layers *)

Module gpt2.
Section Layers.
Context {SC : Scalars} {LB : Library}.

Definition exists_ {A} (x : option A) : bool :=
  match x with Some _ => true | None => false end.

Definition identity {A} (x : A) : A := x.

Definition is_incremental_inference (context : St) : bool :=
  match context with
  | Some c => String.eqb (ctx_mode c) "incremental"
  | None => false
  end.

(** Python float literals *)
Definition eps_1e_8 : R := r_of_Q (1 # 100000000).
Definition eps_1e_6 : R := r_of_Q (1 # 1000000).
Definition eps_1e_5 : R := r_of_Q (1 # 100000).
Definition stdev_0_02 : R := r_of_Q (2 # 100).
Definition stdev_0_01 : R := r_of_Q (1 # 100).

(** [1 / math.sqrt(n)] for an integer [n] *)
Definition inv_sqrt (n : Z) : result R :=
  if n <? 0 then Raise (ValueError "math domain error")
  else if n =? 0 then Raise ZeroDivisionError
  else Ok (rdiv r1 (r_sqrt (r_of_Z n))).

(** [norm(x, axis, epsilon=1e-8)] *)
Definition norm (x : T) (axis : Dimension) (epsilon : R) : T :=
  let x := x [-] reduce_mean x axis in
  let s := reduce_mean (square x) axis in
  x [*] rsqrt (s [+] scalar (dtype s) epsilon).

(** [rezero(x, scope, dtype)] *)
Definition rezero (vs : string) (x : T) (scope : string) (dtype : VariableDType) : T :=
  let vs := variable_scope vs scope in
  let g := get_variable vs "g" [] (constant_initializer r0) true (activation_dtype dtype) in
  x [*] g.

(** [scale_norm(x, scope, *, variable_dtype, axis=sentinel, epsilon=1e-5, params=None)];
    [axis = None] is the sentinel. *)
Definition scale_norm (vs : string) (x : T) (scope : string)
           (variable_dtype : VariableDType) (axis : option Dimension) (epsilon : R)
  : result T :=
  axis <- match axis with
          | None => list_last (shape x)
          | Some a => ret a
          end ;;
  let vs := variable_scope vs scope in
  let g := get_variable vs "g" [] (constant_initializer r1) true
                        (activation_dtype variable_dtype) in
  let x := norm x axis epsilon in
  let x := x [*] g in
  ret x.

(** [layer_norm(x, scope, *, variable_dtype, axis=sentinel, epsilon=1e-5, params=None)] *)
Definition layer_norm (vs : string) (x : T) (scope : string)
           (variable_dtype : VariableDType) (axis : option Dimension) (epsilon : R)
  : result T :=
  axis <- match axis with
          | None => list_last (shape x)
          | Some a => ret a
          end ;;
  let vs := variable_scope vs scope in
  n_state <- list_last (shape x) ;;
  let g := get_variable vs "g" [n_state] (constant_initializer r1) true
                        (activation_dtype variable_dtype) in
  let b := get_variable vs "b" [n_state] (constant_initializer r0) true
                        (activation_dtype variable_dtype) in
  let x := norm x axis epsilon in
  let x := x [*] g [+] b in
  ret x.

(** [linear_attention(q, k, v, epsilon=1e-6)] *)
Definition linear_attention (q k v : T) (epsilon : R) : result T :=
  batch_dim <- list_get (shape v) 0 ;;
  seq_dim <- list_get (shape v) 1 ;;
  head_dim <- list_get (shape v) 2 ;;
  dim_out <- list_get (shape v) 3 ;;
  q <- rename_dimension_checked q "features_per_head" "features_per_head_in" ;;
  k <- rename_dimension_checked k "features_per_head" "features_per_head_in" ;;
  dim_in <- list_last (shape k) ;;
  let q := softmax q dim_in in
  let k := elu k [+] scalar (dtype k) r1 in
  let cumulative_k := cumsum k seq_dim in
  let context := einsum [k; v] [batch_dim; seq_dim; head_dim; dim_in; dim_out] in
  let cumulative_context := cumsum context seq_dim in
  let cumulative_context :=
    cumulative_context [/] (cumulative_k [+] scalar (dtype cumulative_k) epsilon) in
  let attn := einsum [q; cumulative_context] [batch_dim; seq_dim; head_dim; dim_out] in
  ret attn.

(** [linear(x, scope, nf, *, w_init_stdev=0.02, variable_dtype, params=None, scale=False)];
    [variable_dtype] is keyword-only and has no default. *)
Definition linear (vs : string) (x : T) (scope : string) (nf : Dimension)
           (w_init_stdev : R) (variable_dtype : arg VariableDType) (params : Params)
           (scale : bool) : result T :=
  variable_dtype <- required "linear" "variable_dtype" variable_dtype ;;
  w_init_stdev <-
    (if p_scale_by_depth params && scale then
       s <- inv_sqrt (p_n_layer params) ;; ret (rmul w_init_stdev s)
     else ret w_init_stdev) ;;
  w_init_stdev <-
    (if p_scale_by_in params then
       d <- list_last (shape x) ;;
       s <- inv_sqrt (dsize d) ;; ret (rmul w_init_stdev s)
     else ret w_init_stdev) ;;
  let vs := variable_scope vs "conv1d_main" in
  reduced <- list_last (shape x) ;;
  let c := dense vs x nf reduced scope w_init_stdev variable_dtype in
  ret c.

(** [memory_key_values(k, v, num_mem_kv, dim_batch, dim_heads, variable_dtype, mesh)],
    called inside the variable scope [vs] *)
Definition memory_key_values (vs : string) (k v : T) (num_mem_kv : Z)
           (dim_batch dim_heads : Dimension) (variable_dtype : VariableDType)
  : result (T * T) :=
  let dim_mem_kv := mkDim "mem_kv_sequence" num_mem_kv in
  emb_dim <- list_last (shape k) ;;
  mem_std <- inv_sqrt (dsize emb_dim) ;;
  let mem_k := get_variable vs "mem_k" [dim_mem_kv; dim_heads; emb_dim]
                            (random_normal_initializer mem_std) true
                            (activation_dtype variable_dtype) in
  let mem_v := get_variable vs "mem_v" [dim_mem_kv; dim_heads; emb_dim]
                            (random_normal_initializer mem_std) true
                            (activation_dtype variable_dtype) in
  let mem_k := broadcast mem_k [dim_batch; dim_mem_kv; dim_heads; emb_dim] in
  let mem_v := broadcast mem_v [dim_batch; dim_mem_kv; dim_heads; emb_dim] in
  let mem_k := rename_dimension mem_k "mem_kv_sequence" "sequence" in
  let mem_v := rename_dimension mem_v "mem_kv_sequence" "sequence" in
  let k := concat mem_k k "sequence" in
  let v := concat mem_v v "sequence" in
  ret (k, v).

(** [x_shape, dim_batch, *_, dim_embd, mesh = x.shape, *x.shape, x.mesh] *)
Definition unpack_shape (x : T) : result (Shape * Dimension * Dimension) :=
  match shape x, rev (shape x) with
  | dim_batch :: _ :: _, dim_embd :: _ => Ok (shape x, dim_batch, dim_embd)
  | _, _ => Raise (ValueError "not enough values to unpack")
  end.

(** [old_k, old_v = l] *)
Definition unpack2 {A} (l : list A) : result (A * A) :=
  match l with
  | [a; b] => Ok (a, b)
  | _ => Raise (ValueError "wrong number of values to unpack")
  end.

(** [attn], lines 151-173: the projections of the input, the splice of the
    new key and value into the cached ones when decoding incrementally, and
    the recording of the states.  Returns [q], [k], [v], the bias and, when
    decoding incrementally, the one-hot mask of the current position. *)
Definition attn_inputs (mtfparams : AttentionParams) (x : T) (bias : option T)
           (dim_seq : Dimension) (variable_dtype : VariableDType)
  : Py St (T * T * T * option T * option T) :=
  let q := compute_q mtfparams x in
  let k := compute_k mtfparams x in
  let v := compute_v mtfparams x in
  context <- get_context ;;
  '(k, v, bias, one_hot) <-
    match context with
    | Some c =>
        if is_incremental_inference context then
          let one_hot := one_hot (unary (fun p => p - 1) (position c)) dim_seq
                                 (master_dtype variable_dtype) in
          let inv_one_hot := scalar (dtype one_hot) r1 [-] one_hot in
          '(old_k, old_v) <- lift (unpack2 (get_states c 2)) ;;
          let k := old_k [*] inv_one_hot [+] k [*] one_hot in
          let v := old_v [*] inv_one_hot [+] v [*] one_hot in
          ret (k, v, None, Some one_hot)
        else ret (k, v, bias, None)
    | None => ret (k, v, bias, None)
    end ;;
  (if exists_ context then record_new_states [k; v] else ret tt) ;;;
  ret (q, k, v, bias, one_hot).

(** [attn], lines 175-270: the attention of the configured type. *)
Definition attn_dispatch (vs : string) (layer_num : nat) (params : Params)
           (dim_batch dim_heads dim_kv dim_seq memory_length_dim : Dimension)
           (variable_dtype : VariableDType)
           (inputs : T * T * T * option T * option T) : Py St T :=
  let '(q, k, v, bias, one_hot) := inputs in
  let num_mem_kv := get_default (p_num_mem_kv params) 0 in
  let use_num_mem_kv := 0 <? num_mem_kv in
  context <- get_context ;;
  attention_type <- lift (list_get (p_attention_types params) layer_num) ;;
  let vs := variable_scope vs "attention" in
  if py_eq attention_type "local" then
    let radius := get_default (p_local_attention_radius params) 256 in
    let q := match one_hot with
             | Some one_hot => if is_incremental_inference context then q [*] one_hot else q
             | None => q
             end in
    length_dim <- lift (list_get (shape k) 1) ;;
    let a := local_attention_1d q k v length_dim dim_kv dim_kv radius in
    let a := match context with
             | Some c =>
                 if is_incremental_inference context
                 then gather a (unary (fun p => p - 1) (position c)) dim_seq
                 else a
             | None => a
             end in
    ret a
  else if py_eq attention_type "global" then
    broadcasted_bias <-
      match bias with
      | Some bias =>
          b1 <- lift (list_get (rev (shape bias)) 1) ;;
          b2 <- lift (list_last (shape bias)) ;;
          ret (Some (broadcast bias [dim_batch; dim_heads; b1; b2]))
      | None => ret None
      end ;;
    '(k, v) <-
      (if use_num_mem_kv then
         let dim_mem_kv := mkDim "mem_kv_sequence" num_mem_kv in
         let vs := variable_scope vs "memory_key_values" in
         emb_dim <- lift (list_last (shape k)) ;;
         mem_std <- lift (inv_sqrt (dsize emb_dim)) ;;
         let mem_k := get_variable vs "mem_k" [dim_mem_kv; dim_heads; emb_dim]
                                   (random_normal_initializer mem_std) true
                                   (activation_dtype variable_dtype) in
         let mem_v := get_variable vs "mem_v" [dim_mem_kv; dim_heads; emb_dim]
                                   (random_normal_initializer mem_std) true
                                   (activation_dtype variable_dtype) in
         let mem_k := broadcast mem_k [dim_batch; dim_mem_kv; dim_heads; emb_dim] in
         let mem_v := broadcast mem_v [dim_batch; dim_mem_kv; dim_heads; emb_dim] in
         let mem_k := rename_dimension mem_k "mem_kv_sequence" "sequence" in
         let mem_v := rename_dimension mem_v "mem_kv_sequence" "sequence" in
         let k := concat mem_k k "sequence" in
         let v := concat mem_v v "sequence" in
         ret (k, v)
       else ret (k, v)) ;;
    k1 <- lift (list_get (shape k) 1) ;;
    let k := replace_dimensions k k1 memory_length_dim in
    v1 <- lift (list_get (shape v) 1) ;;
    let v := replace_dimensions v v1 memory_length_dim in
    let attn_dropout_rate :=
      if String.eqb (p_mode params) "train" then p_attn_dropout params else 0%Q in
    let a := attention q k v memory_length_dim dim_kv dim_kv broadcasted_bias
                       attn_dropout_rate in
    ret a
  else if py_eq attention_type "linear" then
    lift (linear_attention q k v eps_1e_6)
  else
    raise (NotImplementedError
             ("Unknown attention type " ++ str_val attention_type ++ "!")%string).

(** [attn(x, scope, n_state, *, attention_type, layer_num, params, bias, dim_seq,
         memory_length_dim, variable_dtype, context=None)];
    the context is the state. *)
Definition attn (vs : string) (x : T) (scope : string) (n_state : Dimension)
           (attention_type : pystr) (layer_num : nat) (params : Params)
           (bias : option T) (dim_seq memory_length_dim : Dimension)
           (variable_dtype : VariableDType) : Py St T :=
  '(x_shape, dim_batch, dim_embd) <- lift (unpack_shape x) ;;
  (if p_n_head params =? 0 then raise ZeroDivisionError
   else if dsize n_state mod p_n_head params =? 0 then ret tt
   else raise AssertionError) ;;;
  let dim_heads := mkDim "heads" (p_n_head params) in
  let vs := variable_scope vs scope in
  let dim_kv := mkDim "features_per_head" (p_n_embd params / p_n_head params) in
  let mtfparams := attention_params_simple vs dim_embd dim_kv dim_heads variable_dtype in
  inputs <- attn_inputs mtfparams x bias dim_seq variable_dtype ;;
  a <- attn_dispatch vs layer_num params dim_batch dim_heads dim_kv dim_seq
                     memory_length_dim variable_dtype inputs ;;
  let a := compute_output mtfparams a x_shape in
  let b := get_variable (variable_scope vs "compute_output_bias") "o_b" [dim_embd]
                        (constant_initializer r0) true (activation_dtype variable_dtype) in
  let a := a [+] b in
  ret a.

(** [mlp(x, scope, n_state, *, variable_dtype, params)] *)
Definition mlp (vs : string) (x : T) (scope : string) (n_state : Dimension)
           (variable_dtype : VariableDType) (params : Params) : result T :=
  let vs := variable_scope vs scope in
  nx <- list_last (shape x) ;;
  h0 <- linear vs x "c_fc" n_state stdev_0_02 (Given variable_dtype) params false ;;
  let h := gelu h0 in
  h2 <- linear vs h "c_proj" nx stdev_0_02 (Given variable_dtype) params true ;;
  let h2 := if String.eqb (p_mode params) "train" && Qgt0 (p_res_dropout params)
            then dropout h2 (p_res_dropout params) "mlp_dropout" else h2 in
  ret h2.

(** [mlp_glu(x, scope, n_state, *, variable_dtype, params)]; its first call of
    [linear] passes [params] only. *)
Definition mlp_glu (vs : string) (x : T) (scope : string) (n_state : Dimension)
           (variable_dtype : VariableDType) (params : Params) : result T :=
  let vs := variable_scope vs scope in
  nx <- list_last (shape x) ;;
  h <- linear vs x "c_fc" n_state stdev_0_02 Missing params false ;;
  last <- list_last (shape h) ;;
  let '(h, gate) := split2 h last in
  let h := h [*] gelu gate in
  h2 <- linear vs h "c_proj" nx stdev_0_02 (Given variable_dtype) params true ;;
  let h2 := if String.eqb (p_mode params) "train" && Qgt0 (p_res_dropout params)
            then dropout h2 (p_res_dropout params) "mlp_dropout" else h2 in
  ret h2.

(** The closures [block] builds: [prenorm] and [pre_residual_fn]. *)
Definition prenorm (vs : string) (params : Params) (variable_dtype : VariableDType)
           (x : T) (scope : string) : result T :=
  if p_rezero params then ret (identity x)
  else if p_scalenorm params then scale_norm vs x scope variable_dtype None eps_1e_5
  else layer_norm vs x scope variable_dtype None eps_1e_5.

Definition pre_residual_fn (vs : string) (params : Params) (variable_dtype : VariableDType)
           (a : T) (scope : string) : T :=
  if p_rezero params then rezero vs a scope variable_dtype else identity a.

(** [block.fn], lines 330-340: attention and its residual connection. *)
Definition attention_sublayer (vs : string) (params : Params) (layer_num : nat)
           (bias : option T) (sequence_dim memory_length_dim : Dimension)
           (variable_dtype : VariableDType) (nx : Dimension) (x : T) : Py St T :=
  attention_type <- lift (list_get (p_attention_types params) layer_num) ;;
  a <- (if negb (py_is attention_type (Interned "none")) then
          res_x <- lift (prenorm vs params variable_dtype x "norm_1") ;;
          attn vs res_x "attn" nx attention_type layer_num params bias sequence_dim
               memory_length_dim variable_dtype
        else ret x) ;;
  let x := x [+] pre_residual_fn vs params variable_dtype a "norm_rezero_1" in
  ret x.

(** [block.fn], lines 342-371: feed-forward and its residual connection. *)
Definition feed_forward_sublayer (vs : string) (params : Params) (layer_num : nat)
           (variable_dtype : VariableDType) (nx : Dimension) (x : T) : result (T * T) :=
  let use_mlp_glu := p_mlp_glu params in
  let use_moe := match p_moe_layers params with
                 | Some l => existsb (Z.eqb (Z.of_nat layer_num)) l
                 | None => false
                 end in
  res_x <- prenorm vs params variable_dtype x "norm_2" ;;
  '(m, aux_loss) <-
    (if use_moe then
       match p_moe_params params with
       | None => Raise (AttributeError "items")
       | Some moe_params =>
           let moe_train := String.eqb (p_mode params) "train" in
           last <- list_last (shape x) ;;
           ret (transformer_moe_layer_v1 vs res_x last moe_params moe_train)
       end
     else
       let mlp_fn := if use_mlp_glu then mlp_glu else mlp in
       let intermediate_size := dsize nx * 4 * (if negb use_mlp_glu then 1 else 2) in
       let dim_intermediate_expanded := mkDim "intermediate_expanded" intermediate_size in
       m <- mlp_fn vs res_x "mlp" dim_intermediate_expanded variable_dtype params ;;
       let aux_loss := zeros [] (slice_dtype variable_dtype) in
       ret (m, aux_loss)) ;;
  let x := x [+] pre_residual_fn vs params variable_dtype m "norm_rezero_2" in
  ret (x, aux_loss).

(** [block(params, scope, layer_num, bias, sequence_dim, memory_length_dim,
          variable_dtype, context=None)] returns [fn]. *)
Definition block (vs : string) (params : Params) (scope : string) (layer_num : nat)
           (bias : option T) (sequence_dim memory_length_dim : Dimension)
           (variable_dtype : VariableDType) : T -> Py St (T * T) :=
  fun x =>
    let vs := variable_scope vs scope in
    nx <- lift (list_last (shape x)) ;;
    x <- attention_sublayer vs params layer_num bias sequence_dim memory_length_dim
                            variable_dtype nx x ;;
    lift (feed_forward_sublayer vs params layer_num variable_dtype nx x).

(* ---------------------------------------------------------------------- *)
(** ** models/gpt2/gpt2.py: model *)

(** The dictionary [mtf_features]: a key may be absent. *)
Record Features : Type := mkFeatures {
  inputs : option (Tensor Z);
  labels : option (Tensor Z)
}.

Record OtherFeatures : Type := mkOtherFeatures {
  attn_bias : T;
  embd_dim : Dimension;
  vocab_dim : Dimension;
  embed_sequence_dim : Dimension;
  memory_length_dim : Dimension
}.

(** [str(layer)] *)
Definition str (n : nat) : string := NilEmpty.string_of_uint (Nat.to_uint n).

(** The block of a layer, lines 462-469. *)
Definition block_fn_of (vs : string) (params : Params) (other_features : OtherFeatures)
           (sequence_dim : Dimension) (variable_dtype : VariableDType) (layer : nat)
  : T -> Py St (T * T) :=
  let share_parameters := get_default (p_share_parameters params) false in
  let block_scope := ("h" ++ (if negb share_parameters then str layer else ""))%string in
  block vs params block_scope layer (Some (attn_bias other_features))
        sequence_dim (memory_length_dim other_features) variable_dtype.

(** The loop over the layers, lines 460-472. *)
Fixpoint layers_loop (vs : string) (params : Params) (other_features : OtherFeatures)
         (sequence_dim : Dimension) (variable_dtype : VariableDType)
         (layers : list nat) (h aux_losses : T) : Py St (T * T) :=
  match layers with
  | [] => ret (h, aux_losses)
  | layer :: rest =>
      let block_fn := block_fn_of vs params other_features sequence_dim variable_dtype
                                  layer in
      '(h, loss) <- (if negb (p_recompute_grad params) then block_fn h
                     else mtf_recompute_grad block_fn h) ;;
      let aux_losses := aux_losses [+] loss in
      layers_loop vs params other_features sequence_dim variable_dtype rest h aux_losses
  end.

(** The auxiliary losses that the blocks of the loop return, in layer order
    (used to state what the loop accumulates). *)
Fixpoint layer_losses (vs : string) (params : Params) (other_features : OtherFeatures)
         (sequence_dim : Dimension) (variable_dtype : VariableDType)
         (layers : list nat) (h : T) (st : St) : list T :=
  match layers with
  | [] => []
  | layer :: rest =>
      match block_fn_of vs params other_features sequence_dim variable_dtype layer h st with
      | (Ok (h', loss), st') =>
          loss :: layer_losses vs params other_features sequence_dim variable_dtype
                               rest h' st'
      | (Raise _, _) => []
      end
  end.

(** The training loss, lines 487-506. *)
Definition train_loss (params : Params) (mtf_features : Features) (logits aux_losses : T)
  : result (T * T * T) :=
  labels <- match labels mtf_features with
            | Some l => ret l
            | None => Raise (KeyError "labels")
            end ;;
  let z_loss := get_default (p_z_loss params) (1 # 10000)%Q in
  let logits := cast logits float32 in
  vocab <- list_last (shape logits) ;;
  let loss_batch := softmax_cross_entropy_with_logits logits labels vocab z_loss in
  let loss_batch :=
    if negb (get_default (p_causal params) false) then
      let padding_id := get_default (p_padding_id params) 0 in
      where_ (not_equal labels padding_id) loss_batch (zeros_like loss_batch)
    else loss_batch in
  let loss := reduce_mean_all loss_batch in
  let loss := loss [+] aux_losses in
  let loss := loss [/] scalar (dtype loss) (r_of_Z (p_num_microbatches params)) in
  ret (logits, loss, loss_batch).

(** [model(mtf_features, other_features, params, mesh, variable_dtype, context=None)],
    called inside the variable scope [vs]; the context is the state. *)
Definition model (vs : string) (mtf_features : Features) (other_features : OtherFeatures)
           (params : Params) (variable_dtype : arg VariableDType)
  : Py St (T * option T * option T) :=
  variable_dtype <- lift (required "model" "variable_dtype" variable_dtype) ;;
  let no_weight_tie_emb := p_no_weight_tie params in
  x <- match inputs mtf_features with
       | Some x => ret x
       | None => raise (KeyError "inputs")
       end ;;
  batch_dim <- lift (list_get (shape x) 0) ;;
  sequence_dim <- lift (list_get (shape x) 1) ;;
  let embd_dim := embd_dim other_features in
  let vocab_dim := vocab_dim other_features in
  let embed_sequence_dim := embed_sequence_dim other_features in
  context <- get_context ;;
  let x := match context with
           | Some c =>
               if is_incremental_inference context then
                 let x := gather x (unary (fun p => p - 1) (position c)) sequence_dim in
                 reshape x [batch_dim]
               else x
           | None => x
           end in
  let act := activation_dtype variable_dtype in
  let wpe :=
    match p_axial_pos_emb params with
    | None =>
        get_variable vs "wpe" [embed_sequence_dim; embd_dim]
                     (random_normal_initializer stdev_0_01) true act
    | Some (axial_dim_1, axial_dim_2) =>
        let axial_dim := mkDim "axial_dim" (axial_dim_1 * axial_dim_2) in
        let dim_axials_0 := mkDim "axial_dim_0" axial_dim_1 in
        let dim_axials_1 := mkDim "axial_dim_1" axial_dim_2 in
        let axial_wpe_1 := get_variable vs "axial_wpe_1" [dim_axials_0; embd_dim]
                                        (random_normal_initializer stdev_0_01) true act in
        let axial_wpe_2 := get_variable vs "axial_wpe_2" [dim_axials_1; embd_dim]
                                        (random_normal_initializer stdev_0_01) true act in
        let axial_wpe_1 := broadcast axial_wpe_1 [dim_axials_0; dim_axials_1; embd_dim] in
        let axial_wpe_2 := broadcast axial_wpe_2 [dim_axials_0; dim_axials_1; embd_dim] in
        let wpe := (axial_wpe_1 [+] axial_wpe_2) [/] scalar act (r_of_Z 2) in
        reshape wpe [axial_dim; embd_dim]
    end in
  let wte := get_variable vs "wte" [vocab_dim; embd_dim]
                          (random_normal_initializer stdev_0_02) true act in
  let '(wpe, wte) :=
    if Qgt0 (p_embed_dropout params) && String.eqb (p_mode params) "train" then
      (dropout wpe (p_embed_dropout params) "wpe_dropout",
       dropout wte (p_embed_dropout params) "wte_dropout")
    else (wpe, wte) in
  let h := gather wte x vocab_dim in
  let position_indices :=
    match context with
    | Some c => if negb (is_incremental_inference context) then range sequence_dim int64
                else unary (fun p => p - 1) (position c)
    | None => range sequence_dim int64
    end in
  wpe0 <- lift (list_get (shape wpe) 0) ;;
  let h := h [+] gather wpe position_indices wpe0 in
  let aux_losses := get_variable vs "aux_losses" [] (constant_initializer r0) false
                                 (slice_dtype variable_dtype) in
  '(h, aux_losses) <-
    layers_loop vs params other_features sequence_dim variable_dtype
                (seq 0 (Z.to_nat (p_n_layer params))) h aux_losses ;;
  logits <-
    (if no_weight_tie_emb then
       lift (linear (variable_scope vs "wte_final_linear") h "linear_out" vocab_dim
                    stdev_0_02 (Given variable_dtype) params false)
     else
       h <- lift (layer_norm vs h "ln_f" variable_dtype None eps_1e_5) ;;
       let seq_dim := if negb (is_incremental_inference context) then sequence_dim
                      else mkDim "sequence" 1 in
       ret (einsum [h; wte] [batch_dim; seq_dim; vocab_dim])) ;;
  '(logits, loss, loss_batch) <-
    (if String.eqb (p_mode params) "train" then
       '(logits, loss, loss_batch) <- lift (train_loss params mtf_features logits aux_losses) ;;
       ret (logits, Some loss, Some loss_batch)
     else ret (logits, None, None)) ;;
  let loss := match loss with
              | Some loss => Some (cast loss (slice_dtype variable_dtype))
              | None => None
              end in
  let logits := cast logits (master_dtype variable_dtype) in
  ret (logits, loss, loss_batch).

End Layers.
End gpt2.

(* ------------------------------------------------------------------------ *)
(** ** model_fns.py *)

(** What the estimator entry point takes from TensorFlow, from
    Mesh-TensorFlow's utilities and from sample.py; left uninterpreted. *)
Class Runtime {SC : Scalars} : Type := {
  (** [mtf_transformer.utils.serialize_num_microbatches]: batch dimension,
      sequence length, tokens per microbatch and replica *)
  serialize_num_microbatches : Dimension -> Z -> option Z -> Z;
  (** the features of one microbatch *)
  microbatch_value : Tensor Z -> Z -> Env -> Z;
  (** the outputs of the serialized step, combined over the microbatches *)
  combined_value : Tensor R -> Z -> Env -> R;
  (** [sample_autoregressive] of sample.py, which is not among the sources:
      the partial sequences, the other features, the configuration, the
      precision and [remove_partial_sequences]; what it returns or raises is
      left open *)
  sample_autoregressive :
    Tensor Z -> gpt2.OtherFeatures -> Params -> DType -> bool -> result (Tensor Z);
  (** [mtf.transformer.utils.clean_decodes] *)
  clean_decodes : list Z -> list Z
}.

Module model_fns.
Section ModelFn.
Context {SC : Scalars} {LB : Library} {RT : Runtime}.

Inductive ModeKeys : Type := TRAIN | EVAL | PREDICT.

Definition is_predict (mode : ModeKeys) : bool :=
  match mode with PREDICT => true | _ => false end.

(** A lowered tensor: its elements in row-major order. *)
Definition tf_tensor (A : Type) : Type := list A.

Fixpoint all_envs (s : Shape) (e : Env) : list Env :=
  match s with
  | [] => [e]
  | d :: s' =>
      flat_map (fun i => all_envs s' (upd e (dname d) (Z.of_nat i)))
               (seq 0 (Z.to_nat (dsize d)))
  end.

(** [mtf.import_fully_replicated(mesh, x, shape, name)] *)
Definition import_fully_replicated (x : tf_tensor Z) (s : Shape) : Tensor Z :=
  mkTensor s int32 (fun e => nth (Z.to_nat (flat_index s e)) x 0).

(** [lowering.export_to_tf_tensor(x)] *)
Definition export_to_tf_tensor {A} (x : Tensor A) : tf_tensor A :=
  map (elem x) (all_envs (shape x) (fun _ => 0)).

(** [mtf.anonymize(x)]: the same tensor, fully replicated. *)
Definition anonymize {A} (x : Tensor A) : Tensor A := x.

(** Lines 66-67. *)
Definition batch_dim (mode : ModeKeys) (params : Params) : Dimension :=
  let batch_size := if is_predict mode then 1 else p_train_batch_size params in
  mkDim "batch" batch_size.

(** Lines 63-79: the features imported on the mesh. *)
Definition import_features (features labels : option (tf_tensor Z)) (mode : ModeKeys)
           (params : Params) : gpt2.Features :=
  let batch_dims := [batch_dim mode params] in
  let feature_length := p_n_ctx params in
  let length_dim := mkDim "sequence" feature_length in
  let import x := import_fully_replicated x (batch_dims ++ [length_dim]) in
  gpt2.mkFeatures (option_map import features) (option_map import labels).

(** Modelled from the spec: [biasmask_attn_weights] of models/utils.py, which
    is not among the sources.  Section 4.4: an additive bias mask of shape
    [query_len, memory_len], 0 where attention is allowed (the key position
    is at or before the query position) and a large negative number where it
    is not. *)
Definition biasmask_attn_weights (nd ns : Dimension) (dt : DType) : T :=
  mkTensor [nd; ns] dt
           (fun e => if e (dname ns) <=? e (dname nd) then r0 else r_of_Z (-10000000000)).

(** Lines 82-101. *)
Definition build_other_features (params : Params) : gpt2.OtherFeatures :=
  let length_dim := mkDim "sequence" (p_n_ctx params) in
  let memory_length_dim := mkDim "memory_length" (dsize length_dim) in
  let attn_bias := biasmask_attn_weights length_dim memory_length_dim float32 in
  let embd_dim := mkDim "embd" (p_n_embd params) in
  let vocab_dim := mkDim "vocab" (p_n_vocab params) in
  let embed_sequence_dim := mkDim "embed_sequence" (p_n_ctx params) in
  gpt2.mkOtherFeatures attn_bias embd_dim vocab_dim embed_sequence_dim memory_length_dim.

(** The dictionary [serialized_fn] returns. *)
Record Outputs : Type := mkOutputs {
  out_logits : T;
  out_loss : option T;
  out_loss_batch : option T
}.

(** [serialized_fn(mtf_features)], lines 149-154; without a value when the
    model is not "GPT2".  The call of [gpt2.model] binds four arguments. *)
Definition serialized_fn (other_features : gpt2.OtherFeatures) (params : Params)
           (mtf_features : gpt2.Features) : result (option Outputs) :=
  if match p_model params with Some m => String.eqb m "GPT2" | None => false end then
    '(logits, loss, loss_batch) <-
      fst (gpt2.model "gpt2" mtf_features other_features params Missing None) ;;
    ret (Some (mkOutputs logits loss loss_batch))
  else ret None.

(** [mtf.serialize_training_step(features, model_fn, batch_dim, num_splits)]:
    calls [model_fn] on the features of a microbatch, reads ["loss"] in what
    it returns, and combines the outputs over the microbatches. *)
Definition serialize_training_step (mtf_features : gpt2.Features)
           (fn : gpt2.Features -> result (option Outputs)) (batch : Dimension)
           (num_splits : Z) : result Outputs :=
  let smaller := mkDim (dname batch) (dsize batch / num_splits) in
  let select x := mkTensor (map (fun d => if dim_eqb d batch then smaller else d) (shape x))
                           (dtype x) (microbatch_value x num_splits) in
  let my_features := gpt2.mkFeatures (option_map select (gpt2.inputs mtf_features))
                                     (option_map select (gpt2.labels mtf_features)) in
  outputs <- fn my_features ;;
  match outputs with
  | None => Raise (TypeError "'NoneType' object is not subscriptable")
  | Some o =>
      let combine x := mkTensor (map (fun d => if dim_eqb d smaller then batch else d)
                                     (shape x))
                                (dtype x) (combined_value x num_splits) in
      ret (mkOutputs (combine (out_logits o)) (option_map combine (out_loss o))
                     (option_map combine (out_loss_batch o)))
  end.

(** [tf.reduce_mean(x)] *)
Definition tf_reduce_mean (x : tf_tensor R) : R :=
  rdiv (fold_left radd x r0) (r_of_Z (Z.of_nat (List.length x))).

(** [tf.metrics.mean(values)]: a streaming mean.  It keeps the total and the
    count of the values it has been fed; its update adds the values of one
    evaluation step, and it reports the total divided by the count. *)
Record MetricState : Type := mkMetricState { total : R; count : Z }.

Definition Metric : Type := MetricState -> MetricState.

Definition metric_init : MetricState := mkMetricState r0 0.

Definition tf_metrics_mean (values : tf_tensor R) : Metric :=
  fun st => mkMetricState (radd (total st) (fold_left radd values r0))
                          (count st + Z.of_nat (List.length values)).

Definition metric_value (st : MetricState) : R := rdiv (total st) (r_of_Z (count st)).

(** [_perplexity(tf_loss_batch)], lines 262-266 *)
Definition _perplexity (params : Params) (tf_loss_batch : tf_tensor R) : Metric :=
  let loss := tf_reduce_mean tf_loss_batch in
  let loss := rdiv loss (r_of_Z (p_num_microbatches params)) in
  let perplexity := r_exp loss in
  tf_metrics_mean [perplexity].

(** [_metric_fn(tf_logits, tf_loss_batch)], lines 268-271 *)
Definition _metric_fn (params : Params) (tf_logits tf_loss_batch : tf_tensor R)
  : list (string * Metric) :=
  let mean_logits := tf_metrics_mean tf_logits in
  let perp := _perplexity params tf_loss_batch in
  [("mean_logits", mean_logits); ("perplexity", perp)].

Inductive TPUEstimatorSpec : Type :=
| PredictSpec (orig_inputs inputs outputs : tf_tensor Z)
| TrainSpec (loss : tf_tensor R) (log_loss log_batch_loss : tf_tensor R)
| EvalSpec (loss : tf_tensor R) (eval_metrics : list (string * Metric)).

(** [x.attr] where [x] may be [None] *)
Definition not_none {A} (x : option A) : result A :=
  match x with
  | Some a => Ok a
  | None => Raise (AttributeError "'NoneType' object has no attribute")
  end.

(** [model_fn(features, labels, mode, params)].  The graph, the mesh and its
    placement (lines 18-59), the optimizer's update operations and the
    checkpoint and logging hooks are handles that no value below depends on;
    the estimator specification keeps the exported tensors and the metrics.
    Both calls of [gpt2.model] bind four arguments, [quit()] raises
    [SystemExit]. *)
Definition model_fn (features labels : option (tf_tensor Z)) (mode : ModeKeys)
           (params : Params) : result TPUEstimatorSpec :=
  let batch_dim := batch_dim mode params in
  let mtf_features := import_features features labels mode params in
  let other_features := build_other_features params in
  if is_predict mode then
    inputs <- match gpt2.inputs mtf_features with
              | Some x => ret x
              | None => Raise (KeyError "inputs")
              end ;;
    mtf_samples <- sample_autoregressive inputs other_features params float32 true ;;
    let mtf_samples := anonymize mtf_samples in
    let orig_inputs := export_to_tf_tensor inputs in
    let inputs := clean_decodes (export_to_tf_tensor (anonymize inputs)) in
    let outputs := clean_decodes (export_to_tf_tensor mtf_samples) in
    ret (PredictSpec orig_inputs inputs outputs)
  else
    let num_microbatches :=
      serialize_num_microbatches batch_dim (p_n_ctx params)
                                 (p_tokens_per_mb_per_replica params) in
    let params := set_num_microbatches params num_microbatches in
    out <-
      (if 1 <? num_microbatches then
         serialize_training_step mtf_features (serialized_fn other_features params)
                                 batch_dim num_microbatches
       else
         if match p_model params with Some m => String.eqb m "GPT2" | None => false end then
           '(logits, loss, loss_batch) <-
             fst (gpt2.model "gpt2" mtf_features other_features params Missing None) ;;
           ret (mkOutputs logits loss loss_batch)
         else
           Raise (Exception (get_default (p_model params) "None" ++
                             " is not a valid model - please select from GPT2")%string)) ;;
    (if p_auto_layout params then Raise SystemExit else ret tt) ;;;
    (if p_auto_layout_and_mesh_shape params then Raise SystemExit else ret tt) ;;;
    loss <- not_none (out_loss out) ;;
    loss_batch <- not_none (out_loss_batch out) ;;
    let tf_loss := export_to_tf_tensor loss in
    let tf_loss_batch_log := export_to_tf_tensor loss_batch in
    match mode with
    | TRAIN => ret (TrainSpec tf_loss tf_loss tf_loss_batch_log)
    | _ =>
        let tf_logits := export_to_tf_tensor (anonymize (out_logits out)) in
        let tf_loss_batch := export_to_tf_tensor (anonymize loss_batch) in
        ret (EvalSpec tf_loss (_metric_fn params tf_logits tf_loss_batch))
    end.

End ModelFn.
End model_fns.

(* ------------------------------------------------------------------------ *)
(** ** Vocabulary of the statements *)

(** A property of index assignments that no dimension of [dims] can change. *)
Definition stable (P : Env -> Prop) (dims : list Dimension) : Prop :=
  forall d, In d dims -> forall e t, P e -> P (upd e (dname d) t).

(** The index along dimension [s] stays at or below [i]. *)
Definition upto (s : Dimension) (i : Z) : Env -> Prop := fun e => e (dname s) <= i.

Section Recording.
Context {SC : Scalars}.

(** [new] holds what [old] holds wherever the index along [dim] is not
    [pos - 1]. *)
Definition kept_except (dim : Dimension) (pos : Tensor Z) (old new : T) : Prop :=
  forall e, e (dname dim) <> elem pos e - 1 -> elem new e = elem old e.

(** Starting from the context [c], a pass that ends in [st'] has read the
    cached states [consumed], in order, and has recorded for each of them a
    state that differs from it at most at the decoding position. *)
Definition spliced (dim : Dimension) (c : Context) (st' : St) : Prop :=
  exists consumed rest added,
    skipn (List.length (new_states c)) (states c) = consumed ++ rest /\
    st' = Some (mkContext (ctx_mode c) (position c) (states c) (new_states c ++ added)) /\
    Forall2 (kept_except dim (position c)) consumed added.

(** Two contexts, neither of them incremental, of the same mode and with the
    same recorded states; their caches and positions may differ. *)
Definition same_recording (st1 st2 : St) : Prop :=
  match st1, st2 with
  | Some c1, Some c2 =>
      ctx_mode c1 <> "incremental" /\ ctx_mode c2 = ctx_mode c1 /\
      new_states c2 = new_states c1
  | None, None => True
  | _, _ => False
  end.

(** Two computations that, run in such contexts, have the same outcome and
    end in such contexts. *)
Definition cache_blind {A} (m1 m2 : Py St A) : Prop :=
  forall st1 st2,
    same_recording st1 st2 ->
    fst (m1 st1) = fst (m2 st2) /\ same_recording (snd (m1 st1)) (snd (m2 st2)).

(** A computation that leaves the decoding context as it was but for states
    appended to the recorded ones, whether it returns or raises. *)
Definition only_appends {A} (m : Py St A) : Prop :=
  forall st r st', m st = (r, st') -> exists added, records st st' added.

(** The states a call with context [st] is expected to record. *)
Definition if_context (st : St) (l : list T) : list T :=
  match st with Some _ => l | None => [] end.

End Recording.

Section KeyValue.
Context {SC : Scalars} {LB : Library}.

(** The attention parameters of a layer built in the variable scope [vs] on
    an input whose last dimension is [dim_embd] ([attn], lines 146-159). *)
Definition layer_attention_params (vs : string) (params : Params) (dim_embd : Dimension)
           (vd : VariableDType) : AttentionParams :=
  attention_params_simple vs dim_embd
                          (mkDim "features_per_head" (p_n_embd params / p_n_head params))
                          (mkDim "heads" (p_n_head params)) vd.

(** [new] put into [old] at index [position - 1] along [dim_seq], as [attn]
    writes it: [old * (1 - one_hot) + new * one_hot]. *)
Definition splice (c : Context) (dim_seq : Dimension) (vd : VariableDType) (old new : T)
  : T :=
  let one_hot := one_hot (unary (fun p => p - 1) (position c)) dim_seq (master_dtype vd) in
  old [*] (scalar (dtype one_hot) r1 [-] one_hot) [+] new [*] one_hot.

(** The context [c] after [added] has been recorded in it. *)
Definition with_recorded (c : Context) (added : list T) : Context :=
  mkContext (ctx_mode c) (position c) (states c) (new_states c ++ added).

(** The variable scope of the block of layer [layer] in a model built in the
    scope [vs] ([model], lines 462-463, and [block], line 318). *)
Definition block_scope (vs : string) (params : Params) (layer : nat) : string :=
  let share_parameters := get_default (p_share_parameters params) false in
  variable_scope vs ("h" ++ (if negb share_parameters then gpt2.str layer else ""))%string.

(** [rec] is the key and the value of the attention layer of a block built in
    the scope [vs] that finds the context [c]: the key and value projections,
    by the attention parameters of the layer, of the normalised input of the
    block; when [c] is incremental, each spliced at the decoding position into
    one of the next two states of the cache. *)
Definition key_value_pair (vs : string) (params : Params) (vd : VariableDType)
           (dim_seq : Dimension) (c : Context) (rec : list T) : Prop :=
  exists (h x : T) (dim_embd : Dimension),
    gpt2.prenorm vs params vd h "norm_1" = Ok x /\
    list_last (shape x) = Ok dim_embd /\
    let p := layer_attention_params (variable_scope vs "attn") params dim_embd vd in
    if String.eqb (ctx_mode c) "incremental" then
      exists old_k old_v,
        get_states c 2 = [old_k; old_v] /\
        rec = [splice c dim_seq vd old_k (compute_k p x);
               splice c dim_seq vd old_v (compute_v p x)]
    else rec = [compute_k p x; compute_v p x].

End KeyValue.

(** Layer [layer] is among the configured mixture-of-experts layers. *)
Definition moe_layer (params : Params) (layer : nat) : bool :=
  match p_moe_layers params with
  | Some l => existsb (Z.eqb (Z.of_nat layer)) l
  | None => false
  end.

(** An attention type that [attn] implements. *)
Definition attention_type_known (t : pystr) : Prop :=
  str_val t = "local" \/ str_val t = "global" \/ str_val t = "linear".

(** The number of states a layer of type [t] records. *)
Definition recorded_by (t : pystr) : nat :=
  if String.eqb (str_val t) "none" then 0%nat else 2%nat.

(** The number of states a pass over all the layers records: two for every
    layer whose attention type is not "none". *)
Definition states_needed (params : Params) : nat :=
  list_sum (map (fun layer => match nth_error (p_attention_types params) layer with
                              | Some t => recorded_by t
                              | None => 0%nat
                              end)
                (seq 0 (Z.to_nat (p_n_layer params)))).


(* ------------------------------------------------------------------------ *)
(** ** A computable instance

    Integer scalars with exact arithmetic, for running the graph construction
    on examples.  The transcendental functions and the library layers are
    integer stand-ins; every trainable variable holds 1. *)

Module Example.

Definition ZScalars : Scalars := {|
  R := Z;
  r0 := 0;
  r1 := 1;
  radd := Z.add;
  rsub := Z.sub;
  rmul := Z.mul;
  rdiv := Z.div;
  ropp := Z.opp;
  r_of_Z := fun z => z;
  r_of_Q := Qfloor;
  r_exp := Z.pow 2;
  r_elu := Z.max (-1);
  r_gelu := Z.max 0;
  r_sqrt := Z.sqrt;
  r_rsqrt := fun _ => 1;
  softmax_row := fun row i => nth (Z.to_nat i) row 0
|}.

Definition ZLibrary : @Library ZScalars := {|
  variable_value := fun _ _ => 1%Z : @R ZScalars;
  compute_q_value := fun _ _ _ _ x e => elem x e;
  compute_k_value := fun _ _ _ _ x e => elem x e + 1;
  compute_v_value := fun _ _ _ _ x e => elem x e + 2;
  compute_output_value := fun _ _ _ _ a _ e => elem a e;
  local_attention_1d_value := fun q k v _ _ _ _ e => elem q e * elem k e + elem v e;
  attention_value := fun q k v _ _ _ _ _ e => elem q e * elem k e + elem v e;
  dense_value := fun _ x _ _ _ _ e => elem x e;
  dropout_value := fun x _ _ e => elem x e;
  moe_output_value := fun _ x _ _ _ e => elem x e;
  moe_loss_value := fun _ _ _ _ _ _ => 1;
  softmax_cross_entropy_value := fun logits targets _ _ e => elem logits e - elem targets e
|}.

Definition ZRuntime : @Runtime ZScalars := {|
  serialize_num_microbatches :=
    fun _ _ tokens => match tokens with None => 1 | Some _ => 2 end;
  microbatch_value := fun x _ e => elem x e;
  combined_value := fun x _ e => elem x e;
  sample_autoregressive := fun partial_sequences _ _ _ _ => Ok partial_sequences;
  clean_decodes := fun l => l
|}.

Definition float_dtype : VariableDType := mkVariableDType float32 float32 float32.

(** Two layers, embedding width 2, one head, vocabulary 4, sequence length 2. *)
Definition config (types : list pystr) (model_name mode : string) : Params := {|
  p_model := Some model_name;
  p_mode := mode;
  p_n_ctx := 2;
  p_n_embd := 2;
  p_n_vocab := 4;
  p_n_head := 1;
  p_n_layer := Z.of_nat (List.length types);
  p_attention_types := types;
  p_num_mem_kv := None;
  p_local_attention_radius := None;
  p_attn_dropout := 0;
  p_res_dropout := 0;
  p_embed_dropout := 0;
  p_mlp_glu := false;
  p_scalenorm := false;
  p_rezero := false;
  p_moe_layers := None;
  p_moe_params := None;
  p_recompute_grad := false;
  p_axial_pos_emb := None;
  p_no_weight_tie := false;
  p_share_parameters := None;
  p_scale_by_depth := false;
  p_scale_by_in := false;
  p_causal := Some false;
  p_padding_id := None;
  p_z_loss := None;
  p_num_microbatches := 1;
  p_train_batch_size := 1;
  p_tokens_per_mb_per_replica := None;
  p_auto_layout := false;
  p_auto_layout_and_mesh_shape := false
|}.

(** One layer with global attention and the gated feed-forward. *)
Definition glu_config : Params := {|
  p_model := Some "GPT2";
  p_mode := "predict";
  p_n_ctx := 2;
  p_n_embd := 2;
  p_n_vocab := 4;
  p_n_head := 1;
  p_n_layer := 1;
  p_attention_types := [Heap 0 "global"];
  p_num_mem_kv := None;
  p_local_attention_radius := None;
  p_attn_dropout := 0;
  p_res_dropout := 0;
  p_embed_dropout := 0;
  p_mlp_glu := true;
  p_scalenorm := false;
  p_rezero := false;
  p_moe_layers := None;
  p_moe_params := None;
  p_recompute_grad := false;
  p_axial_pos_emb := None;
  p_no_weight_tie := false;
  p_share_parameters := None;
  p_scale_by_depth := false;
  p_scale_by_in := false;
  p_causal := Some false;
  p_padding_id := None;
  p_z_loss := None;
  p_num_microbatches := 1;
  p_train_batch_size := 1;
  p_tokens_per_mb_per_replica := None;
  p_auto_layout := false;
  p_auto_layout_and_mesh_shape := false
|}.

Definition batch : Dimension := mkDim "batch" 1.
Definition sequence : Dimension := mkDim "sequence" 2.
Definition heads : Dimension := mkDim "heads" 1.
Definition features_per_head : Dimension := mkDim "features_per_head" 2.
Definition embd : Dimension := mkDim "embd" 2.

(** Tokens and labels [[1, 2]] of one sequence. *)
Definition tokens : Tensor Z :=
  mkTensor [batch; sequence] int32 (fun e => e "sequence" + 1).

Definition features : gpt2.Features := gpt2.mkFeatures (Some tokens) (Some tokens).

(** The same tokens with labels [[0, 1]]: the first label is the padding id. *)
Definition padded_labels : Tensor Z :=
  mkTensor [batch; sequence] int32 (fun e => e "sequence").

Definition padded_features : gpt2.Features :=
  gpt2.mkFeatures (Some tokens) (Some padded_labels).

Definition other_features : gpt2.OtherFeatures :=
  model_fns.build_other_features (SC := ZScalars) (config [] "GPT2" "train").

(** A hidden state [batch, sequence, embd] holding 1 everywhere. *)
Definition ones : @T ZScalars :=
  mkTensor (A := Z) [batch; sequence; embd] float32 (fun _ => 1).

(** The hidden state [batch, embd] of the newest token, as a layer gets it
    when decoding incrementally. *)
Definition last_token : @T ZScalars :=
  mkTensor (A := Z) [batch; embd] float32 (fun _ => 1).

(** Keys or values [batch, sequence, heads, features_per_head] that hold the
    sequence position, and a copy that differs from position 1 on. *)
Definition values : @T ZScalars :=
  mkTensor (A := Z) [batch; sequence; heads; features_per_head] float32
           (fun e => e "sequence").

Definition values' : @T ZScalars :=
  mkTensor (A := Z) [batch; sequence; heads; features_per_head] float32
           (fun e => if e "sequence" <=? 0 then e "sequence" else 7).

(** A decoding context at position 2 whose cache holds one key and one value. *)
Definition incremental_context : @Context ZScalars :=
  @mkContext ZScalars "incremental" (scalar int32 2) [values; values'] [].

Definition full_context : @Context ZScalars :=
  @mkContext ZScalars "first_part" (scalar int32 0) [] [].

Definition mtfparams : AttentionParams :=
  attention_params_simple "gpt2/h0/attn" embd features_per_head heads float_dtype.

(** Attention types as a JSON configuration holds them, the literal ["none"]
    of a configuration written in Python, and a type that does not exist. *)
Definition global_local : list pystr := [Heap 0 "global"; Heap 1 "local"].
Definition global_none : list pystr := [Heap 0 "global"; Interned "none"].
Definition only_none : list pystr := [Interned "none"].
Definition sparse : list pystr := [Heap 0 "global"; Heap 1 "sparse"].

End Example.
(* ------------------------------------------------------------------------ *)
(** ** Sums *)

Section SumLemmas.
Context {SC : Scalars}.

Lemma fold_radd_ext (f g : Z -> R) (l : list nat) (a : R) :
  (forall t, In t l -> f (Z.of_nat t) = g (Z.of_nat t)) ->
  fold_left (fun acc t => radd acc (f (Z.of_nat t))) l a =
  fold_left (fun acc t => radd acc (g (Z.of_nat t))) l a.
Proof.
  revert a. induction l as [|x l IH]; intros a Hfg; simpl.
  - reflexivity.
  - rewrite (Hfg x) by (left; reflexivity).
    apply IH. intros t Ht. apply Hfg. right. exact Ht.
Qed.

Lemma rsum_ext (n : nat) (f g : Z -> R) :
  (forall t, 0 <= t < Z.of_nat n -> f t = g t) ->
  rsum n f = rsum n g.
Proof.
  intros Hfg. unfold rsum. apply fold_radd_ext.
  intros t Ht. apply in_seq in Ht. apply Hfg. lia.
Qed.

Lemma sum_over_ext (P : Env -> Prop) (dims : list Dimension) (f g : Env -> R) :
  stable P dims ->
  (forall e, P e -> f e = g e) ->
  forall e, P e -> sum_over dims f e = sum_over dims g e.
Proof.
  induction dims as [|d ds IH]; intros Hst Hfg e He; simpl.
  - apply Hfg, He.
  - apply rsum_ext. intros t _. apply IH.
    + intros d' Hd'. apply Hst. right. exact Hd'.
    + exact Hfg.
    + apply Hst; [left; reflexivity | exact He].
Qed.

End SumLemmas.

(* ------------------------------------------------------------------------ *)
(** ** Reasoning about code that may raise *)

Lemma bind_result_ok {A B} (m : result A) (f : A -> result B) (b : B) :
  bind m f = Ok b -> exists a, m = Ok a /\ f a = Ok b.
Proof.
  destruct m as [a|e]; simpl; intros H; [eauto | discriminate].
Qed.

Lemma bind_Py_ok {S A B} (m : Py S A) (f : A -> Py S B) (s s' : S) (b : B) :
  bind m f s = (Ok b, s') -> exists a s1, m s = (Ok a, s1) /\ f a s1 = (Ok b, s').
Proof.
  simpl. destruct (m s) as [[a|e] s1]; intros H; [eauto | discriminate].
Qed.

Lemma bind_Py_raise {S A B} (m : Py S A) (f : A -> Py S B) (s s1 : S) (e : exn) :
  m s = (Raise e, s1) -> bind m f s = (Raise e, s1).
Proof. simpl. intros ->. reflexivity. Qed.

Lemma bind_Py_step {S A B} (m : Py S A) (f : A -> Py S B) (s s1 : S) (a : A) :
  m s = (Ok a, s1) -> bind m f s = f a s1.
Proof. simpl. intros ->. reflexivity. Qed.

Lemma lift_ok {S A} (r : result A) (s s' : S) (a : A) :
  lift r s = (Ok a, s') -> r = Ok a /\ s' = s.
Proof. unfold lift. intros H. inversion H. auto. Qed.

Lemma ret_Py_ok {S A} (a b : A) (s s' : S) :
  ret a s = (Ok b, s') -> b = a /\ s' = s.
Proof. simpl. intros H. inversion H. auto. Qed.

Lemma raise_not_ok {S A} (e : exn) (s s' : S) (a : A) :
  raise e s = (Ok a, s') -> False.
Proof. unfold raise. discriminate. Qed.

(** Inversion of a successful run, one step at a time. *)
Ltac inv_ok_step :=
  match goal with
  | H : bind _ _ _ = (Ok _, _) |- _ =>
      apply bind_Py_ok in H; destruct H as (? & ? & ? & H)
  | H : bind _ _ = Ok _ |- _ =>
      apply bind_result_ok in H; destruct H as (? & ? & H)
  | H : lift _ _ = (Ok _, _) |- _ =>
      apply lift_ok in H; destruct H as [H ?]; subst
  | H : ret _ _ = (Ok _, _) |- _ =>
      apply ret_Py_ok in H; destruct H as [? ?]; subst
  | H : ret _ = Ok _ |- _ => simpl in H; inversion H; clear H; subst
  | H : raise _ _ = (Ok _, _) |- _ => exfalso; exact (raise_not_ok H)
  | H : get_context _ = (Ok _, _) |- _ => unfold get_context in H; inversion H; clear H; subst
  | H : Ok _ = Ok _ |- _ => inversion H; clear H; subst
  | H : Raise _ = Ok _ |- _ => discriminate H
  | H : (_, _) = (_, _) |- _ => inversion H; clear H; subst
  | H : required _ _ (Given _) = Ok _ |- _ => simpl in H
  | H : required _ _ Missing = Ok _ |- _ => discriminate H
  | H : (Raise _, _) = (Ok _, _) |- _ => discriminate H
  | H : (let (_, _) := ?x in _) _ = (Ok _, _) |- _ => destruct x
  | H : (let (_, _) := ?x in _) = Ok _ |- _ => destruct x
  end.

Ltac inv_ok := repeat inv_ok_step.

(* ------------------------------------------------------------------------ *)
(** ** Shapes *)

Lemma broadcast_shape_nil_r (s : Shape) : broadcast_shape s [] = s.
Proof.
  unfold broadcast_shape. destruct s as [|d s]; reflexivity.
Qed.

Lemma broadcast_shape_In (d : Dimension) (s1 s2 : Shape) :
  In d (broadcast_shape s1 s2) -> In d s1 \/ In d s2.
Proof.
  unfold broadcast_shape.
  destruct (is_subsequence s1 s2); [now right|].
  destruct (is_subsequence s2 s1); [now left|].
  rewrite in_app_iff, filter_In. tauto.
Qed.

Lemma dim_in_In (d : Dimension) (s : Shape) : dim_in d s = true <-> In d s.
Proof.
  unfold dim_in. rewrite existsb_exists. split.
  - intros [x [Hx Hd]]. unfold dim_eqb in Hd.
    destruct (Dimension_eq_dec d x); [subst; exact Hx | discriminate].
  - intros H. exists d. split; [exact H|].
    unfold dim_eqb. destruct (Dimension_eq_dec d d); [reflexivity | contradiction].
Qed.

Lemma list_get_ok {A} (l : list A) (i : nat) (x : A) :
  list_get l i = Ok x -> nth_error l i = Some x.
Proof.
  unfold list_get. destruct (nth_error l i); intros H; inversion H; reflexivity.
Qed.

Lemma list_last_ok {A} (l : list A) :
  l <> [] -> exists x, list_last l = Ok x /\ In x l.
Proof.
  intros Hl. unfold list_last. destruct (rev l) as [|x r] eqn:E.
  - apply (f_equal (@rev A)) in E. rewrite rev_involutive in E. contradiction.
  - exists x. split; [reflexivity|].
    apply in_rev. rewrite E. left. reflexivity.
Qed.

Lemma list_last_In {A} (l : list A) (x : A) : list_last l = Ok x -> In x l.
Proof.
  unfold list_last. destruct (rev l) as [|y r] eqn:E; intros H; inversion H; subst.
  apply in_rev. rewrite E. left. reflexivity.
Qed.

Section Causality.
Context {SC : Scalars}.

Lemma reduced_dims_In (d : Dimension) (xs : list (Tensor R)) (out : Shape) :
  In d (reduced_dims xs out) ->
  (exists x, In x xs /\ In d (shape x)) /\ ~ In d out.
Proof.
  unfold reduced_dims. rewrite nodup_In, filter_In, in_flat_map.
  intros [Hx Hout]. split; [exact Hx|].
  intros Hin. apply dim_in_In in Hin. rewrite Hin in Hout. discriminate.
Qed.

(** No dimension that an einsum sums over is named like [s], when [s] is a
    dimension of the output and every operand dimension named like [s] is [s]. *)
Lemma upto_stable (s : Dimension) (i : Z) (xs : list (Tensor R)) (out : Shape) :
  In s out ->
  (forall x d, In x xs -> In d (shape x) -> dname d = dname s -> d = s) ->
  stable (upto s i) (reduced_dims xs out).
Proof.
  intros Hs Hnames d Hd e t He. unfold upto, upd.
  destruct (String.eqb (dname s) (dname d)) eqn:E; [|exact He].
  apply String.eqb_eq in E.
  apply reduced_dims_In in Hd. destruct Hd as [[x [Hx Hdx]] Hout].
  exfalso. apply Hout. rewrite (Hnames x d Hx Hdx (eq_sym E)). exact Hs.
Qed.

Lemma cumsum_upto (s : Dimension) (i : Z) (x y : Tensor R) :
  (forall e, upto s i e -> elem x e = elem y e) ->
  forall e, upto s i e -> elem (cumsum x s) e = elem (cumsum y s) e.
Proof.
  intros Hxy e He. simpl. apply rsum_ext. intros t Ht.
  apply Hxy. unfold upto, upd in *. rewrite String.eqb_refl. lia.
Qed.

Lemma einsum_upto (s : Dimension) (i : Z) (xs ys : list (Tensor R)) (out : Shape) :
  flat_map (@shape R) ys = flat_map (@shape R) xs ->
  In s out ->
  (forall x d, In x xs -> In d (shape x) -> dname d = dname s -> d = s) ->
  (forall e, upto s i e -> map (fun x => elem x e) xs = map (fun y => elem y e) ys) ->
  forall e, upto s i e -> elem (einsum xs out) e = elem (einsum ys out) e.
Proof.
  intros Hsh Hs Hnames Hxy e He. unfold einsum. cbn [elem].
  unfold reduced_dims at 2. rewrite Hsh. fold (reduced_dims xs out).
  apply (sum_over_ext (P := upto s i)); [| |exact He].
  - apply upto_stable; assumption.
  - intros e1 He1. rewrite (Hxy e1 He1). reflexivity.
Qed.

Lemma rename_shape_named (s : Dimension) (sh : Shape) (d : Dimension) :
  dname s <> "features_per_head_in" ->
  (forall d', In d' sh -> dname d' = dname s -> d' = s) ->
  In d (map (rename_dim "features_per_head" "features_per_head_in") sh) ->
  dname d = dname s -> d = s.
Proof.
  intros Hs Hsh Hd Hname. apply in_map_iff in Hd. destruct Hd as [d0 [Hd0 Hin]].
  unfold rename_dim in Hd0.
  destruct (String.eqb (dname d0) "features_per_head").
  - subst d. simpl in Hname. congruence.
  - subst d0. apply Hsh; assumption.
Qed.

(** What a call of [linear_attention] that returns has read and computed. *)
Lemma linear_attention_inv (q k v out : Tensor R) (epsilon : R) :
  gpt2.linear_attention q k v epsilon = Ok out ->
  exists b s h o rest dim_in,
    shape v = b :: s :: h :: o :: rest /\
    existsb (fun d => String.eqb (dname d) "features_per_head") (shape q) = true /\
    existsb (fun d => String.eqb (dname d) "features_per_head") (shape k) = true /\
    let q1 := rename_dimension q "features_per_head" "features_per_head_in" in
    let k1 := rename_dimension k "features_per_head" "features_per_head_in" in
    list_last (shape k1) = Ok dim_in /\
    let k2 := elu k1 [+] scalar (dtype k1) r1 in
    let cumulative_k := cumsum k2 s in
    out = einsum [softmax q1 dim_in;
                  cumsum (einsum [k2; v] [b; s; h; dim_in; o]) s
                  [/] (cumulative_k [+] scalar (dtype cumulative_k) epsilon)]
                 [b; s; h; o].
Proof.
  unfold gpt2.linear_attention, list_get, rename_dimension_checked. intros H.
  destruct (shape v) as [|b [|s [|h [|o rest]]]];
    cbn [nth_error bind result_Monad] in H; try discriminate H.
  destruct (existsb _ (shape q)); cbn [bind result_Monad] in H; [|discriminate H].
  destruct (existsb _ (shape k)); cbn [bind result_Monad] in H; [|discriminate H].
  destruct (list_last (shape (rename_dimension k "features_per_head"
                                               "features_per_head_in")))
    as [dim_in|err] eqn:Hlast; cbn [bind result_Monad ret] in H; [|discriminate H].
  inversion H; subst out; clear H.
  exists b, s, h, o, rest, dim_in. cbn zeta. repeat split; reflexivity.
Qed.

(** C2. Linear attention is causal: when two value tensors of one shape agree
    at every sequence position up to [i] (and differ only later), the outputs
    of [linear_attention] for the same queries and keys, whenever it returns
    them, agree at every position up to [i], in particular at [i].  The
    sequence dimension [s] is the second dimension of the values; a dimension
    of an operand that carries its name is [s] itself, and that name is not
    the one the feature dimension is renamed to. *)
Theorem linear_attention_causal
  (q k v v' : Tensor R) (epsilon : R) (s : Dimension) (i : Z) (out out' : Tensor R) :
  nth_error (shape v) 1 = Some s ->
  shape v' = shape v ->
  (forall d, In d (shape q ++ shape k ++ shape v) -> dname d = dname s -> d = s) ->
  dname s <> "features_per_head_in" ->
  (forall e, e (dname s) <= i -> elem v e = elem v' e) ->
  gpt2.linear_attention q k v epsilon = Ok out ->
  gpt2.linear_attention q k v' epsilon = Ok out' ->
  shape out = shape out' /\
  forall e, e (dname s) <= i -> elem out e = elem out' e.
Proof.
  intros Hs1 Hv' Hnames Hs Hagree H H'.
  apply linear_attention_inv in H, H'. cbn zeta in H, H'.
  destruct H as (b & s0 & h & o & rest & dim_in & Hv & _ & _ & Hlast & ->).
  destruct H' as (b' & s0' & h' & o' & rest' & dim_in' & Hv2 & _ & _ & Hlast' & ->).
  rewrite Hv', Hv in Hv2. inversion Hv2; subst b' s0' h' o' rest'; clear Hv2.
  rewrite Hlast in Hlast'. inversion Hlast'; subst dim_in'; clear Hlast'.
  rewrite Hv in Hs1. cbn [nth_error] in Hs1. inversion Hs1; subst s0; clear Hs1.
  apply list_last_In in Hlast. rename Hlast into Hdin.
  split; [reflexivity|].
  assert (Hq_named : forall d,
             In d (map (rename_dim "features_per_head" "features_per_head_in") (shape q)) ->
             dname d = dname s -> d = s).
  { intros d. apply rename_shape_named; [exact Hs|].
    intros d' Hd'. apply Hnames. rewrite in_app_iff. now left. }
  assert (Hk_named : forall d,
             In d (map (rename_dim "features_per_head" "features_per_head_in") (shape k)) ->
             dname d = dname s -> d = s).
  { intros d. apply rename_shape_named; [exact Hs|].
    intros d' Hd'. apply Hnames. rewrite !in_app_iff. right. now left. }
  assert (Hv_named : forall d, In d (b :: s :: h :: o :: rest) -> dname d = dname s -> d = s).
  { intros d Hd. apply Hnames. rewrite !in_app_iff, Hv. right. now right. }
  assert (Hout_named : forall d, In d [b; s; h; dim_in; o] -> dname d = dname s -> d = s).
  { intros d Hd. simpl in Hd.
    destruct Hd as [<-|[<-|[<-|[<-|[<-|[]]]]]]; try (apply Hv_named; simpl; tauto).
    apply Hk_named. exact Hdin. }
  intros e He.
  apply (einsum_upto (s := s) (i := i)); [reflexivity | simpl; tauto | | | exact He].
  - intros x d [<-|[<-|[]]] Hd.
    + apply Hq_named. exact Hd.
    + simpl in Hd. apply broadcast_shape_In in Hd. destruct Hd as [Hd|Hd].
      * apply Hout_named. exact Hd.
      * rewrite !broadcast_shape_nil_r in Hd. apply Hk_named. exact Hd.
  - intros e1 He1. cbn [map]. do 2 f_equal.
    cbn [elem div binary]. f_equal.
    apply (cumsum_upto (s := s) (i := i)); [|exact He1].
    apply (einsum_upto (s := s) (i := i)).
    + simpl. rewrite Hv', Hv. reflexivity.
    + simpl; tauto.
    + intros x d [<-|[<-|[]]] Hd.
      * simpl in Hd. rewrite broadcast_shape_nil_r in Hd. apply Hk_named. exact Hd.
      * rewrite Hv in Hd. apply Hv_named. exact Hd.
    + intros e3 He3. cbn [map]. rewrite (Hagree e3 He3). reflexivity.
Qed.

End Causality.

(* ------------------------------------------------------------------------ *)
(** ** The dispatch on the attention type leaves the context alone *)

Section Dispatch.
Context {SC : Scalars} {LB : Library}.

Lemma attn_dispatch_ok
      (vs : string) (layer_num : nat) (params : Params)
      (dim_batch dim_heads dim_kv dim_seq memory_length_dim : Dimension)
      (vd : VariableDType) (inputs : T * T * T * option T * option T)
      (st st' : St) (a : T) :
  gpt2.attn_dispatch vs layer_num params dim_batch dim_heads dim_kv dim_seq
                     memory_length_dim vd inputs st = (Ok a, st') ->
  st' = st /\
  exists t, nth_error (p_attention_types params) layer_num = Some t /\
            attention_type_known t.
Proof.
  unfold gpt2.attn_dispatch. destruct inputs as [[[[q k] v] bias] one_hot].
  intros H. inv_ok.
  match goal with
  | Ht : list_get (p_attention_types params) _ = Ok ?t |- _ =>
      apply list_get_ok in Ht; rename t into ty
  end.
  unfold attention_type_known, py_eq in *.
  destruct (String.eqb_spec (str_val ty) "local"); inv_ok; [eauto 6|].
  destruct (String.eqb_spec (str_val ty) "global").
  - inv_ok. destruct bias; inv_ok.
    all: destruct (0 <? get_default (p_num_mem_kv params) 0); inv_ok; eauto 6.
  - destruct (String.eqb_spec (str_val ty) "linear"); inv_ok; eauto 6.
Qed.

End Dispatch.

(* ====================================================================== *)
(** ** Incremental decoding: the splice of the new key and value *)

Section Splice.
Context {SC : Scalars} {LB : Library}.
Hypothesis Rth : ring_theory r0 r1 radd rmul rsub ropp (@eq R).
Add Ring Rring : Rth.

Lemma splice_elem (old new : T) (idx : Tensor Z) (dim_seq : Dimension) (dt : DType)
      (e : Env) :
  elem (old [*] (scalar (dtype (one_hot idx dim_seq dt)) r1 [-] one_hot idx dim_seq dt)
        [+] new [*] one_hot idx dim_seq dt) e =
  if e (dname dim_seq) =? elem idx e then elem new e else elem old e.
Proof.
  cbn [elem mtf.add mtf.mul mtf.sub binary one_hot scalar].
  destruct (e (dname dim_seq) =? elem idx e); ring.
Qed.

Lemma unpack_shape_inv (x : T) (x_shape : Shape) (dim_batch dim_embd : Dimension) :
  gpt2.unpack_shape x = Ok (x_shape, dim_batch, dim_embd) ->
  x_shape = shape x /\ nth_error (shape x) 0 = Some dim_batch /\
  list_last (shape x) = Ok dim_embd.
Proof.
  unfold gpt2.unpack_shape, list_last.
  destruct (shape x) as [|a [|b s]] eqn:E; try discriminate.
  destruct (rev (a :: b :: s)) as [|l r] eqn:Er; [discriminate|].
  intros H. inversion H; subst. repeat split; reflexivity.
Qed.

(** The first part of [attn] with an incremental context: what it reads,
    returns and records. *)
Lemma attn_inputs_incremental
      (mtfparams : AttentionParams) (x : T) (bias : option T) (dim_seq : Dimension)
      (vd : VariableDType) (c : Context)
      (inputs : T * T * T * option T * option T) (st' : St) :
  ctx_mode c = "incremental" ->
  gpt2.attn_inputs mtfparams x bias dim_seq vd (Some c) = (Ok inputs, st') ->
  exists old_k old_v,
    get_states c 2 = [old_k; old_v] /\
    let k := splice c dim_seq vd old_k (compute_k mtfparams x) in
    let v := splice c dim_seq vd old_v (compute_v mtfparams x) in
    inputs = (compute_q mtfparams x, k, v, None,
              Some (one_hot (unary (fun p => p - 1) (position c)) dim_seq
                            (master_dtype vd))) /\
    st' = Some (mkContext (ctx_mode c) (position c) (states c) (new_states c ++ [k; v])).
Proof.
  intros Hmode H. unfold gpt2.attn_inputs, get_context in H.
  cbn [bind Py_Monad gpt2.is_incremental_inference] in H.
  rewrite Hmode in H. cbn [String.eqb Ascii.eqb Bool.eqb] in H.
  destruct (get_states c 2) as [|old_k [|old_v [|w l]]];
    cbn [gpt2.unpack2 lift ret Py_Monad gpt2.exists_ record_new_states] in H;
    try discriminate H.
  inversion H; subst; clear H.
  exists old_k, old_v. split; [reflexivity|]. split; reflexivity.
Qed.

(** The dispatch of [attn] on the attention type, called without a bias in an
    incremental context: which attention it applies, and to what. *)
Lemma attn_dispatch_incremental
      (vs : string) (layer_num : nat) (params : Params)
      (dim_batch dim_heads dim_kv dim_seq memory_length_dim : Dimension)
      (vd : VariableDType) (q k v one_hot : T) (c : Context) (a0 : T) (st' : St) :
  ctx_mode c = "incremental" ->
  gpt2.attn_dispatch vs layer_num params dim_batch dim_heads dim_kv dim_seq
                     memory_length_dim vd (q, k, v, None, Some one_hot) (Some c)
  = (Ok a0, st') ->
  exists t,
    nth_error (p_attention_types params) layer_num = Some t /\
    ((str_val t = "local" /\
      exists length_dim,
        nth_error (shape k) 1 = Some length_dim /\
        a0 = gather (local_attention_1d (q [*] one_hot) k v length_dim dim_kv dim_kv
                                        (get_default (p_local_attention_radius params) 256))
                    (unary (fun p => p - 1) (position c)) dim_seq) \/
     (str_val t = "global" /\
      exists k' v' k1 v1,
        (if 0 <? get_default (p_num_mem_kv params) 0
         then gpt2.memory_key_values
                (variable_scope (variable_scope vs "attention") "memory_key_values")
                k v (get_default (p_num_mem_kv params) 0) dim_batch dim_heads vd
              = Ok (k', v')
         else (k', v') = (k, v)) /\
        nth_error (shape k') 1 = Some k1 /\
        nth_error (shape v') 1 = Some v1 /\
        a0 = attention q (replace_dimensions k' k1 memory_length_dim)
                       (replace_dimensions v' v1 memory_length_dim)
                       memory_length_dim dim_kv dim_kv None
                       (if String.eqb (p_mode params) "train"
                        then p_attn_dropout params else 0%Q)) \/
     (str_val t = "linear" /\ gpt2.linear_attention q k v gpt2.eps_1e_6 = Ok a0)).
Proof.
  intros Hmode H. unfold gpt2.attn_dispatch in H. inv_ok.
  match goal with
  | Ht : list_get (p_attention_types params) _ = Ok ?t |- _ =>
      apply list_get_ok in Ht; rename t into ty; exists ty; split; [exact Ht|]
  end.
  cbn [gpt2.is_incremental_inference] in *. rewrite Hmode in *.
  cbn [String.eqb Ascii.eqb Bool.eqb] in *.
  unfold py_eq in *.
  destruct (String.eqb_spec (str_val ty) "local") as [Hl|Hl].
  { inv_ok. left. split; [exact Hl|].
    match goal with
    | Hg : list_get (shape k) 1 = Ok ?d |- _ => apply list_get_ok in Hg; exists d
    end.
    split; [assumption | reflexivity]. }
  destruct (String.eqb_spec (str_val ty) "global") as [Hg|Hg].
  { right. left. split; [exact Hg|]. inv_ok.
    destruct (0 <? get_default (p_num_mem_kv params) 0) eqn:Emem; inv_ok.
    - repeat match goal with
             | Hn : list_get _ 1 = Ok _ |- _ => apply list_get_ok in Hn
             end.
      do 4 eexists. split.
      { unfold gpt2.memory_key_values.
        repeat match goal with
               | Hr : list_last _ = Ok _ |- _ =>
                   rewrite Hr; clear Hr; cbn [bind result_Monad]
               | Hr : gpt2.inv_sqrt _ = Ok _ |- _ =>
                   rewrite Hr; clear Hr; cbn [bind result_Monad]
               end.
        reflexivity. }
      split; [eassumption | split; [eassumption | reflexivity]].
    - repeat match goal with
             | Hn : list_get _ 1 = Ok _ |- _ => apply list_get_ok in Hn
             end.
      do 4 eexists. split; [reflexivity|].
      split; [eassumption | split; [eassumption | reflexivity]]. }
  destruct (String.eqb_spec (str_val ty) "linear") as [Hlin|Hlin]; inv_ok.
  right. right. split; assumption.
Qed.

(** C1. An attention layer called with a decoding context in incremental
    mode, when it returns: the key and the value it records and hands to the
    attention of its type are the two cached states it reads, spliced with the
    projections of the new token: they equal the cached state at every index
    assignment whose sequence index is not [position - 1], and the freshly
    computed key or value where it is.  Whatever bias [attn] was given, global
    attention is applied to the query and to these key and value (memory
    slots put before them when configured) with the bias [None]; local and
    linear attention, which take no bias, are applied to them as well. *)
Theorem attn_incremental_splice
  (vs : string) (x : T) (scope : string) (n_state : Dimension) (attention_type : pystr)
  (layer_num : nat) (params : Params) (bias : option T)
  (dim_seq memory_length_dim : Dimension) (variable_dtype : VariableDType)
  (c : Context) (a : T) (st' : St) :
  ctx_mode c = "incremental" ->
  gpt2.attn vs x scope n_state attention_type layer_num params bias dim_seq
            memory_length_dim variable_dtype (Some c) = (Ok a, st') ->
  exists old_k old_v dim_batch dim_embd t a0,
    let p := layer_attention_params (variable_scope vs scope) params dim_embd
                                    variable_dtype in
    let dim_heads := mkDim "heads" (p_n_head params) in
    let dim_kv := mkDim "features_per_head" (p_n_embd params / p_n_head params) in
    let q := compute_q p x in
    let k := splice c dim_seq variable_dtype old_k (compute_k p x) in
    let v := splice c dim_seq variable_dtype old_v (compute_v p x) in
    let index := unary (fun p => p - 1) (position c) in
    get_states c 2 = [old_k; old_v] /\
    nth_error (shape x) 0 = Some dim_batch /\
    list_last (shape x) = Ok dim_embd /\
    (forall e,
        (e (dname dim_seq) <> elem (position c) e - 1 ->
         elem k e = elem old_k e /\ elem v e = elem old_v e) /\
        (e (dname dim_seq) = elem (position c) e - 1 ->
         elem k e = elem (compute_k p x) e /\ elem v e = elem (compute_v p x) e)) /\
    st' = Some (mkContext (ctx_mode c) (position c) (states c) (new_states c ++ [k; v])) /\
    nth_error (p_attention_types params) layer_num = Some t /\
    a = compute_output p a0 (shape x)
        [+] get_variable (variable_scope (variable_scope vs scope) "compute_output_bias")
                         "o_b" [dim_embd] (constant_initializer r0) true
                         (activation_dtype variable_dtype) /\
    ((str_val t = "local" /\
      exists length_dim,
        nth_error (shape k) 1 = Some length_dim /\
        a0 = gather (local_attention_1d
                       (q [*] one_hot index dim_seq (master_dtype variable_dtype))
                       k v length_dim dim_kv dim_kv
                       (get_default (p_local_attention_radius params) 256))
                    index dim_seq) \/
     (str_val t = "global" /\
      exists k' v' k1 v1,
        (if 0 <? get_default (p_num_mem_kv params) 0
         then gpt2.memory_key_values
                (variable_scope (variable_scope (variable_scope vs scope) "attention")
                                "memory_key_values")
                k v (get_default (p_num_mem_kv params) 0) dim_batch dim_heads
                variable_dtype
              = Ok (k', v')
         else (k', v') = (k, v)) /\
        nth_error (shape k') 1 = Some k1 /\
        nth_error (shape v') 1 = Some v1 /\
        a0 = attention q (replace_dimensions k' k1 memory_length_dim)
                       (replace_dimensions v' v1 memory_length_dim)
                       memory_length_dim dim_kv dim_kv None
                       (if String.eqb (p_mode params) "train"
                        then p_attn_dropout params else 0%Q)) \/
     (str_val t = "linear" /\ gpt2.linear_attention q k v gpt2.eps_1e_6 = Ok a0)).
Proof.
  intros Hmode H. unfold gpt2.attn in H. inv_ok.
  match goal with
  | Hu : gpt2.unpack_shape x = Ok _ |- _ =>
      apply unpack_shape_inv in Hu; destruct Hu as (-> & Hbatch & Hembd)
  end.
  destruct (p_n_head params =? 0); inv_ok.
  destruct (dsize n_state mod p_n_head params =? 0); inv_ok.
  match goal with
  | Hi : gpt2.attn_inputs _ _ _ _ _ _ = _ |- _ =>
      apply attn_inputs_incremental in Hi; [|exact Hmode];
      destruct Hi as (old_k & old_v & Hget & Hin & Hst)
  end.
  cbn zeta in Hin, Hst. subst.
  match goal with
  | Hd : gpt2.attn_dispatch _ _ _ _ _ _ _ _ _ _ _ = _ |- _ =>
      pose proof Hd as Hsame; apply attn_dispatch_ok in Hsame;
      destruct Hsame as [-> _];
      apply attn_dispatch_incremental in Hd; [|exact Hmode];
      destruct Hd as (ty & Hty & Hcases)
  end.
  do 6 eexists. cbn zeta.
  split; [exact Hget|]. split; [exact Hbatch|]. split; [exact Hembd|].
  split.
  { intros e. unfold splice. split; intros He.
    - rewrite !splice_elem. cbn [elem unary].
      apply Z.eqb_neq in He. rewrite He. split; reflexivity.
    - rewrite !splice_elem. cbn [elem unary].
      apply Z.eqb_eq in He. rewrite He. split; reflexivity. }
  split; [reflexivity|]. split; [exact Hty|]. split; [reflexivity|].
  exact Hcases.
Qed.

End Splice.

(* ------------------------------------------------------------------------ *)
(** ** The transformer block *)

Section Block.
Context {SC : Scalars} {LB : Library}.

(** C3, amended.  For a layer whose configured attention type is the string
    object ["none"] that the block compares with, attention is not called: no
    state is recorded, the sub-layer stands for its input [x], and the
    residual connection adds it to [x].  What enters the feed-forward
    sub-layer is therefore [x + pre_residual_fn(x)]: twice [x] without rezero,
    [x + x * g] with it. *)
Theorem attention_none_residual
  (vs : string) (params : Params) (layer_num : nat) (bias : option T)
  (sequence_dim memory_length_dim : Dimension) (variable_dtype : VariableDType)
  (nx : Dimension) (x : T) (st : St) :
  nth_error (p_attention_types params) layer_num = Some (Interned "none") ->
  let x1 := x [+] gpt2.pre_residual_fn vs params variable_dtype x "norm_rezero_1" in
  gpt2.attention_sublayer vs params layer_num bias sequence_dim memory_length_dim
                          variable_dtype nx x st = (Ok x1, st) /\
  (p_rezero params = false -> forall e, elem x1 e = radd (elem x e) (elem x e)) /\
  (p_rezero params = true ->
   forall e, elem x1 e =
             radd (elem x e)
                  (rmul (elem x e)
                        (variable_value (variable_scope (variable_scope vs "norm_rezero_1") "g")
                                        e))) /\
  (forall vs0 scope,
      vs = variable_scope vs0 scope ->
      list_last (shape x) = Ok nx ->
      gpt2.block vs0 params scope layer_num bias sequence_dim memory_length_dim
                 variable_dtype x st =
      (gpt2.feed_forward_sublayer vs params layer_num variable_dtype nx x1, st)).
Proof.
  intros Ht x1.
  assert (Hsub : gpt2.attention_sublayer vs params layer_num bias sequence_dim
                   memory_length_dim variable_dtype nx x st = (Ok x1, st)).
  { unfold gpt2.attention_sublayer, list_get. rewrite Ht. reflexivity. }
  split; [exact Hsub|]. split; [|split].
  - intros Hr e. unfold x1, gpt2.pre_residual_fn. rewrite Hr. reflexivity.
  - intros Hr e. unfold x1, gpt2.pre_residual_fn. rewrite Hr. reflexivity.
  - intros vs0 scope -> Hnx. unfold gpt2.block.
    erewrite bind_Py_step by (unfold lift; rewrite Hnx; reflexivity).
    erewrite bind_Py_step by exact Hsub. reflexivity.
Qed.

(** C7.  [mlp_glu] never returns: its first call of [linear] does not bind
    the keyword-only [variable_dtype], so the call raises [TypeError] (after
    [x.shape[-1]], which raises [IndexError] for a tensor without
    dimensions). *)
Theorem mlp_glu_raises
  (vs : string) (x : T) (scope : string) (n_state : Dimension)
  (variable_dtype : VariableDType) (params : Params) :
  gpt2.mlp_glu vs x scope n_state variable_dtype params =
  match list_last (shape x) with
  | Ok _ => Raise (TypeError "linear() missing 1 required argument: 'variable_dtype'")
  | Raise e => Raise e
  end.
Proof.
  unfold gpt2.mlp_glu. destruct (list_last (shape x)); reflexivity.
Qed.

End Block.

(* ------------------------------------------------------------------------ *)
(** ** The estimator entry point *)

Section Estimator.
Context {SC : Scalars} {LB : Library} {RT : Runtime}.

Lemma set_num_microbatches_model (params : Params) (n : Z) :
  p_model (set_num_microbatches params n) = p_model params.
Proof. reflexivity. Qed.

(** What [model_fn] does in TRAIN and EVAL mode: with the model "GPT2" the
    call of [gpt2.model] lacks [variable_dtype]; with another name the
    serialized step gets no outputs (more than one microbatch) or the name is
    rejected (at most one). *)
Lemma model_fn_train_eval_outcome
      (features labels : option (list Z)) (mode : model_fns.ModeKeys) (params : Params) :
  mode <> model_fns.PREDICT ->
  exists e,
    model_fns.model_fn features labels mode params = Raise e /\
    if match p_model params with Some m => String.eqb m "GPT2" | None => false end
    then exists msg, e = TypeError msg
    else if 1 <? serialize_num_microbatches (model_fns.batch_dim mode params)
                                            (p_n_ctx params)
                                            (p_tokens_per_mb_per_replica params)
         then exists msg, e = TypeError msg
         else e = Exception (get_default (p_model params) "None" ++
                             " is not a valid model - please select from GPT2")%string.
Proof.
  intros Hmode. unfold model_fns.model_fn.
  assert (Hp : model_fns.is_predict mode = false)
    by (destruct mode; [reflexivity | reflexivity | contradiction]).
  rewrite Hp.
  unfold model_fns.serialize_training_step, model_fns.serialized_fn.
  rewrite !set_num_microbatches_model.
  destruct (1 <? serialize_num_microbatches _ _ _);
    destruct (match p_model params with Some m => String.eqb m "GPT2" | None => false end);
    eexists; (split; [reflexivity|]); try (eexists; reflexivity); reflexivity.
Qed.

(** C9.  The metric lines of [model_fn] are what the claim says: the entry
    ["perplexity"] of the evaluation metrics is a streaming mean that an
    evaluation step feeds with [exp(mean(loss_batch) / num_microbatches)],
    computed from the exported loss tensor, and after one step it reports
    that value.  But no invocation of [model_fn] in EVAL mode reaches them:
    whatever the features and the configuration it raises, with the model
    "GPT2" a TypeError, as its call of [gpt2.model] does not bind
    [variable_dtype]; no metric is reported. *)
Theorem eval_perplexity_unreached
  (features labels : option (list Z)) (params : Params) (tf_logits tf_loss_batch : list R) :
  ring_theory r0 r1 radd rmul rsub ropp (@eq R) ->
  (forall x, rdiv x (r_of_Z 1) = x) ->
  let mean := rdiv (fold_left radd tf_loss_batch r0)
                   (r_of_Z (Z.of_nat (List.length tf_loss_batch))) in
  let perplexity := r_exp (rdiv mean (r_of_Z (p_num_microbatches params))) in
  (model_fns._metric_fn params tf_logits tf_loss_batch =
     [("mean_logits", model_fns.tf_metrics_mean tf_logits);
      ("perplexity", model_fns._perplexity params tf_loss_batch)] /\
   model_fns.metric_value (model_fns._perplexity params tf_loss_batch model_fns.metric_init)
   = perplexity) /\
  (forall spec, model_fns.model_fn features labels model_fns.EVAL params <> Ok spec) /\
  (p_model params = Some "GPT2" ->
   exists msg, model_fns.model_fn features labels model_fns.EVAL params
               = Raise (TypeError msg)).
Proof.
  intros Rth Hdiv mean perplexity.
  assert (Hmode : model_fns.EVAL <> model_fns.PREDICT) by discriminate.
  destruct (model_fn_train_eval_outcome features labels params Hmode) as (e & Hrun & Hclass).
  split; [split; [reflexivity|]|split].
  - unfold model_fns._perplexity, model_fns.tf_metrics_mean, model_fns.metric_value,
      model_fns.metric_init.
    cbn [fold_left List.length Z.of_nat Pos.of_succ_nat model_fns.total model_fns.count Z.add].
    rewrite !(Radd_0_l Rth). apply Hdiv.
  - intros spec Hspec. rewrite Hrun in Hspec. discriminate Hspec.
  - intros Hmodel. rewrite Hmodel in Hclass. cbn [String.eqb Ascii.eqb Bool.eqb] in Hclass.
    destruct Hclass as [msg ->]. exists msg. exact Hrun.
Qed.


End Estimator.

(* ------------------------------------------------------------------------ *)
(** ** The model: layers and training loss *)

Section Model.
Context {SC : Scalars} {LB : Library}.

Lemma recompute_grad_transparent (params : Params) {A B} (fn : A -> B) (x : A) :
  (if negb (p_recompute_grad params) then fn x else mtf_recompute_grad fn x) = fn x.
Proof. destruct (p_recompute_grad params); reflexivity. Qed.

(** The loop adds the losses of the blocks, in layer order, to its accumulator. *)
Lemma layers_loop_aux
      (vs : string) (params : Params) (other : gpt2.OtherFeatures) (sequence_dim : Dimension)
      (vd : VariableDType) (layers : list nat) :
  forall (h0 aux0 : T) (st0 : St) (h aux : T) (st' : St),
    gpt2.layers_loop vs params other sequence_dim vd layers h0 aux0 st0 = (Ok (h, aux), st') ->
    let losses := gpt2.layer_losses vs params other sequence_dim vd layers h0 st0 in
    List.length losses = List.length layers /\
    forall e, elem aux e = fold_left radd (map (fun a => elem a e) losses) (elem aux0 e).
Proof.
  induction layers as [|layer rest IH]; intros h0 aux0 st0 h aux st' H; simpl in H.
  - inversion H; subst. simpl. split; [reflexivity | intros; reflexivity].
  - rewrite recompute_grad_transparent in H.
    cbn [gpt2.layer_losses].
    destruct (gpt2.block_fn_of vs params other sequence_dim vd layer h0 st0)
      as [[[h1 loss]|err] st1] eqn:Eb; [|discriminate].
    apply IH in H. destruct H as [Hlen Hsum]. cbn zeta in *.
    split; [simpl; rewrite Hlen; reflexivity|].
    intros e. rewrite Hsum. reflexivity.
Qed.

(** What a successful call in training mode has computed. *)
Lemma model_train_inv
      (vs : string) (feats : gpt2.Features) (other : gpt2.OtherFeatures) (params : Params)
      (vd : arg VariableDType) (st st' : St) (logits : T) (loss loss_batch : option T) :
  p_mode params = "train" ->
  gpt2.model vs feats other params vd st = (Ok (logits, loss, loss_batch), st') ->
  exists vd' sequence_dim h0 st0 h aux lg lg' l lb,
    vd = Given vd' /\
    gpt2.layers_loop vs params other sequence_dim vd'
                     (seq 0 (Z.to_nat (p_n_layer params))) h0
                     (get_variable vs "aux_losses" [] (constant_initializer r0) false
                                   (slice_dtype vd')) st0 = (Ok (h, aux), st') /\
    gpt2.train_loss params feats lg aux = Ok (lg', l, lb) /\
    loss = Some (cast l (slice_dtype vd')) /\
    loss_batch = Some lb /\
    logits = cast lg' (master_dtype vd').
Proof.
  intros Hmode H. unfold gpt2.model in H.
  destruct vd as [vd'|]; [|inv_ok].
  rewrite Hmode in H. cbn [String.eqb Ascii.eqb Bool.eqb] in H.
  inv_ok.
  destruct (p_no_weight_tie params); inv_ok.
  all: do 10 eexists; repeat split; try eassumption; reflexivity.
Qed.

Lemma train_loss_inv (params : Params) (feats : gpt2.Features) (lg aux lg' l lb : T) :
  gpt2.train_loss params feats lg aux = Ok (lg', l, lb) ->
  exists lbl vocab,
    gpt2.labels feats = Some lbl /\
    list_last (shape lg) = Ok vocab /\
    let xent := softmax_cross_entropy_with_logits
                  (cast lg float32) lbl vocab
                  (get_default (p_z_loss params) (1 # 10000)%Q) in
    lb = (if negb (get_default (p_causal params) false)
          then where_ (not_equal lbl (get_default (p_padding_id params) 0)) xent
                      (zeros_like xent)
          else xent) /\
    l = (reduce_mean_all lb [+] aux)
          [/] scalar (dtype (reduce_mean_all lb [+] aux))
                     (r_of_Z (p_num_microbatches params)) /\
    lg' = cast lg float32.
Proof.
  unfold gpt2.train_loss. intros H.
  destruct (gpt2.labels feats) as [lbl|]; [|inv_ok].
  inv_ok. do 2 eexists. repeat split; try reflexivity. assumption.
Qed.

(** C4.  In training mode the loss that [model] returns is, at the precision
    of the exact arithmetic, the mean of [loss_batch] over all its dimensions
    plus the sum of the auxiliary losses of the layers (added in layer order
    to a zero accumulator), divided by the number of microbatches. *)
Theorem train_loss_value
  (vs : string) (feats : gpt2.Features) (other : gpt2.OtherFeatures) (params : Params)
  (vd : arg VariableDType) (st st' : St) (logits : T) (loss loss_batch : option T) :
  p_mode params = "train" ->
  gpt2.model vs feats other params vd st = (Ok (logits, loss, loss_batch), st') ->
  exists l lb vd' sequence_dim h0 st0,
    loss = Some l /\
    loss_batch = Some lb /\
    let losses := gpt2.layer_losses vs params other sequence_dim vd'
                                    (seq 0 (Z.to_nat (p_n_layer params))) h0 st0 in
    List.length losses = Z.to_nat (p_n_layer params) /\
    forall e,
      elem l e =
      rdiv (radd (rdiv (sum_over (shape lb) (elem lb) e) (r_of_Z (num_elements (shape lb))))
                 (fold_left radd (map (fun a => elem a e) losses) r0))
           (r_of_Z (p_num_microbatches params)).
Proof.
  intros Hmode H.
  eapply model_train_inv in H; [|exact Hmode].
  destruct H
    as (vd' & sequence_dim & h0 & st0 & h & aux & lg & lg' & l & lb &
        _ & Hloop & Hloss & -> & -> & _).
  apply layers_loop_aux in Hloop. destruct Hloop as [Hlen Haux].
  apply train_loss_inv in Hloss.
  destruct Hloss as (lbl & vocab & _ & _ & Hlb & Hl & _).
  exists (cast l (slice_dtype vd')), lb, vd', sequence_dim, h0, st0.
  split; [reflexivity|]. split; [reflexivity|]. cbn zeta.
  split; [rewrite Hlen, length_seq; reflexivity|].
  intros e. rewrite Hl. cbn [elem cast mtf.div mtf.add binary scalar reduce_mean_all].
  rewrite Haux. reflexivity.
Qed.

(** C6.  In training mode with [causal] false the loss of a position whose
    label is the padding id (0 unless configured) is replaced by zero, the
    others being the cross-entropy, and the mean of the loss is taken over
    the result; with [causal] true [loss_batch] is the cross-entropy itself. *)
Theorem padding_loss_zeroed
  (vs : string) (feats : gpt2.Features) (other : gpt2.OtherFeatures) (params : Params)
  (vd : arg VariableDType) (st st' : St) (logits : T) (loss loss_batch : option T) :
  p_mode params = "train" ->
  gpt2.model vs feats other params vd st = (Ok (logits, loss, loss_batch), st') ->
  exists lbl lg vocab lb l aux,
    gpt2.labels feats = Some lbl /\
    loss_batch = Some lb /\
    loss = Some l /\
    let xent := softmax_cross_entropy_with_logits
                  lg lbl vocab (get_default (p_z_loss params) (1 # 10000)%Q) in
    (p_causal params = Some false ->
     forall e, elem lb e =
               if elem lbl e =? get_default (p_padding_id params) 0 then r0
               else elem xent e) /\
    (p_causal params = Some true -> lb = xent) /\
    forall e, elem l e =
              rdiv (radd (elem (reduce_mean_all lb) e) (elem aux e))
                   (r_of_Z (p_num_microbatches params)).
Proof.
  intros Hmode H.
  eapply model_train_inv in H; [|exact Hmode].
  destruct H
    as (vd' & sequence_dim & h0 & st0 & h & aux & lg & lg' & l & lb &
        _ & _ & Hloss & -> & -> & _).
  apply train_loss_inv in Hloss.
  destruct Hloss as (lbl & vocab & Hlbl & _ & Hlb & Hl & _).
  exists lbl, (cast lg float32), vocab, lb, (cast l (slice_dtype vd')), aux.
  split; [exact Hlbl|]. split; [reflexivity|]. split; [reflexivity|]. cbn zeta.
  split; [|split].
  - intros Hc e. rewrite Hlb, Hc. cbn [get_default negb elem where_ not_equal unary zeros_like zeros].
    destruct (elem lbl e =? get_default (p_padding_id params) 0); reflexivity.
  - intros Hc. rewrite Hlb, Hc. reflexivity.
  - intros e. rewrite Hl. reflexivity.
Qed.

(* ---------------------------------------------------------------------- *)
(** *** States recorded in the decoding context *)

Lemma records_refl (st : St) : records st st [].
Proof.
  destruct st as [c|]; simpl; [|reflexivity].
  rewrite app_nil_r. destruct c; reflexivity.
Qed.

Lemma records_trans (st1 st2 st3 : St) (l1 l2 : list T) :
  records st1 st2 l1 -> records st2 st3 l2 -> records st1 st3 (l1 ++ l2).
Proof.
  destruct st1 as [c1|], st2 as [c2|], st3 as [c3|]; simpl; try tauto.
  - intros -> ->. simpl. rewrite app_assoc. reflexivity.
  - intros -> ->. reflexivity.
Qed.

Lemma attn_inputs_records
      (mtfparams : AttentionParams) (x : T) (bias : option T) (dim_seq : Dimension)
      (vd : VariableDType) (st st' : St) (q k v : T) (b oh : option T) :
  gpt2.attn_inputs mtfparams x bias dim_seq vd st = (Ok (q, k, v, b, oh), st') ->
  records st st' (if_context st [k; v]).
Proof.
  intros H. destruct st as [c|]; unfold gpt2.attn_inputs in H; inv_ok.
  - destruct (gpt2.is_incremental_inference (Some c)); inv_ok.
    all: cbn [gpt2.exists_ record_new_states] in *; inv_ok; reflexivity.
  - cbn [gpt2.exists_] in *. inv_ok. reflexivity.
Qed.

Lemma attn_records
      (vs : string) (x : T) (scope : string) (n_state : Dimension) (attention_type : pystr)
      (layer_num : nat) (params : Params) (bias : option T)
      (dim_seq memory_length_dim : Dimension) (vd : VariableDType)
      (st st' : St) (a : T) :
  gpt2.attn vs x scope n_state attention_type layer_num params bias dim_seq
            memory_length_dim vd st = (Ok a, st') ->
  (exists k v, records st st' (if_context st [k; v])) /\
  exists t, nth_error (p_attention_types params) layer_num = Some t /\
            attention_type_known t.
Proof.
  unfold gpt2.attn. intros H. inv_ok.
  destruct (p_n_head params =? 0); inv_ok.
  destruct (dsize n_state mod p_n_head params =? 0); inv_ok.
  match goal with
  | Hi : gpt2.attn_inputs _ _ _ _ _ _ = (Ok ?i, _) |- _ =>
      destruct i as [[[[q k] v] b] oh]; apply attn_inputs_records in Hi
  end.
  match goal with
  | Hd : gpt2.attn_dispatch _ _ _ _ _ _ _ _ _ _ _ = _ |- _ =>
      apply attn_dispatch_ok in Hd; destruct Hd as [-> Ht]
  end.
  split; [eauto | exact Ht].
Qed.

Lemma attention_sublayer_records
      (vs : string) (params : Params) (layer_num : nat) (bias : option T)
      (sequence_dim memory_length_dim : Dimension) (vd : VariableDType)
      (nx : Dimension) (x : T) (st st' : St) (x' : T) :
  gpt2.attention_sublayer vs params layer_num bias sequence_dim memory_length_dim vd
                          nx x st = (Ok x', st') ->
  exists t rec,
    nth_error (p_attention_types params) layer_num = Some t /\
    records st st' (if_context st rec) /\
    List.length rec = recorded_by t.
Proof.
  unfold gpt2.attention_sublayer. intros H. inv_ok.
  match goal with
  | Ht : list_get (p_attention_types params) _ = Ok ?ty |- _ =>
      apply list_get_ok in Ht; rename ty into t; rename Ht into Et
  end.
  destruct (py_is t (Interned "none")) eqn:Eis; cbn [negb] in *; inv_ok.
  - exists t, []. split; [exact Et|]. split.
    + match goal with |- records ?s _ _ => destruct s; apply records_refl end.
    + unfold recorded_by. destruct t as [s|addr s]; simpl in Eis; [|discriminate].
      simpl. rewrite Eis. reflexivity.
  - match goal with
    | Ha : gpt2.attn _ _ _ _ _ _ _ _ _ _ _ _ = _ |- _ =>
        apply attn_records in Ha; destruct Ha as [(k & v & Hrec) (t' & Ht' & Hknown)]
    end.
    rewrite Et in Ht'. inversion Ht'; subst t'.
    exists t, [k; v]. split; [exact Et|]. split; [exact Hrec|].
    unfold recorded_by. destruct Hknown as [->|[->| ->]]; reflexivity.
Qed.

Lemma block_records
      (vs : string) (params : Params) (scope : string) (layer_num : nat) (bias : option T)
      (sequence_dim memory_length_dim : Dimension) (vd : VariableDType)
      (x : T) (st st' : St) (out : T * T) :
  gpt2.block vs params scope layer_num bias sequence_dim memory_length_dim vd x st
  = (Ok out, st') ->
  exists t rec,
    nth_error (p_attention_types params) layer_num = Some t /\
    records st st' (if_context st rec) /\
    List.length rec = recorded_by t.
Proof.
  unfold gpt2.block. intros H. inv_ok.
  eapply attention_sublayer_records; eassumption.
Qed.

Lemma records_same_context (st st1 : St) (l l' : list T) :
  records st st1 l -> if_context st1 l' = if_context st l'.
Proof.
  destruct st, st1; simpl; tauto.
Qed.

Lemma if_context_app (st : St) (l1 l2 : list T) :
  if_context st l1 ++ if_context st l2 = if_context st (l1 ++ l2).
Proof. destruct st; reflexivity. Qed.

Lemma layers_loop_records
      (vs : string) (params : Params) (other : gpt2.OtherFeatures) (sequence_dim : Dimension)
      (vd : VariableDType) (layers : list nat) :
  forall (h0 aux0 : T) (st : St) (out : T * T) (st' : St),
    gpt2.layers_loop vs params other sequence_dim vd layers h0 aux0 st = (Ok out, st') ->
    exists recs : list (list T),
      Forall2 (fun layer rec =>
                 exists t, nth_error (p_attention_types params) layer = Some t /\
                           List.length rec = recorded_by t)
              layers recs /\
      records st st' (if_context st (List.concat recs)).
Proof.
  induction layers as [|layer rest IH]; intros h0 aux0 st out st' H;
    cbn [gpt2.layers_loop] in H.
  - inv_ok. exists []. split; [constructor|].
    match goal with |- records ?s _ _ => destruct s; apply records_refl end.
  - rewrite recompute_grad_transparent in H. inv_ok.
    match goal with
    | Hb : gpt2.block_fn_of _ _ _ _ _ _ _ _ = _ |- _ =>
        unfold gpt2.block_fn_of in Hb; apply block_records in Hb;
        destruct Hb as (ty & rec & Ht & Hrec & Hlen)
    end.
    match goal with
    | Hl : gpt2.layers_loop _ _ _ _ _ _ _ _ _ = _ |- _ =>
        apply IH in Hl; destruct Hl as (recs & Hall & Hrecs)
    end.
    exists (rec :: recs). split.
    + constructor; [exists ty; split; assumption | exact Hall].
    + simpl. rewrite <- if_context_app.
      erewrite records_same_context in Hrecs by exact Hrec.
      eapply records_trans; eassumption.
Qed.

Lemma model_inv
      (vs : string) (feats : gpt2.Features) (other : gpt2.OtherFeatures) (params : Params)
      (vd : arg VariableDType) (st st' : St) (out : T * option T * option T) :
  gpt2.model vs feats other params vd st = (Ok out, st') ->
  exists vd' sequence_dim h0 aux0 res,
    vd = Given vd' /\
    gpt2.layers_loop vs params other sequence_dim vd'
                     (seq 0 (Z.to_nat (p_n_layer params))) h0 aux0 st = (Ok res, st').
Proof.
  intros H. unfold gpt2.model in H.
  destruct vd as [vd'|]; [|inv_ok].
  inv_ok.
  destruct (gpt2.inputs feats); inv_ok.
  destruct (p_no_weight_tie params); inv_ok.
  all: destruct (String.eqb (p_mode params) "train"); inv_ok.
  all: do 5 eexists; split; [reflexivity | eassumption].
Qed.

Lemma model_inv_dims
      (vs : string) (feats : gpt2.Features) (other : gpt2.OtherFeatures) (params : Params)
      (vd : arg VariableDType) (st st' : St) (out : T * option T * option T) :
  gpt2.model vs feats other params vd st = (Ok out, st') ->
  exists vd' x batch_dim sequence_dim h0 aux0 res,
    vd = Given vd' /\
    gpt2.inputs feats = Some x /\
    list_get (shape x) 0 = Ok batch_dim /\
    list_get (shape x) 1 = Ok sequence_dim /\
    gpt2.layers_loop vs params other sequence_dim vd'
                     (seq 0 (Z.to_nat (p_n_layer params))) h0 aux0 st = (Ok res, st').
Proof.
  intros H. unfold gpt2.model in H.
  destruct vd as [vd'|]; [|inv_ok].
  inv_ok.
  destruct (gpt2.inputs feats) as [inp|] eqn:Ex; inv_ok.
  destruct (p_no_weight_tie params); inv_ok.
  all: destruct (String.eqb (p_mode params) "train"); inv_ok.
  all: do 7 eexists; split; [reflexivity|]; split; [reflexivity|];
    split; [eassumption|]; split; eassumption.
Qed.

Lemma with_recorded_nil (c : Context) : with_recorded c [] = c.
Proof.
  unfold with_recorded. rewrite app_nil_r. destruct c; reflexivity.
Qed.

Lemma with_recorded_app (c : Context) (l1 l2 : list T) :
  with_recorded (with_recorded c l1) l2 = with_recorded c (l1 ++ l2).
Proof.
  unfold with_recorded. cbn [ctx_mode position states new_states].
  rewrite app_assoc. reflexivity.
Qed.

Lemma attn_inputs_pair
      (mtfparams : AttentionParams) (x : T) (bias : option T) (dim_seq : Dimension)
      (vd : VariableDType) (c : Context)
      (inputs : T * T * T * option T * option T) (st' : St) :
  gpt2.attn_inputs mtfparams x bias dim_seq vd (Some c) = (Ok inputs, st') ->
  exists rec,
    st' = Some (with_recorded c rec) /\
    if String.eqb (ctx_mode c) "incremental" then
      exists old_k old_v,
        get_states c 2 = [old_k; old_v] /\
        rec = [splice c dim_seq vd old_k (compute_k mtfparams x);
               splice c dim_seq vd old_v (compute_v mtfparams x)]
    else rec = [compute_k mtfparams x; compute_v mtfparams x].
Proof.
  intros H. destruct (String.eqb (ctx_mode c) "incremental") eqn:Hm.
  - apply String.eqb_eq in Hm. apply attn_inputs_incremental in H; [|exact Hm].
    destruct H as (old_k & old_v & Hget & _ & Hst).
    eexists. split; [exact Hst|]. exists old_k, old_v. split; [exact Hget | reflexivity].
  - unfold gpt2.attn_inputs, get_context in H.
    cbn [bind Py_Monad gpt2.is_incremental_inference] in H. rewrite Hm in H.
    cbn [lift ret Py_Monad gpt2.exists_ record_new_states] in H.
    inversion H; subst; clear H. eexists. split; reflexivity.
Qed.

Lemma attn_pair
      (vs : string) (x : T) (scope : string) (n_state : Dimension) (attention_type : pystr)
      (layer_num : nat) (params : Params) (bias : option T)
      (dim_seq memory_length_dim : Dimension) (vd : VariableDType)
      (c : Context) (st' : St) (a : T) :
  gpt2.attn vs x scope n_state attention_type layer_num params bias dim_seq
            memory_length_dim vd (Some c) = (Ok a, st') ->
  exists dim_embd rec,
    list_last (shape x) = Ok dim_embd /\
    st' = Some (with_recorded c rec) /\
    let p := layer_attention_params (variable_scope vs scope) params dim_embd vd in
    if String.eqb (ctx_mode c) "incremental" then
      exists old_k old_v,
        get_states c 2 = [old_k; old_v] /\
        rec = [splice c dim_seq vd old_k (compute_k p x);
               splice c dim_seq vd old_v (compute_v p x)]
    else rec = [compute_k p x; compute_v p x].
Proof.
  intros H. unfold gpt2.attn in H. inv_ok.
  match goal with
  | Hu : gpt2.unpack_shape x = Ok _ |- _ =>
      apply unpack_shape_inv in Hu; destruct Hu as (-> & _ & Hembd)
  end.
  destruct (p_n_head params =? 0); inv_ok.
  destruct (dsize n_state mod p_n_head params =? 0); inv_ok.
  match goal with
  | Hd : gpt2.attn_dispatch _ _ _ _ _ _ _ _ _ _ _ = _ |- _ =>
      apply attn_dispatch_ok in Hd; destruct Hd as [-> _]
  end.
  match goal with
  | Hi : gpt2.attn_inputs _ _ _ _ _ _ = _ |- _ =>
      apply attn_inputs_pair in Hi; destruct Hi as (rec & Hst & Hrec)
  end.
  eexists. exists rec. split; [exact Hembd|]. split; [exact Hst | exact Hrec].
Qed.

Lemma key_value_pair_length
      (vs : string) (params : Params) (vd : VariableDType) (dim_seq : Dimension)
      (c : Context) (rec : list T) :
  key_value_pair vs params vd dim_seq c rec -> List.length rec = 2%nat.
Proof.
  intros (h & x & d & _ & _ & H). cbn zeta in H.
  destruct (String.eqb (ctx_mode c) "incremental").
  - destruct H as (old_k & old_v & _ & ->). reflexivity.
  - rewrite H. reflexivity.
Qed.

Lemma attention_sublayer_pair
      (vs : string) (params : Params) (layer_num : nat) (bias : option T)
      (sequence_dim memory_length_dim : Dimension) (vd : VariableDType)
      (nx : Dimension) (x : T) (c : Context) (st' : St) (x' : T) :
  gpt2.attention_sublayer vs params layer_num bias sequence_dim memory_length_dim vd
                          nx x (Some c) = (Ok x', st') ->
  exists t rec,
    nth_error (p_attention_types params) layer_num = Some t /\
    st' = Some (with_recorded c rec) /\
    if String.eqb (str_val t) "none" then rec = []
    else key_value_pair vs params vd sequence_dim c rec.
Proof.
  unfold gpt2.attention_sublayer. intros H. inv_ok.
  match goal with
  | Ht : list_get (p_attention_types params) _ = Ok ?ty |- _ =>
      apply list_get_ok in Ht; rename ty into t; rename Ht into Et
  end.
  destruct (py_is t (Interned "none")) eqn:Eis; cbn [negb] in *; inv_ok.
  - exists t, []. split; [exact Et|]. split; [rewrite with_recorded_nil; reflexivity|].
    destruct t as [s|addr s]; simpl in Eis; [|discriminate].
    simpl. rewrite Eis. reflexivity.
  - match goal with
    | Ha : gpt2.attn _ _ _ _ _ _ _ _ _ _ _ _ = _ |- _ =>
        pose proof Ha as Hknown; apply attn_records in Hknown;
        destruct Hknown as [_ (t' & Ht' & Hknown)];
        apply attn_pair in Ha; destruct Ha as (dim_embd & rec & Hembd & Hst & Hrec)
    end.
    rewrite Et in Ht'. inversion Ht'; subst t'.
    exists t, rec. split; [exact Et|]. split; [exact Hst|].
    replace (String.eqb (str_val t) "none") with false
      by (destruct Hknown as [->|[->| ->]]; reflexivity).
    match goal with
    | Hp : gpt2.prenorm _ _ _ x _ = Ok ?r |- _ => exists x, r, dim_embd
    end.
    split; [assumption|]. split; [exact Hembd | exact Hrec].
Qed.

Lemma block_pair
      (vs : string) (params : Params) (scope : string) (layer_num : nat) (bias : option T)
      (sequence_dim memory_length_dim : Dimension) (vd : VariableDType)
      (x : T) (c : Context) (st' : St) (out : T * T) :
  gpt2.block vs params scope layer_num bias sequence_dim memory_length_dim vd x (Some c)
  = (Ok out, st') ->
  exists t rec,
    nth_error (p_attention_types params) layer_num = Some t /\
    st' = Some (with_recorded c rec) /\
    if String.eqb (str_val t) "none" then rec = []
    else key_value_pair (variable_scope vs scope) params vd sequence_dim c rec.
Proof.
  unfold gpt2.block. intros H. inv_ok.
  eapply attention_sublayer_pair; eassumption.
Qed.

Lemma layers_loop_pairs
      (vs : string) (params : Params) (other : gpt2.OtherFeatures) (sequence_dim : Dimension)
      (vd : VariableDType) (layers : list nat) :
  forall (h0 aux0 : T) (c : Context) (out : T * T) (st' : St),
    gpt2.layers_loop vs params other sequence_dim vd layers h0 aux0 (Some c)
    = (Ok out, st') ->
    exists recs : list (list T),
      st' = Some (with_recorded c (List.concat recs)) /\
      List.length recs = List.length layers /\
      forall i,
        (i < List.length layers)%nat ->
        exists t,
          nth_error (p_attention_types params) (nth i layers 0%nat) = Some t /\
          if String.eqb (str_val t) "none" then nth i recs [] = []
          else key_value_pair (block_scope vs params (nth i layers 0%nat)) params vd
                              sequence_dim
                              (with_recorded c (List.concat (firstn i recs)))
                              (nth i recs []).
Proof.
  induction layers as [|layer rest IH]; intros h0 aux0 c out st' H;
    cbn [gpt2.layers_loop] in H.
  - inv_ok. exists []. split; [rewrite with_recorded_nil; reflexivity|].
    split; [reflexivity|]. intros i Hi. simpl in Hi. lia.
  - rewrite recompute_grad_transparent in H. inv_ok.
    match goal with
    | Hb : gpt2.block_fn_of _ _ _ _ _ _ _ _ = _ |- _ =>
        unfold gpt2.block_fn_of in Hb; apply block_pair in Hb;
        destruct Hb as (ty & rec & Ht & -> & Hrec)
    end.
    match goal with
    | Hl : gpt2.layers_loop _ _ _ _ _ _ _ _ _ = _ |- _ =>
        apply IH in Hl; destruct Hl as (recs & -> & Hlen & Hall)
    end.
    exists (rec :: recs). split; [|split].
    + rewrite with_recorded_app. reflexivity.
    + simpl. rewrite Hlen. reflexivity.
    + intros [|i] Hi.
      * exists ty. split; [exact Ht|]. cbn [nth firstn List.concat].
        rewrite with_recorded_nil. exact Hrec.
      * destruct (Hall i) as (ti & Hti & Hi'); [simpl in Hi; lia|].
        exists ti. split; [exact Hti|]. cbn [nth firstn List.concat].
        rewrite <- with_recorded_app. exact Hi'.
Qed.

(** C5.  A forward pass of the model with a decoding context, incremental or
    not, that returns, leaves the context as it was but for the recorded
    states: every layer appends to them, in layer order, nothing when its
    configured attention type is "none", and otherwise exactly one pair, the
    key and the value of that layer: the key and value projections, by the
    attention parameters of the layer, of the normalised input of its block,
    in an incremental pass each spliced at the decoding position into one of
    the next two states of the cache. *)
Theorem states_recorded_per_attention_layer
  (vs : string) (feats : gpt2.Features) (other : gpt2.OtherFeatures) (params : Params)
  (vd : arg VariableDType) (c : Context) (out : T * option T * option T) (st' : St) :
  gpt2.model vs feats other params vd (Some c) = (Ok out, st') ->
  exists (vd' : VariableDType) (x : Tensor Z) (sequence_dim : Dimension)
         (recs : list (list T)),
    vd = Given vd' /\
    gpt2.inputs feats = Some x /\
    nth_error (shape x) 1 = Some sequence_dim /\
    st' = Some (mkContext (ctx_mode c) (position c) (states c)
                          (new_states c ++ List.concat recs)) /\
    List.length recs = Z.to_nat (p_n_layer params) /\
    forall layer,
      (layer < Z.to_nat (p_n_layer params))%nat ->
      exists t,
        nth_error (p_attention_types params) layer = Some t /\
        if String.eqb (str_val t) "none" then nth layer recs [] = []
        else List.length (nth layer recs []) = 2%nat /\
             key_value_pair (block_scope vs params layer) params vd' sequence_dim
                            (with_recorded c (List.concat (firstn layer recs)))
                            (nth layer recs []).
Proof.
  intros H. apply model_inv_dims in H.
  destruct H as (vd' & x & bd & sd & h0 & aux0 & res & Hvd & Hx & _ & Hsd & Hloop).
  apply list_get_ok in Hsd.
  apply layers_loop_pairs in Hloop. destruct Hloop as (recs & Hst & Hlen & Hall).
  rewrite length_seq in Hlen, Hall.
  exists vd', x, sd, recs.
  split; [exact Hvd|]. split; [exact Hx|]. split; [exact Hsd|].
  split; [exact Hst|]. split; [exact Hlen|].
  intros layer Hlayer. destruct (Hall layer Hlayer) as (t & Ht & Hrec).
  rewrite seq_nth in Ht, Hrec by exact Hlayer. cbn [Nat.add] in Ht, Hrec.
  exists t. split; [exact Ht|].
  destruct (String.eqb (str_val t) "none"); [exact Hrec|].
  split; [eapply key_value_pair_length; exact Hrec | exact Hrec].
Qed.

(* ---------------------------------------------------------------------- *)
(** *** Configuration errors *)

Lemma bind_Py_not_ok {S A B} (m : Py S A) (f : A -> Py S B) (s : S) :
  (forall a s1, m s = (Ok a, s1) -> is_ok (fst (f a s1)) = false) ->
  is_ok (fst (bind m f s)) = false.
Proof.
  intros H. simpl. destruct (m s) as [[a|e] s1]; [apply H; reflexivity | reflexivity].
Qed.

Lemma not_ok_elim {S A} (r : result A * S) (a : A) (s : S) :
  is_ok (fst r) = false -> r = (Ok a, s) -> False.
Proof. intros H ->. discriminate. Qed.






End Model.

(* ------------------------------------------------------------------------ *)
(** ** Configuration errors at the entry point *)

Section ConfigurationErrors.
Context {SC : Scalars} {LB : Library} {RT : Runtime}.


End ConfigurationErrors.

(* ------------------------------------------------------------------------ *)
(** ** Examples *)

Lemma is_ok_value {A} (r : result A) : is_ok r = true -> exists a, r = Ok a.
Proof.
  destruct r as [a|e]; simpl; intros H; [eauto | discriminate].
Qed.

Lemma is_ok_run {S A} (r : result A * S) :
  is_ok (fst r) = true -> exists a s, r = (Ok a, s).
Proof.
  destruct r as [[a|e] s]; simpl; intros H; [eauto | discriminate].
Qed.

(** The claim of C3 as stated fails: with attention type "none" and without
    rezero, what enters the feed-forward sub-layer is twice the input. *)
Lemma attention_none_doubles_input :
  nth_error (p_attention_types (Example.config Example.only_none "GPT2" "train")) 0
  = Some (Interned "none") /\
  exists x1,
    fst (gpt2.attention_sublayer (SC := Example.ZScalars) (LB := Example.ZLibrary)
           "gpt2/h0" (Example.config Example.only_none "GPT2" "train") 0 None
           Example.sequence (mkDim "memory_length" 2) Example.float_dtype Example.embd
           Example.ones None) = Ok x1 /\
    elem x1 (fun _ => 0) = 2 /\
    elem Example.ones (fun _ => 0) = 1.
Proof.
  split; [reflexivity|]. eexists. split; [reflexivity|]. split; reflexivity.
Qed.


(** A type "none" read from a JSON configuration is equal to the literal of
    [block] but is another object: the identity test sends it to [attn]. *)
Lemma none_from_json_raises :
  fst (gpt2.model (SC := Example.ZScalars) (LB := Example.ZLibrary) "gpt2" Example.features
                  Example.other_features (Example.config [Heap 0 "none"] "GPT2" "train")
                  (Given Example.float_dtype) None)
  = Raise (NotImplementedError "Unknown attention type none!").
Proof. vm_compute. reflexivity. Qed.

Lemma attn_incremental_splice_witness :
  ctx_mode Example.incremental_context = "incremental" /\
  exists a k v,
    gpt2.attn (SC := Example.ZScalars) (LB := Example.ZLibrary) "gpt2/h0"
              Example.last_token "attn" Example.embd (Heap 0 "global") 0
              (Example.config Example.global_none "GPT2" "predict")
              (Some (gpt2.attn_bias Example.other_features)) Example.sequence
              (mkDim "memory_length" 2) Example.float_dtype
              (Some Example.incremental_context)
    = (Ok a, Some (mkContext "incremental" (position Example.incremental_context)
                             [Example.values; Example.values'] [k; v])) /\
    elem k (fun _ => 0) = elem Example.values (fun _ => 0) /\
    elem v (fun _ => 1) = 3.
Proof.
  split; [reflexivity|].
  destruct (is_ok_run
              (gpt2.attn (SC := Example.ZScalars) (LB := Example.ZLibrary) "gpt2/h0"
                         Example.last_token "attn" Example.embd (Heap 0 "global") 0
                         (Example.config Example.global_none "GPT2" "predict")
                         (Some (gpt2.attn_bias Example.other_features)) Example.sequence
                         (mkDim "memory_length" 2) Example.float_dtype
                         (Some Example.incremental_context)))
    as (a & st' & E); [vm_compute; reflexivity|].
  destruct (attn_incremental_splice (SC := Example.ZScalars) (LB := Example.ZLibrary)
              InitialRing.Zth "gpt2/h0" Example.last_token "attn" Example.embd
              (Heap 0 "global") 0 (Example.config Example.global_none "GPT2" "predict")
              (Some (gpt2.attn_bias Example.other_features)) Example.sequence
              (mkDim "memory_length" 2) Example.float_dtype Example.incremental_context
              eq_refl E)
    as (old_k & old_v & dim_batch & dim_embd & t & a0 & Hget & _ & Hembd & Hsplice & Hst & _).
  cbn zeta in Hsplice, Hst.
  inversion Hget; subst old_k old_v. inversion Hembd; subst dim_embd.
  rewrite E, Hst. do 3 eexists. split; [reflexivity|]. split.
  - apply (Hsplice (fun _ => 0)). simpl. lia.
  - etransitivity; [apply (Hsplice (fun _ => 1)); reflexivity | reflexivity].
Defined.

Lemma linear_attention_causal_witness :
  (forall e : Env, e "sequence" <= 0 -> elem Example.values e = elem Example.values' e) /\
  exists out out',
    gpt2.linear_attention (SC := Example.ZScalars) Example.values Example.values
                          Example.values 0 = Ok out /\
    gpt2.linear_attention (SC := Example.ZScalars) Example.values Example.values
                          Example.values' 0 = Ok out' /\
    forall e : Env, e "sequence" <= 0 -> elem out e = elem out' e.
Proof.
  assert (Hagree : forall e : Env,
             e "sequence" <= 0 -> elem Example.values e = elem Example.values' e).
  { intros e He. simpl. destruct (e "sequence" <=? 0) eqn:E; [reflexivity|].
    apply Z.leb_gt in E. lia. }
  split; [exact Hagree|].
  destruct (is_ok_value
              (gpt2.linear_attention (SC := Example.ZScalars) Example.values Example.values
                                     Example.values 0)) as [out E1]; [reflexivity|].
  destruct (is_ok_value
              (gpt2.linear_attention (SC := Example.ZScalars) Example.values Example.values
                                     Example.values' 0)) as [out' E2]; [reflexivity|].
  assert (Hnames : forall d,
             In d (shape Example.values ++ shape Example.values ++ shape Example.values) ->
             dname d = dname Example.sequence -> d = Example.sequence).
  { intros d Hd Hn. simpl in Hd.
    repeat (destruct Hd as [<-|Hd]; [try reflexivity; discriminate Hn|]).
    contradiction. }
  assert (Hs : dname Example.sequence <> "features_per_head_in") by discriminate.
  destruct (@linear_attention_causal Example.ZScalars Example.values Example.values
              Example.values Example.values' 0 Example.sequence 0 out out'
              eq_refl eq_refl Hnames Hs Hagree E1 E2) as [_ H3].
  exists out, out'. split; [exact E1|]. split; [exact E2 | exact H3].
Defined.

Lemma attention_none_residual_witness :
  nth_error (p_attention_types (Example.config Example.only_none "GPT2" "train")) 0
  = Some (Interned "none") /\
  gpt2.attention_sublayer (SC := Example.ZScalars) (LB := Example.ZLibrary)
    "gpt2/h0" (Example.config Example.only_none "GPT2" "train") 0 None
    Example.sequence (mkDim "memory_length" 2) Example.float_dtype Example.embd
    Example.ones None =
  (Ok (Example.ones
       [+] gpt2.pre_residual_fn (LB := Example.ZLibrary) "gpt2/h0"
             (Example.config Example.only_none "GPT2" "train")
             Example.float_dtype Example.ones "norm_rezero_1"), None).
Proof.
  split; [reflexivity|].
  apply (attention_none_residual (SC := Example.ZScalars) (LB := Example.ZLibrary)
           "gpt2/h0" (Example.config Example.only_none "GPT2" "train") 0 None
           Example.sequence (mkDim "memory_length" 2) Example.float_dtype Example.embd
           Example.ones None eq_refl).
Defined.

Lemma train_loss_value_witness :
  p_mode (Example.config Example.global_local "GPT2" "train") = "train" /\
  exists logits l lb st',
    gpt2.model (SC := Example.ZScalars) (LB := Example.ZLibrary) "gpt2" Example.features
               Example.other_features (Example.config Example.global_local "GPT2" "train")
               (Given Example.float_dtype) None
    = (Ok (logits, Some l, Some lb), st').
Proof.
  split; [reflexivity|].
  destruct (is_ok_run
              (gpt2.model (SC := Example.ZScalars) (LB := Example.ZLibrary) "gpt2"
                          Example.features Example.other_features
                          (Example.config Example.global_local "GPT2" "train")
                          (Given Example.float_dtype) None))
    as ([[logits loss] loss_batch] & st' & E); [vm_compute; reflexivity|].
  destruct (train_loss_value "gpt2" Example.features Example.other_features
              (Example.config Example.global_local "GPT2" "train")
              (Given Example.float_dtype) None eq_refl E)
    as (l & lb & _ & _ & _ & _ & Hl & Hlb & _).
  exists logits, l, lb, st'. rewrite E, Hl, Hlb. reflexivity.
Defined.

Lemma padding_loss_zeroed_witness :
  p_mode (Example.config Example.global_local "GPT2" "train") = "train" /\
  p_causal (Example.config Example.global_local "GPT2" "train") = Some false /\
  elem Example.padded_labels (fun _ => 0) = 0 /\
  exists logits loss lb st',
    gpt2.model (SC := Example.ZScalars) (LB := Example.ZLibrary) "gpt2"
               Example.padded_features Example.other_features
               (Example.config Example.global_local "GPT2" "train")
               (Given Example.float_dtype) None
    = (Ok (logits, loss, Some lb), st') /\
    elem lb (fun _ => 0) = 0.
Proof.
  split; [reflexivity|]. split; [reflexivity|]. split; [reflexivity|].
  destruct (is_ok_run
              (gpt2.model (SC := Example.ZScalars) (LB := Example.ZLibrary) "gpt2"
                          Example.padded_features Example.other_features
                          (Example.config Example.global_local "GPT2" "train")
                          (Given Example.float_dtype) None))
    as ([[logits loss] loss_batch] & st' & E); [vm_compute; reflexivity|].
  destruct (padding_loss_zeroed "gpt2" Example.padded_features Example.other_features
              (Example.config Example.global_local "GPT2" "train")
              (Given Example.float_dtype) None eq_refl E)
    as (lbl & lg & vocab & lb & l & aux & Hlbl & Hlb & _ & Hzero & _).
  exists logits, loss, lb, st'. rewrite E, Hlb. split; [reflexivity|].
  rewrite (Hzero eq_refl). simpl in Hlbl. inversion Hlbl. reflexivity.
Defined.

Lemma states_recorded_per_attention_layer_witness :
  exists recs st',
    snd (gpt2.model (SC := Example.ZScalars) (LB := Example.ZLibrary) "gpt2"
                    Example.features Example.other_features
                    (Example.config Example.global_none "GPT2" "predict")
                    (Given Example.float_dtype) (Some Example.incremental_context))
    = Some st' /\
    new_states st' = List.concat recs /\
    key_value_pair (SC := Example.ZScalars) (LB := Example.ZLibrary) "gpt2/h0"
                   (Example.config Example.global_none "GPT2" "predict")
                   Example.float_dtype Example.sequence Example.incremental_context
                   (nth 0 recs []) /\
    nth 1 recs [] = [].
Proof.
  destruct (is_ok_run
              (gpt2.model (SC := Example.ZScalars) (LB := Example.ZLibrary) "gpt2"
                          Example.features Example.other_features
                          (Example.config Example.global_none "GPT2" "predict")
                          (Given Example.float_dtype) (Some Example.incremental_context)))
    as (out & st' & E); [vm_compute; reflexivity|].
  destruct (states_recorded_per_attention_layer _ _ _ _ _ _ E)
    as (vd' & x & sd & recs & Hvd & Hx & Hsd & Hst & _ & Hlayer).
  inversion Hvd; subst vd'. inversion Hx; subst x. inversion Hsd; subst sd.
  exists recs. eexists. rewrite E, Hst. split; [reflexivity|]. split; [reflexivity|].
  destruct (Hlayer 0%nat) as (t0 & Ht0 & H0); [simpl; lia|].
  destruct (Hlayer 1%nat) as (t1 & Ht1 & H1); [simpl; lia|].
  simpl in Ht0, Ht1. inversion Ht0; subst t0. inversion Ht1; subst t1.
  cbn [str_val String.eqb Ascii.eqb Bool.eqb] in H0, H1.
  split; [exact (proj2 H0) | exact H1].
Defined.


Lemma eval_perplexity_unreached_witness :
  (forall x : Z, x / 1 = x) /\
  model_fns.metric_value (SC := Example.ZScalars)
    (model_fns._perplexity (SC := Example.ZScalars)
       (Example.config Example.global_local "GPT2" "eval") [2; 4]
       (model_fns.metric_init (SC := Example.ZScalars))) = 8 /\
  exists msg,
    model_fns.model_fn (SC := Example.ZScalars) (LB := Example.ZLibrary)
                       (RT := Example.ZRuntime) (Some [1; 2]) (Some [1; 2]) model_fns.EVAL
                       (Example.config Example.global_local "GPT2" "eval")
    = Raise (TypeError msg).
Proof.
  split; [exact Z.div_1_r|].
  destruct (eval_perplexity_unreached (SC := Example.ZScalars) (LB := Example.ZLibrary)
              (RT := Example.ZRuntime) (Some [1; 2]) (Some [1; 2])
              (Example.config Example.global_local "GPT2" "eval") [] [2; 4]
              InitialRing.Zth Z.div_1_r) as ((_ & Hvalue) & _ & Hraise).
  split; [exact Hvalue | exact (Hraise eq_refl)].
Defined.

(* ------------------------------------------------------------------------ *)
(** ** Shapes of the layers *)

Lemma dim_eqb_eq (a b : Dimension) : dim_eqb a b = true <-> a = b.
Proof.
  unfold dim_eqb. destruct (Dimension_eq_dec a b); split; intros H;
    try reflexivity; try assumption; try discriminate; contradiction.
Qed.

Lemma dim_eqb_refl (a : Dimension) : dim_eqb a a = true.
Proof. apply dim_eqb_eq. reflexivity. Qed.

Lemma dim_eqb_neq (a b : Dimension) : dim_eqb a b = false <-> a <> b.
Proof.
  unfold dim_eqb. destruct (Dimension_eq_dec a b); split; intros H;
    try reflexivity; try assumption; try discriminate; contradiction.
Qed.

Lemma is_subsequence_refl (s : Shape) : is_subsequence s s = true.
Proof.
  induction s as [|d s IH]; simpl; [reflexivity|].
  rewrite dim_eqb_refl. exact IH.
Qed.

Lemma is_subsequence_length (b : Shape) :
  forall a, is_subsequence a b = true -> (List.length a <= List.length b)%nat.
Proof.
  induction b as [|x b IH]; intros [|y a] H; simpl in *; try lia; try discriminate.
  destruct (dim_eqb y x).
  - apply IH in H. lia.
  - apply IH in H. simpl in H. lia.
Qed.

Lemma is_subsequence_same_length (b : Shape) :
  forall a, is_subsequence a b = true ->
            (List.length b <= List.length a)%nat -> a = b.
Proof.
  induction b as [|x b IH]; intros [|y a] H Hlen; simpl in *;
    try reflexivity; try lia; try discriminate.
  destruct (dim_eqb y x) eqn:E.
  - apply dim_eqb_eq in E. subst y. f_equal. apply IH; [exact H | lia].
  - apply is_subsequence_length in H. simpl in H. lia.
Qed.

Lemma broadcast_shape_sub (s1 s2 : Shape) :
  is_subsequence s2 s1 = true -> broadcast_shape s1 s2 = s1.
Proof.
  intros H. unfold broadcast_shape.
  destruct (is_subsequence s1 s2) eqn:E.
  - symmetry. apply is_subsequence_same_length; [exact E|].
    apply is_subsequence_length. exact H.
  - rewrite H. reflexivity.
Qed.

Lemma broadcast_shape_same (s : Shape) : broadcast_shape s s = s.
Proof. apply broadcast_shape_sub, is_subsequence_refl. Qed.

Lemma is_subsequence_skip (short : Shape) (d : Dimension) (long : Shape) :
  (forall a, In a short -> a <> d) ->
  is_subsequence short (d :: long) = is_subsequence short long.
Proof.
  intros H. destruct short as [|a short]; [destruct long; reflexivity|].
  cbn [is_subsequence].
  assert (E : dim_eqb a d = false) by (apply dim_eqb_neq, H; left; reflexivity).
  rewrite E. reflexivity.
Qed.

Lemma is_subsequence_filter (f : Dimension -> bool) (s : Shape) :
  is_subsequence (filter f s) s = true.
Proof.
  induction s as [|d s IH]; [reflexivity|].
  cbn [filter]. destruct (f d) eqn:E.
  - cbn [is_subsequence]. rewrite dim_eqb_refl. exact IH.
  - rewrite is_subsequence_skip; [exact IH|].
    intros a Ha ->. apply filter_In in Ha. destruct Ha as [_ Ha]. congruence.
Qed.

Lemma is_subsequence_singleton (d : Dimension) (s : Shape) :
  In d s -> is_subsequence [d] s = true.
Proof.
  induction s as [|x s IH]; intros H; [contradiction|].
  cbn [is_subsequence]. destruct (dim_eqb d x) eqn:E.
  - destruct s; reflexivity.
  - apply IH. destruct H as [->|H]; [|exact H].
    rewrite dim_eqb_refl in E. discriminate.
Qed.

Lemma list_last_app {A} (l : list A) (x : A) :
  list_last l = Ok x -> exists pre, l = pre ++ [x].
Proof.
  unfold list_last. destruct (rev l) as [|y r] eqn:E; intros H; inversion H; subst.
  exists (rev r). apply (f_equal (@rev A)) in E. rewrite rev_involutive in E.
  exact E.
Qed.

Lemma list_last_nil {A} (l : list A) :
  l = [] -> list_last l = Raise (IndexError "index out of range").
Proof. intros ->. reflexivity. Qed.

Section Shapes.
Context {SC : Scalars} {LB : Library}.

Lemma norm_shape (x : T) (axis : Dimension) (epsilon : R) :
  shape (gpt2.norm x axis epsilon) = shape x.
Proof.
  unfold gpt2.norm.
  cbn [shape mtf.mul mtf.sub mtf.add binary rsqrt unary square reduce_mean scalar].
  rewrite broadcast_shape_nil_r.
  rewrite (@broadcast_shape_sub (shape x)) by apply is_subsequence_filter.
  apply broadcast_shape_sub, is_subsequence_filter.
Qed.

Lemma prenorm_ok_shape
      (vs : string) (params : Params) (vd : VariableDType) (x y : T) (scope : string) :
  gpt2.prenorm vs params vd x scope = Ok y -> shape y = shape x.
Proof.
  unfold gpt2.prenorm. destruct (p_rezero params).
  - intros H. inversion H; subst. reflexivity.
  - destruct (p_scalenorm params); intros H.
    + unfold gpt2.scale_norm in H. inv_ok.
      cbn [shape mtf.mul binary get_variable].
      rewrite norm_shape. apply broadcast_shape_nil_r.
    + unfold gpt2.layer_norm in H. inv_ok.
      match goal with Hl : list_last (shape x) = Ok ?n |- _ => apply list_last_In in Hl end.
      cbn [shape mtf.mul mtf.add binary get_variable].
      rewrite norm_shape.
      rewrite (@broadcast_shape_sub (shape x))
        by (apply is_subsequence_singleton; assumption).
      apply broadcast_shape_sub, is_subsequence_singleton. assumption.
Qed.

(** X1.  The pre-normalisation of a block keeps the shape of its input.  With
    rezero it is the identity and never raises; layer norm and scale norm
    raise [IndexError] exactly for a tensor without dimensions. *)
Theorem prenorm_shape
  (vs : string) (params : Params) (variable_dtype : VariableDType) (x : T)
  (scope : string) :
  (p_rezero params = true -> gpt2.prenorm vs params variable_dtype x scope = Ok x) /\
  (p_rezero params = false -> shape x = [] ->
   exists msg, gpt2.prenorm vs params variable_dtype x scope = Raise (IndexError msg)) /\
  (shape x <> [] ->
   exists y, gpt2.prenorm vs params variable_dtype x scope = Ok y /\ shape y = shape x).
Proof.
  split; [|split].
  - unfold gpt2.prenorm. intros ->. reflexivity.
  - unfold gpt2.prenorm. intros -> Hnil. unfold gpt2.scale_norm, gpt2.layer_norm.
    rewrite list_last_nil by exact Hnil.
    destruct (p_scalenorm params); eexists; reflexivity.
  - intros Hne.
    assert (Hok : exists y, gpt2.prenorm vs params variable_dtype x scope = Ok y).
    { unfold gpt2.prenorm. destruct (p_rezero params); [eexists; reflexivity|].
      destruct (list_last_ok Hne) as [d [Hd _]].
      unfold gpt2.scale_norm, gpt2.layer_norm. rewrite Hd.
      destruct (p_scalenorm params); eexists; reflexivity. }
    destruct Hok as [y Hy]. exists y. split; [exact Hy|].
    eapply prenorm_ok_shape. exact Hy.
Qed.

Lemma remove_dim_notin (d : Dimension) (s : Shape) :
  ~ In d s -> remove_dim d s = s.
Proof.
  intros H. unfold remove_dim. induction s as [|x s IH]; [reflexivity|].
  cbn [filter]. destruct (dim_eqb x d) eqn:E.
  - apply dim_eqb_eq in E. subst. exfalso. apply H. left. reflexivity.
  - cbn [negb]. f_equal. apply IH. intros Hin. apply H. right. exact Hin.
Qed.

Lemma remove_dim_last (pre : Shape) (d : Dimension) :
  ~ In d pre -> remove_dim d (pre ++ [d]) = pre.
Proof.
  intros H. unfold remove_dim. rewrite filter_app. fold (remove_dim d pre).
  rewrite remove_dim_notin by exact H. cbn [filter]. rewrite dim_eqb_refl.
  apply app_nil_r.
Qed.

Lemma NoDup_last_notin (pre : Shape) (d : Dimension) :
  NoDup (pre ++ [d]) -> ~ In d pre.
Proof.
  intros H Hin. apply NoDup_remove_2 in H. apply H. rewrite app_nil_r. exact Hin.
Qed.

Lemma linear_shape
      (vs : string) (x : T) (scope : string) (nf : Dimension) (w : R)
      (vd : arg VariableDType) (params : Params) (scale : bool) (y : T) :
  gpt2.linear vs x scope nf w vd params scale = Ok y ->
  exists pre d, shape x = pre ++ [d] /\ shape y = remove_dim d (shape x) ++ [nf].
Proof.
  unfold gpt2.linear. intros H. inv_ok.
  match goal with Hl : list_last (shape x) = Ok ?d |- _ =>
    apply list_last_app in Hl; destruct Hl as [pre Hpre]; exists pre, d end.
  split; [exact Hpre | reflexivity].
Qed.

Lemma dropout_if_shape (b : bool) (h : T) (rate : Q) (name : string) :
  shape (if b then dropout h rate name else h) = shape h.
Proof. destruct b; reflexivity. Qed.

Lemma mlp_shape
      (vs : string) (x : T) (scope : string) (n_state : Dimension)
      (vd : VariableDType) (params : Params) (y : T) :
  gpt2.mlp vs x scope n_state vd params = Ok y ->
  NoDup (shape x) -> ~ In n_state (shape x) ->
  shape y = shape x.
Proof.
  unfold gpt2.mlp. intros H Hnd Hn. inv_ok.
  rewrite dropout_if_shape.
  match goal with
  | H1 : gpt2.linear _ x _ _ _ _ _ _ = Ok ?h0,
    H2 : gpt2.linear _ (gelu ?h0) _ ?nx _ _ _ _ = Ok ?h2,
    Hl : list_last (shape x) = Ok ?nx |- _ =>
      apply linear_shape in H1; destruct H1 as (pre & d & Hx & Hh0);
      apply linear_shape in H2; destruct H2 as (pre2 & d2 & Hg & Hh2);
      apply list_last_app in Hl; destruct Hl as [pre' Hx']
  end.
  rewrite Hx in Hx'. apply app_inj_tail in Hx'. destruct Hx' as [<- <-].
  rewrite Hx in Hnd, Hn |- *.
  pose proof (NoDup_last_notin _ _ Hnd) as Hd.
  rewrite Hx in Hh0. rewrite remove_dim_last in Hh0 by exact Hd.
  cbn [shape gelu unary] in Hg, Hh2. rewrite Hh0 in Hg, Hh2.
  apply app_inj_tail in Hg. destruct Hg as [<- <-].
  rewrite Hh2. rewrite remove_dim_last; [reflexivity|].
  intros Hin. apply Hn. apply in_or_app. left. exact Hin.
Qed.

Lemma unpack_shape_ok (x : T) (x_shape : Shape) (dim_batch dim_embd : Dimension) :
  gpt2.unpack_shape x = Ok (x_shape, dim_batch, dim_embd) ->
  x_shape = shape x /\ In dim_embd (shape x) /\ (2 <= List.length (shape x))%nat.
Proof.
  unfold gpt2.unpack_shape. destruct (shape x) as [|a [|b s]] eqn:E; try discriminate.
  destruct (rev (a :: b :: s)) as [|l r] eqn:Er; [discriminate|].
  intros H. inversion H; subst. split; [reflexivity|]. split; [|simpl; lia].
  apply in_rev. rewrite Er. left. reflexivity.
Qed.

Lemma attn_shape
      (vs : string) (x : T) (scope : string) (n_state : Dimension) (attention_type : pystr)
      (layer_num : nat) (params : Params) (bias : option T)
      (dim_seq memory_length_dim : Dimension) (vd : VariableDType)
      (st st' : St) (a : T) :
  gpt2.attn vs x scope n_state attention_type layer_num params bias dim_seq
            memory_length_dim vd st = (Ok a, st') ->
  shape a = shape x.
Proof.
  unfold gpt2.attn. intros H. inv_ok.
  match goal with Hu : gpt2.unpack_shape x = Ok _ |- _ =>
    apply unpack_shape_ok in Hu; destruct Hu as (-> & Hin & _) end.
  destruct (p_n_head params =? 0); inv_ok.
  destruct (dsize n_state mod p_n_head params =? 0); inv_ok.
  cbn [shape mtf.add binary compute_output get_variable].
  apply broadcast_shape_sub, is_subsequence_singleton. exact Hin.
Qed.

Lemma pre_residual_fn_shape
      (vs : string) (params : Params) (vd : VariableDType) (a : T) (scope : string) :
  shape (gpt2.pre_residual_fn vs params vd a scope) = shape a.
Proof.
  unfold gpt2.pre_residual_fn, gpt2.rezero, gpt2.identity.
  destruct (p_rezero params); [|reflexivity].
  cbn [shape mtf.mul binary get_variable]. apply broadcast_shape_nil_r.
Qed.

Lemma residual_shape
      (vs : string) (params : Params) (vd : VariableDType) (x a : T) (scope : string) :
  shape a = shape x ->
  shape (x [+] gpt2.pre_residual_fn vs params vd a scope) = shape x.
Proof.
  intros H. cbn [shape mtf.add binary]. rewrite pre_residual_fn_shape, H.
  apply broadcast_shape_same.
Qed.

Lemma attention_sublayer_shape
      (vs : string) (params : Params) (layer_num : nat) (bias : option T)
      (sequence_dim memory_length_dim : Dimension) (vd : VariableDType)
      (nx : Dimension) (x : T) (st st' : St) (x' : T) :
  gpt2.attention_sublayer vs params layer_num bias sequence_dim memory_length_dim vd
                          nx x st = (Ok x', st') ->
  shape x' = shape x.
Proof.
  unfold gpt2.attention_sublayer. intros H. inv_ok.
  match goal with
  | H : (if ?b then _ else _) _ = (Ok _, _) |- _ => destruct b
  end; inv_ok; apply residual_shape; [|reflexivity].
  match goal with
  | Ha : gpt2.attn _ _ _ _ _ _ _ _ _ _ _ _ = _, Hp : gpt2.prenorm _ _ _ _ _ = Ok _ |- _ =>
      apply attn_shape in Ha; apply prenorm_ok_shape in Hp; congruence
  end.
Qed.

Lemma feed_forward_sublayer_shape
      (vs : string) (params : Params) (layer_num : nat) (vd : VariableDType)
      (nx : Dimension) (x y aux : T) :
  gpt2.feed_forward_sublayer vs params layer_num vd nx x = Ok (y, aux) ->
  NoDup (shape x) ->
  (forall d, In d (shape x) -> dname d <> "intermediate_expanded") ->
  shape y = shape x /\ shape aux = [].
Proof.
  unfold gpt2.feed_forward_sublayer. intros H Hnd Hname. inv_ok.
  match goal with Hp : gpt2.prenorm _ _ _ _ _ = Ok ?r |- _ =>
    apply prenorm_ok_shape in Hp; rename Hp into Hres; rename r into res_x end.
  match goal with
  | H : (if ?b then _ else _) = Ok _ |- _ => destruct b
  end.
  - destruct (p_moe_params params); inv_ok.
    split; [|reflexivity]. apply residual_shape. cbn [shape]. exact Hres.
  - inv_ok. split; [|reflexivity]. apply residual_shape.
    destruct (p_mlp_glu params).
    + match goal with Hg : gpt2.mlp_glu _ _ _ _ _ _ = Ok _ |- _ =>
        unfold gpt2.mlp_glu in Hg;
        destruct (list_last (shape res_x)); simpl in Hg; discriminate Hg end.
    + match goal with Hm : gpt2.mlp _ _ _ _ _ _ = Ok _ |- _ =>
        apply mlp_shape in Hm; [congruence | rewrite Hres; exact Hnd |] end.
      rewrite Hres. intros Hin. apply Hname in Hin. apply Hin. reflexivity.
Qed.

(** X2.  A block that returns gives back a hidden state of the shape of its
    input and a scalar auxiliary loss, for an input whose dimensions are
    distinct and none of which is named "intermediate_expanded": blocks can
    be stacked. *)
Theorem block_keeps_shape
  (vs : string) (params : Params) (scope : string) (layer_num : nat) (bias : option T)
  (sequence_dim memory_length_dim : Dimension) (variable_dtype : VariableDType)
  (x : T) (st st' : St) (y aux_loss : T) :
  NoDup (shape x) ->
  (forall d, In d (shape x) -> dname d <> "intermediate_expanded") ->
  gpt2.block vs params scope layer_num bias sequence_dim memory_length_dim
             variable_dtype x st = (Ok (y, aux_loss), st') ->
  shape y = shape x /\ shape aux_loss = [].
Proof.
  intros Hnd Hname H. unfold gpt2.block in H. inv_ok.
  match goal with
  | Ha : gpt2.attention_sublayer _ _ _ _ _ _ _ _ _ _ = _,
    Hf : gpt2.feed_forward_sublayer _ _ _ _ _ _ = Ok _ |- _ =>
      apply attention_sublayer_shape in Ha;
      apply feed_forward_sublayer_shape in Hf;
      [ destruct Hf as [Hy Haux]; split; [congruence | exact Haux]
      | rewrite Ha; exact Hnd
      | rewrite Ha; exact Hname ]
  end.
Qed.

End Shapes.

Lemma prenorm_shape_witness :
  shape Example.ones <> [] /\
  exists y,
    gpt2.prenorm (SC := Example.ZScalars) (LB := Example.ZLibrary) "gpt2/h0"
                 (Example.config Example.global_local "GPT2" "train")
                 Example.float_dtype Example.ones "norm_1" = Ok y /\
    shape y = shape Example.ones.
Proof.
  split; [discriminate|].
  destruct (@prenorm_shape Example.ZScalars Example.ZLibrary "gpt2/h0"
              (Example.config Example.global_local "GPT2" "train")
              Example.float_dtype Example.ones "norm_1") as (_ & _ & H).
  apply H. discriminate.
Defined.

Lemma block_keeps_shape_witness :
  exists y aux_loss st',
    gpt2.block (SC := Example.ZScalars) (LB := Example.ZLibrary) "gpt2"
               (Example.config Example.global_local "GPT2" "train") "h0" 0
               (Some (gpt2.attn_bias Example.other_features)) Example.sequence
               (gpt2.memory_length_dim Example.other_features) Example.float_dtype
               Example.ones None = (Ok (y, aux_loss), st') /\
    shape y = shape Example.ones /\ shape aux_loss = [].
Proof.
  destruct (is_ok_run
              (gpt2.block (SC := Example.ZScalars) (LB := Example.ZLibrary) "gpt2"
                 (Example.config Example.global_local "GPT2" "train") "h0" 0
                 (Some (gpt2.attn_bias Example.other_features)) Example.sequence
                 (gpt2.memory_length_dim Example.other_features) Example.float_dtype
                 Example.ones None))
    as [[y aux_loss] [st' H]]; [vm_compute; reflexivity|].
  exists y, aux_loss, st'. split; [exact H|].
  assert (Hnd : NoDup (shape Example.ones)).
  { simpl. repeat constructor; simpl; intuition discriminate. }
  assert (Hname : forall d, In d (shape Example.ones) ->
                            dname d <> "intermediate_expanded").
  { simpl. intros d [<-|[<-|[<-|[]]]]; discriminate. }
  exact (@block_keeps_shape Example.ZScalars Example.ZLibrary "gpt2"
           (Example.config Example.global_local "GPT2" "train") "h0" 0%nat
           (Some (gpt2.attn_bias Example.other_features)) Example.sequence
           (gpt2.memory_length_dim Example.other_features) Example.float_dtype
           Example.ones None st' y aux_loss Hnd Hname H).
Defined.

(* ------------------------------------------------------------------------ *)
(** ** Training and evaluation through the estimator entry point *)

Section EntryPoint.
Context {SC : Scalars} {LB : Library} {RT : Runtime}.

Lemma model_missing_dtype
      (vs : string) (feats : gpt2.Features) (other : gpt2.OtherFeatures) (params : Params)
      (st : St) :
  gpt2.model vs feats other params Missing st =
  (Raise (TypeError "model() missing 1 required argument: 'variable_dtype'"), st).
Proof. reflexivity. Qed.

(** X3.  In TRAIN and EVAL mode [model_fn] never returns an estimator
    specification, whatever the features and the configuration: with the
    model "GPT2" the call of [gpt2.model] lacks [variable_dtype], with another
    model name the serialized step gets no outputs (more than one microbatch)
    or the name is rejected (at most one). *)
Theorem model_fn_train_eval_raises
  (features labels : option (list Z)) (mode : model_fns.ModeKeys) (params : Params) :
  mode <> model_fns.PREDICT ->
  exists e,
    model_fns.model_fn features labels mode params = Raise e /\
    if match p_model params with Some m => String.eqb m "GPT2" | None => false end
    then exists msg, e = TypeError msg
    else if 1 <? serialize_num_microbatches (model_fns.batch_dim mode params)
                                            (p_n_ctx params)
                                            (p_tokens_per_mb_per_replica params)
         then exists msg, e = TypeError msg
         else e = Exception (get_default (p_model params) "None" ++
                             " is not a valid model - please select from GPT2")%string.
Proof.
  apply model_fn_train_eval_outcome.
Qed.

End EntryPoint.

Lemma model_fn_train_eval_raises_witness :
  exists msg,
    model_fns.model_fn (SC := Example.ZScalars) (LB := Example.ZLibrary)
                       (RT := Example.ZRuntime) (Some [1; 2]) (Some [1; 2]) model_fns.TRAIN
                       (Example.config Example.global_local "GPT2" "train") =
    Raise (TypeError msg).
Proof.
  assert (Hmode : model_fns.TRAIN <> model_fns.PREDICT) by discriminate.
  destruct (@model_fn_train_eval_raises Example.ZScalars Example.ZLibrary Example.ZRuntime
              (Some [1; 2]) (Some [1; 2]) model_fns.TRAIN
              (Example.config Example.global_local "GPT2" "train") Hmode)
    as (e & Hrun & Hclass).
  simpl in Hclass. destruct Hclass as [msg ->]. exists msg. exact Hrun.
Defined.

(* ------------------------------------------------------------------------ *)
(** ** The decoding context under errors *)

Section ContextDiscipline.
Context {SC : Scalars} {LB : Library}.

Lemma unpack_shape_short (x : T) :
  (List.length (shape x) < 2)%nat ->
  gpt2.unpack_shape x = Raise (ValueError "not enough values to unpack").
Proof.
  unfold gpt2.unpack_shape. destruct (shape x) as [|a [|b l]]; simpl; intros H.
  - reflexivity.
  - reflexivity.
  - lia.
Qed.

Lemma unpack_shape_long (x : T) :
  (2 <= List.length (shape x))%nat ->
  exists dim_batch dim_embd,
    gpt2.unpack_shape x = Ok (shape x, dim_batch, dim_embd).
Proof.
  unfold gpt2.unpack_shape. destruct (shape x) as [|a [|b l]] eqn:E; simpl; intros H.
  - lia.
  - lia.
  - destruct (rev l ++ [b]) as [|d r] eqn:Er.
    + apply app_eq_nil in Er. destruct Er as [_ Er]. discriminate.
    + simpl. eauto.
Qed.

(** X4.  [attn] checks its input before it touches the decoding context: an
    input with fewer than two dimensions fails the unpacking of its shape, no
    head at all divides by zero, and a width that the number of heads does
    not divide fails the assertion, in this order; the context is left as it
    was. *)
Theorem attn_rejects_before_recording
  (vs : string) (x : T) (scope : string) (n_state : Dimension) (attention_type : pystr)
  (layer_num : nat) (params : Params) (bias : option T)
  (dim_seq memory_length_dim : Dimension) (variable_dtype : VariableDType) (st : St) :
  (List.length (shape x) < 2)%nat \/ p_n_head params = 0 \/
  dsize n_state mod p_n_head params <> 0 ->
  exists e,
    gpt2.attn vs x scope n_state attention_type layer_num params bias dim_seq
              memory_length_dim variable_dtype st = (Raise e, st) /\
    if (List.length (shape x) <? 2)%nat then exists msg, e = ValueError msg
    else if p_n_head params =? 0 then e = ZeroDivisionError
         else e = AssertionError.
Proof.
  intros H. unfold gpt2.attn.
  destruct (Nat.ltb_spec (List.length (shape x)) 2) as [Hs|Hs].
  - rewrite unpack_shape_short by exact Hs. eexists. split; [reflexivity|].
    eexists. reflexivity.
  - destruct (unpack_shape_long x Hs) as (db & de & ->).
    cbn [bind Py_Monad lift].
    destruct (Z.eqb_spec (p_n_head params) 0) as [Hh|Hh];
      [eexists; split; reflexivity|].
    destruct (Z.eqb_spec (dsize n_state mod p_n_head params) 0) as [Hm|Hm];
      [|eexists; split; reflexivity].
    exfalso. destruct H as [H|[H|H]]; [lia | contradiction | contradiction].
Qed.

End ContextDiscipline.

Lemma attn_rejects_before_recording_witness :
  exists msg,
  gpt2.attn (SC := Example.ZScalars) (LB := Example.ZLibrary) "gpt2/h0"
            (mkTensor (A := Z) [Example.embd] float32 (fun _ => 1)) "attn"
            Example.embd (Heap 0 "global") 0
            (Example.config Example.global_local "GPT2" "predict") None Example.sequence
            (mkDim "memory_length" 2) Example.float_dtype (Some Example.full_context) =
  (Raise (ValueError msg), Some Example.full_context).
Proof.
  assert (Hshort : (List.length (shape (mkTensor (A := Z) [Example.embd] float32
                                                  (fun _ => 1%Z))) < 2)%nat \/
                   p_n_head (Example.config Example.global_local "GPT2" "predict") = 0 \/
                   dsize Example.embd
                   mod p_n_head (Example.config Example.global_local "GPT2" "predict") <> 0)
    by (left; simpl; lia).
  destruct (@attn_rejects_before_recording Example.ZScalars Example.ZLibrary "gpt2/h0"
              (mkTensor (A := Z) [Example.embd] float32 (fun _ => 1)) "attn"
              Example.embd (Heap 0 "global") 0%nat
              (Example.config Example.global_local "GPT2" "predict") None Example.sequence
              (mkDim "memory_length" 2) Example.float_dtype (Some Example.full_context)
              Hshort) as (e & Hrun & Hclass).
  simpl in Hclass. destruct Hclass as [msg ->]. exists msg. exact Hrun.
Defined.

Section CacheUse.
Context {SC : Scalars} {LB : Library}.

Lemma get_states_short (c : Context) :
  (List.length (states c) < List.length (new_states c) + 2)%nat ->
  gpt2.unpack2 (get_states c 2) = Raise (ValueError "wrong number of values to unpack").
Proof.
  intros H. unfold get_states.
  assert (Hl : (List.length (skipn (List.length (new_states c)) (states c)) < 2)%nat)
    by (rewrite length_skipn; lia).
  destruct (skipn (List.length (new_states c)) (states c)) as [|a [|b l]];
    simpl in *; [reflexivity | reflexivity | lia].
Qed.

Lemma get_states_long (c : Context) :
  (List.length (new_states c) + 2 <= List.length (states c))%nat ->
  exists a b rest,
    skipn (List.length (new_states c)) (states c) = a :: b :: rest /\
    get_states c 2 = [a; b].
Proof.
  intros H. unfold get_states.
  assert (Hl : (2 <= List.length (skipn (List.length (new_states c)) (states c)))%nat)
    by (rewrite length_skipn; lia).
  destruct (skipn (List.length (new_states c)) (states c)) as [|a [|b l]];
    simpl in *; [lia | lia |]. eauto.
Qed.


End CacheUse.


Section FailureAfterRecording.
Context {SC : Scalars} {LB : Library}.

Lemma attn_dispatch_unknown
      (vs : string) (layer_num : nat) (params : Params)
      (dim_batch dim_heads dim_kv dim_seq memory_length_dim : Dimension)
      (vd : VariableDType) (inputs : T * T * T * option T * option T) (st : St)
      (t : pystr) :
  nth_error (p_attention_types params) layer_num = Some t ->
  ~ attention_type_known t ->
  gpt2.attn_dispatch vs layer_num params dim_batch dim_heads dim_kv dim_seq
                     memory_length_dim vd inputs st =
  (Raise (NotImplementedError ("Unknown attention type " ++ str_val t ++ "!")%string), st).
Proof.
  intros Ht Hun. unfold gpt2.attn_dispatch.
  destruct inputs as [[[[q k] v] bias] one_hot].
  unfold get_context, list_get. rewrite Ht. cbn [bind Py_Monad lift].
  unfold attention_type_known in Hun. unfold py_eq.
  destruct (String.eqb_spec (str_val t) "local"); [tauto|].
  destruct (String.eqb_spec (str_val t) "global"); [tauto|].
  destruct (String.eqb_spec (str_val t) "linear"); [tauto|].
  reflexivity.
Qed.

Lemma attn_unknown
      (vs : string) (x : T) (scope : string) (n_state : Dimension) (attention_type : pystr)
      (layer_num : nat) (params : Params) (bias : option T)
      (dim_seq memory_length_dim : Dimension) (vd : VariableDType) (st : St) (t : pystr) :
  nth_error (p_attention_types params) layer_num = Some t ->
  ~ attention_type_known t ->
  is_ok (fst (gpt2.attn vs x scope n_state attention_type layer_num params bias dim_seq
                        memory_length_dim vd st)) = false.
Proof.
  intros Ht Hun. unfold gpt2.attn.
  apply bind_Py_not_ok. intros [[x_shape dim_batch] dim_embd] s1 _.
  apply bind_Py_not_ok. intros _ s2 _.
  apply bind_Py_not_ok. intros inputs s3 _.
  apply bind_Py_not_ok. intros a s4 Hd.
  erewrite attn_dispatch_unknown in Hd by eassumption. discriminate.
Qed.

Lemma unpack_shape_raise (x : T) (e : exn) :
  gpt2.unpack_shape x = Raise e -> exists msg, e = ValueError msg.
Proof.
  unfold gpt2.unpack_shape. generalize (rev (shape x)). intros r.
  destruct (shape x) as [|a [|b s]]; destruct r; intros H; inversion H; eauto.
Qed.

Lemma attn_inputs_raise
      (mtfparams : AttentionParams) (x : T) (bias : option T) (dim_seq : Dimension)
      (vd : VariableDType) (st st' : St) (e : exn) :
  gpt2.attn_inputs mtfparams x bias dim_seq vd st = (Raise e, st') ->
  exists msg, e = ValueError msg.
Proof.
  unfold gpt2.attn_inputs, get_context. destruct st as [c|];
    cbn [bind Py_Monad gpt2.is_incremental_inference].
  - destruct (String.eqb (ctx_mode c) "incremental").
    + destruct (get_states c 2) as [|old_k [|old_v [|w l]]];
        cbn [gpt2.unpack2 lift ret Py_Monad gpt2.exists_ record_new_states];
        intros H; inversion H; eauto.
    + cbn [lift ret Py_Monad gpt2.exists_ record_new_states]. intros H; inversion H.
  - cbn [lift ret Py_Monad gpt2.exists_ record_new_states]. intros H; inversion H.
Qed.

(** X6.  An attention type that [attn] does not implement is found out only
    after the key and the value of the layer were recorded: [attn] never
    returns for such a type, and when it raises the [NotImplementedError] of
    its last branch, the decoding context it was given holds two more
    states. *)
Theorem unknown_type_raises_after_recording
  (vs : string) (x : T) (scope : string) (n_state : Dimension) (attention_type : pystr)
  (layer_num : nat) (params : Params) (bias : option T)
  (dim_seq memory_length_dim : Dimension) (variable_dtype : VariableDType)
  (c : Context) (t : pystr) :
  nth_error (p_attention_types params) layer_num = Some t ->
  ~ attention_type_known t ->
  (forall st,
      is_ok (fst (gpt2.attn vs x scope n_state attention_type layer_num params bias dim_seq
                            memory_length_dim variable_dtype st)) = false) /\
  (forall st',
      gpt2.attn vs x scope n_state attention_type layer_num params bias dim_seq
                memory_length_dim variable_dtype (Some c) =
      (Raise (NotImplementedError ("Unknown attention type " ++ str_val t ++ "!")%string),
       st') ->
      exists k v,
        st' = Some (mkContext (ctx_mode c) (position c) (states c)
                              (new_states c ++ [k; v]))).
Proof.
  intros Ht Hun. split.
  - intros st. eapply attn_unknown; eassumption.
  - intros st' H. unfold gpt2.attn in H.
    destruct (gpt2.unpack_shape x) as [[[x_shape db] de]|e0] eqn:Eu.
    2:{ apply unpack_shape_raise in Eu. destruct Eu as [msg ->].
        cbn [bind Py_Monad lift] in H. discriminate H. }
    cbn [bind Py_Monad lift] in H.
    destruct (p_n_head params =? 0); [cbn [raise] in H; discriminate H|].
    destruct (dsize n_state mod p_n_head params =? 0);
      [|cbn [raise] in H; discriminate H].
    cbn [ret Py_Monad] in H.
    match type of H with
    | context [gpt2.attn_inputs ?p x bias dim_seq variable_dtype (Some c)] =>
        destruct (gpt2.attn_inputs p x bias dim_seq variable_dtype (Some c))
          as [[[[[[q k] v] b] oh]|e1] s1] eqn:Ei
    end.
    + apply attn_inputs_records in Ei. cbn [if_context] in Ei.
      destruct s1 as [c1|]; cbn [records] in Ei; [subst c1|contradiction].
      erewrite attn_dispatch_unknown in H by eassumption.
      inversion H. exists k, v. reflexivity.
    + apply attn_inputs_raise in Ei. destruct Ei as [msg ->]. discriminate H.
Qed.

End FailureAfterRecording.

Lemma unknown_type_raises_after_recording_witness :
  exists k v,
    gpt2.attn (SC := Example.ZScalars) (LB := Example.ZLibrary) "gpt2/h1" Example.ones "attn"
              Example.embd (Heap 1 "sparse") 1
              (Example.config Example.sparse "GPT2" "predict") None Example.sequence
              (mkDim "memory_length" 2) Example.float_dtype (Some Example.full_context) =
    (Raise (NotImplementedError "Unknown attention type sparse!"),
     Some (mkContext "first_part" (position Example.full_context) [] [k; v])).
Proof.
  assert (Hun : ~ attention_type_known (Heap 1 "sparse"))
    by (unfold attention_type_known; simpl; intros [H|[H|H]]; discriminate H).
  destruct (@unknown_type_raises_after_recording Example.ZScalars Example.ZLibrary
              "gpt2/h1" Example.ones "attn" Example.embd (Heap 1 "sparse") 1%nat
              (Example.config Example.sparse "GPT2" "predict") None Example.sequence
              (mkDim "memory_length" 2) Example.float_dtype Example.full_context
              (Heap 1 "sparse") eq_refl Hun) as [_ Hrec].
  destruct (gpt2.attn (SC := Example.ZScalars) (LB := Example.ZLibrary) "gpt2/h1"
                      Example.ones "attn" Example.embd (Heap 1 "sparse") 1
                      (Example.config Example.sparse "GPT2" "predict") None
                      Example.sequence (mkDim "memory_length" 2) Example.float_dtype
                      (Some Example.full_context)) as [r st'] eqn:E.
  assert (Hr : r = Raise (NotImplementedError "Unknown attention type sparse!")).
  { change r with (fst (r, st')). rewrite <- E. vm_compute. reflexivity. }
  subst r. destruct (Hrec st' eq_refl) as (k & v & ->).
  exists k, v. reflexivity.
Defined.

(* ------------------------------------------------------------------------ *)
(** ** What a forward pass may do to the decoding context *)

Section OnlyAppends.
Context {SC : Scalars} {LB : Library}.

Lemma only_appends_ret {A} (a : A) : only_appends (ret a).
Proof.
  intros st r st' H. inversion H; subst. exists []. apply records_refl.
Qed.

Lemma only_appends_lift {A} (m : result A) : only_appends (lift m).
Proof.
  intros st r st' H. inversion H; subst. exists []. apply records_refl.
Qed.

Lemma only_appends_raise {A} (e : exn) : only_appends (raise (A := A) e).
Proof.
  intros st r st' H. inversion H; subst. exists []. apply records_refl.
Qed.

Lemma only_appends_get_context : only_appends get_context.
Proof.
  intros st r st' H. inversion H; subst. exists []. apply records_refl.
Qed.

Lemma only_appends_record (l : list T) : only_appends (record_new_states l).
Proof.
  intros [c|] r st' H; simpl in H; inversion H; subst.
  - exists l. reflexivity.
  - exists []. reflexivity.
Qed.

Lemma only_appends_bind {A B} (m : Py St A) (f : A -> Py St B) :
  only_appends m -> (forall a, only_appends (f a)) -> only_appends (bind m f).
Proof.
  intros Hm Hf st r st' H. cbn [bind Py_Monad] in H.
  destruct (m st) as [[a|e] s1] eqn:E.
  - destruct (Hm _ _ _ E) as [l1 H1]. destruct (Hf a _ _ _ H) as [l2 H2].
    exists (l1 ++ l2). eapply records_trans; eassumption.
  - inversion H; subst. eapply Hm. exact E.
Qed.

Ltac appends_by known :=
  repeat first
    [ known
    | apply only_appends_ret
    | apply only_appends_lift
    | apply only_appends_raise
    | apply only_appends_get_context
    | apply only_appends_record
    | apply only_appends_bind; [|intro]
    | match goal with
      | |- only_appends (match ?x with _ => _ end) => destruct x
      end ].

Ltac appends := appends_by fail.

Lemma attn_only_appends
      (vs : string) (x : T) (scope : string) (n_state : Dimension) (attention_type : pystr)
      (layer_num : nat) (params : Params) (bias : option T)
      (dim_seq memory_length_dim : Dimension) (vd : VariableDType) :
  only_appends (gpt2.attn vs x scope n_state attention_type layer_num params bias dim_seq
                          memory_length_dim vd).
Proof.
  unfold gpt2.attn, gpt2.attn_inputs, gpt2.attn_dispatch. appends.
Qed.

Lemma block_only_appends
      (vs : string) (params : Params) (scope : string) (layer_num : nat) (bias : option T)
      (sequence_dim memory_length_dim : Dimension) (vd : VariableDType) (x : T) :
  only_appends (gpt2.block vs params scope layer_num bias sequence_dim memory_length_dim
                           vd x).
Proof.
  unfold gpt2.block, gpt2.attention_sublayer.
  appends_by ltac:(apply attn_only_appends).
Qed.

Lemma layers_loop_only_appends
      (vs : string) (params : Params) (other : gpt2.OtherFeatures) (sequence_dim : Dimension)
      (vd : VariableDType) (layers : list nat) :
  forall h aux, only_appends (gpt2.layers_loop vs params other sequence_dim vd layers h aux).
Proof.
  induction layers as [|layer rest IH]; intros h aux; cbn [gpt2.layers_loop].
  - apply only_appends_ret.
  - rewrite recompute_grad_transparent. unfold gpt2.block_fn_of.
    apply only_appends_bind; [apply block_only_appends|].
    intros [h' loss]. apply IH.
Qed.

(** X7.  Whether it returns or raises, a forward pass of the model leaves the
    decoding context as it was but for states appended to the recorded ones:
    it never changes the mode, the position, the cache or the states recorded
    before, and it never creates or drops a context. *)
Theorem model_only_appends
  (vs : string) (mtf_features : gpt2.Features) (other_features : gpt2.OtherFeatures)
  (params : Params) (variable_dtype : arg VariableDType) (st st' : St)
  (r : result (T * option T * option T)) :
  gpt2.model vs mtf_features other_features params variable_dtype st = (r, st') ->
  exists added, records st st' added.
Proof.
  revert st r st'. change (only_appends (gpt2.model vs mtf_features other_features params
                                                    variable_dtype)).
  unfold gpt2.model. appends_by ltac:(apply layers_loop_only_appends).
Qed.

End OnlyAppends.

Lemma model_only_appends_witness :
  exists r st' added,
    gpt2.model (SC := Example.ZScalars) (LB := Example.ZLibrary) "gpt2" Example.features
               Example.other_features (Example.config Example.sparse "GPT2" "predict")
               (Given Example.float_dtype) (Some Example.full_context) = (r, st') /\
    records (Some Example.full_context) st' added.
Proof.
  destruct (gpt2.model (SC := Example.ZScalars) (LB := Example.ZLibrary) "gpt2"
              Example.features Example.other_features
              (Example.config Example.sparse "GPT2" "predict")
              (Given Example.float_dtype) (Some Example.full_context)) as [r st'] eqn:E.
  destruct (@model_only_appends Example.ZScalars Example.ZLibrary "gpt2" Example.features
              Example.other_features (Example.config Example.sparse "GPT2" "predict")
              (Given Example.float_dtype) (Some Example.full_context) st' r E)
    as [added H].
  exists r, st', added. split; [reflexivity | exact H].
Defined.

(* ------------------------------------------------------------------------ *)
(** ** The cache through an incremental pass *)

Section CacheInvariant.
Context {SC : Scalars} {LB : Library}.
Hypothesis Rth : ring_theory r0 r1 radd rmul rsub ropp (@eq R).

Lemma spliced_refl (dim : Dimension) (c : Context) : spliced dim c (Some c).
Proof.
  exists [], (skipn (List.length (new_states c)) (states c)), [].
  split; [reflexivity|]. split; [|constructor].
  rewrite app_nil_r. destruct c; reflexivity.
Qed.

Lemma spliced_trans (dim : Dimension) (c c1 : Context) (st2 : St) :
  spliced dim c (Some c1) -> spliced dim c1 st2 -> spliced dim c st2.
Proof.
  intros (k1 & r1' & a1 & Hs1 & Hc1 & Hf1) (k2 & r2' & a2 & Hs2 & Hc2 & Hf2).
  inversion Hc1; subst c1; clear Hc1. cbn [new_states states ctx_mode position] in *.
  assert (Hlen : List.length k1 = List.length a1) by (eapply Forall2_length; eassumption).
  rewrite length_app, Nat.add_comm, <- skipn_skipn, Hs1, <- Hlen in Hs2.
  rewrite skipn_app, skipn_all, Nat.sub_diag in Hs2. cbn [skipn app] in Hs2.
  exists (k1 ++ k2), r2', (a1 ++ a2). split; [|split].
  - rewrite Hs1, Hs2, app_assoc. reflexivity.
  - rewrite Hc2, app_assoc. reflexivity.
  - apply Forall2_app; assumption.
Qed.

Lemma attn_inputs_spliced
      (mtfparams : AttentionParams) (x : T) (bias : option T) (dim_seq : Dimension)
      (vd : VariableDType) (c : Context) (out : T * T * T * option T * option T)
      (st' : St) :
  ctx_mode c = "incremental" ->
  gpt2.attn_inputs mtfparams x bias dim_seq vd (Some c) = (Ok out, st') ->
  spliced dim_seq c st'.
Proof.
  intros Hmode H. unfold gpt2.attn_inputs, get_context in H.
  cbn [bind Py_Monad gpt2.is_incremental_inference] in H.
  rewrite Hmode in H. cbn [String.eqb Ascii.eqb Bool.eqb] in H.
  destruct (Nat.lt_ge_cases (List.length (states c)) (List.length (new_states c) + 2))
    as [Hshort|Hlong].
  - rewrite get_states_short in H by exact Hshort. discriminate H.
  - destruct (get_states_long c Hlong) as (a & b & rest & Hskip & Hget).
    rewrite Hget in H.
    cbn [gpt2.unpack2 lift ret Py_Monad gpt2.exists_ record_new_states] in H.
    inversion H; subst; clear H.
    exists [a; b], rest. eexists. split; [exact Hskip|]. split; [reflexivity|].
    repeat constructor.
    all: intros e He;
      (etransitivity; [exact (splice_elem Rth _ _ _ dim_seq (master_dtype vd) e)|]);
      cbn [elem unary];
      destruct (Z.eqb_spec (e (dname dim_seq)) (elem (position c) e - 1));
      [contradiction | reflexivity].
Qed.

Lemma attn_spliced
      (vs : string) (x : T) (scope : string) (n_state : Dimension) (attention_type : pystr)
      (layer_num : nat) (params : Params) (bias : option T)
      (dim_seq memory_length_dim : Dimension) (vd : VariableDType)
      (c : Context) (st' : St) (a : T) :
  ctx_mode c = "incremental" ->
  gpt2.attn vs x scope n_state attention_type layer_num params bias dim_seq
            memory_length_dim vd (Some c) = (Ok a, st') ->
  spliced dim_seq c st'.
Proof.
  intros Hmode H. unfold gpt2.attn in H. inv_ok.
  destruct (p_n_head params =? 0); inv_ok.
  destruct (dsize n_state mod p_n_head params =? 0); inv_ok.
  match goal with
  | Hd : gpt2.attn_dispatch _ _ _ _ _ _ _ _ _ _ _ = _ |- _ =>
      apply attn_dispatch_ok in Hd; destruct Hd as [-> _]
  end.
  eapply attn_inputs_spliced; eassumption.
Qed.

Lemma block_spliced
      (vs : string) (params : Params) (scope : string) (layer_num : nat) (bias : option T)
      (sequence_dim memory_length_dim : Dimension) (vd : VariableDType)
      (x : T) (c : Context) (st' : St) (out : T * T) :
  ctx_mode c = "incremental" ->
  gpt2.block vs params scope layer_num bias sequence_dim memory_length_dim vd x (Some c)
  = (Ok out, st') ->
  spliced sequence_dim c st'.
Proof.
  intros Hmode H. unfold gpt2.block, gpt2.attention_sublayer in H. inv_ok.
  match goal with
  | H : (if ?b then _ else _) _ = (Ok _, _) |- _ => destruct b
  end; inv_ok.
  - eapply attn_spliced; eassumption.
  - apply spliced_refl.
Qed.

Lemma spliced_mode (dim : Dimension) (c c1 : Context) :
  spliced dim c (Some c1) -> ctx_mode c1 = ctx_mode c.
Proof.
  intros (k1 & r1' & a1 & _ & Hc1 & _). inversion Hc1; reflexivity.
Qed.

Lemma spliced_some (dim : Dimension) (c : Context) (st' : St) :
  spliced dim c st' -> exists c', st' = Some c'.
Proof.
  intros (k1 & r1' & a1 & _ & Hc1 & _). eauto.
Qed.

Lemma layers_loop_spliced
      (vs : string) (params : Params) (other : gpt2.OtherFeatures) (sequence_dim : Dimension)
      (vd : VariableDType) (layers : list nat) :
  forall (h0 aux0 : T) (c : Context) (out : T * T) (st' : St),
    ctx_mode c = "incremental" ->
    gpt2.layers_loop vs params other sequence_dim vd layers h0 aux0 (Some c) = (Ok out, st') ->
    spliced sequence_dim c st'.
Proof.
  induction layers as [|layer rest IH]; intros h0 aux0 c out st' Hmode H;
    cbn [gpt2.layers_loop] in H.
  - inv_ok. apply spliced_refl.
  - rewrite recompute_grad_transparent in H. inv_ok.
    match goal with
    | Hb : gpt2.block_fn_of _ _ _ _ _ _ _ _ = (Ok _, ?s1) |- _ =>
        unfold gpt2.block_fn_of in Hb; apply block_spliced in Hb; [|exact Hmode];
        destruct (spliced_some Hb) as [c1 ->]; pose proof (spliced_mode Hb) as Hm1
    end.
    eapply spliced_trans; [eassumption|].
    eapply IH; [|eassumption]. congruence.
Qed.

Lemma recorded_length (params : Params) (layers : list nat) (recs : list (list T)) :
  Forall2 (fun layer rec =>
             exists t, nth_error (p_attention_types params) layer = Some t /\
                       List.length rec = recorded_by t)
          layers recs ->
  List.length (List.concat recs) =
  list_sum (map (fun layer => match nth_error (p_attention_types params) layer with
                              | Some t => recorded_by t
                              | None => 0%nat
                              end) layers).
Proof.
  induction 1 as [|layer rec layers recs (t & Ht & Hlen) _ IH]; [reflexivity|].
  cbn [List.concat map list_sum]. rewrite length_app, IH, Ht, Hlen. reflexivity.
Qed.

(** X8.  An incremental pass of the whole model over a context that has
    recorded nothing yet reads the cache from its start, one key and one value
    per layer whose attention type is not "none", and records for each cached
    state a state that holds the same elements everywhere but at the decoding
    position (index [position - 1] along the sequence dimension of the
    inputs): the cache must hold that many states, and the recorded states
    can serve as the cache of the next step. *)
Theorem incremental_pass_splices_cache
  (vs : string) (mtf_features : gpt2.Features) (other_features : gpt2.OtherFeatures)
  (params : Params) (variable_dtype : arg VariableDType) (c : Context)
  (x : Tensor Z) (sequence_dim : Dimension)
  (out : T * option T * option T) (st' : St) :
  ctx_mode c = "incremental" ->
  new_states c = [] ->
  gpt2.inputs mtf_features = Some x ->
  nth_error (shape x) 1 = Some sequence_dim ->
  gpt2.model vs mtf_features other_features params variable_dtype (Some c) = (Ok out, st') ->
  exists consumed rest added,
    states c = consumed ++ rest /\
    List.length consumed = states_needed params /\
    st' = Some (mkContext (ctx_mode c) (position c) (states c) added) /\
    Forall2 (kept_except sequence_dim (position c)) consumed added.
Proof.
  intros Hmode Hnew Hx Hseq H. apply model_inv_dims in H.
  destruct H as (vd' & x' & bd & sd & h0 & aux0 & res & _ & Hx' & _ & Hsd & Hloop).
  rewrite Hx in Hx'. inversion Hx'; subst x'. apply list_get_ok in Hsd.
  rewrite Hseq in Hsd. inversion Hsd; subst sd.
  pose proof (layers_loop_records _ _ _ _ _ _ _ _ _ Hloop) as (recs & Hall & Hrec).
  apply recorded_length in Hall.
  apply layers_loop_spliced in Hloop; [|exact Hmode].
  destruct Hloop as (consumed & rest & added & Hs & Hst & Hf).
  subst st'. cbn [records if_context] in Hrec. inversion Hrec as [Hadded].
  apply app_inv_head in Hadded. subst added.
  rewrite Hnew in Hs. cbn [List.length skipn] in Hs.
  exists consumed, rest, (List.concat recs).
  split; [exact Hs|]. split.
  - rewrite (Forall2_length Hf). exact Hall.
  - rewrite Hnew. split; [reflexivity | exact Hf].
Qed.

End CacheInvariant.

Lemma incremental_pass_splices_cache_witness :
  exists consumed rest added st',
    snd (gpt2.model (SC := Example.ZScalars) (LB := Example.ZLibrary) "gpt2"
                    Example.features Example.other_features
                    (Example.config Example.global_none "GPT2" "predict")
                    (Given Example.float_dtype) (Some Example.incremental_context)) = st' /\
    states Example.incremental_context = consumed ++ rest /\
    List.length consumed = 2%nat /\
    st' = Some (mkContext "incremental" (position Example.incremental_context)
                          (states Example.incremental_context) added) /\
    Forall2 (kept_except Example.sequence (position Example.incremental_context))
            consumed added.
Proof.
  destruct (is_ok_run
              (gpt2.model (SC := Example.ZScalars) (LB := Example.ZLibrary) "gpt2"
                          Example.features Example.other_features
                          (Example.config Example.global_none "GPT2" "predict")
                          (Given Example.float_dtype) (Some Example.incremental_context)))
    as (out & st' & E); [vm_compute; reflexivity|].
  destruct (@incremental_pass_splices_cache Example.ZScalars Example.ZLibrary
              InitialRing.Zth "gpt2" Example.features Example.other_features
              (Example.config Example.global_none "GPT2" "predict")
              (Given Example.float_dtype) Example.incremental_context Example.tokens
              Example.sequence out st' eq_refl eq_refl eq_refl eq_refl E)
    as (consumed & rest & added & H1 & Hlen & H2 & H3).
  exists consumed, rest, added, st'. rewrite E.
  split; [reflexivity|]. split; [exact H1|]. split; [exact Hlen|].
  split; [exact H2 | exact H3].
Defined.

(* ------------------------------------------------------------------------ *)
(** ** What the model returns *)

Section ModelOutputs.
Context {SC : Scalars} {LB : Library}.

(** X9.  What a returning model hands back: logits in the master precision;
    outside training no loss and no per-token loss, in training both, the
    loss in the slice precision; and with tied embeddings logits over
    [batch, sequence, vocab], the sequence dimension having length 1 when
    decoding incrementally. *)
Theorem model_outputs
  (vs : string) (mtf_features : gpt2.Features) (other_features : gpt2.OtherFeatures)
  (params : Params) (variable_dtype : VariableDType) (st st' : St)
  (logits : T) (loss loss_batch : option T) :
  gpt2.model vs mtf_features other_features params (Given variable_dtype) st =
  (Ok (logits, loss, loss_batch), st') ->
  dtype logits = master_dtype variable_dtype /\
  (p_mode params <> "train" -> loss = None /\ loss_batch = None) /\
  (p_mode params = "train" ->
   exists l lb, loss = Some l /\ loss_batch = Some lb /\
                dtype l = slice_dtype variable_dtype) /\
  (p_no_weight_tie params = false ->
   exists x batch_dim sequence_dim,
     gpt2.inputs mtf_features = Some x /\
     nth_error (shape x) 0 = Some batch_dim /\
     nth_error (shape x) 1 = Some sequence_dim /\
     shape logits = [batch_dim;
                     if gpt2.is_incremental_inference st then mkDim "sequence" 1
                     else sequence_dim;
                     gpt2.vocab_dim other_features]).
Proof.
  intros H. unfold gpt2.model in H. inv_ok.
  destruct (gpt2.inputs mtf_features) as [inp|] eqn:Ex; inv_ok.
  destruct (p_no_weight_tie params) eqn:Etie; inv_ok.
  all: destruct (String.eqb_spec (p_mode params) "train") as [Hm|Hm]; inv_ok.
  all: try match goal with
         | Ht : gpt2.train_loss _ _ _ _ = Ok _ |- _ =>
             apply train_loss_inv in Ht;
             destruct Ht as (lbl & vocab & _ & _ & _ & _ & ->)
         end.
  all: split; [reflexivity|].
  all: split; [intros Hn; first [contradiction | split; reflexivity]|].
  all: split; [intros He; first [contradiction | do 2 eexists; repeat split]|].
  all: intros Ht; try discriminate Ht.
  all: match goal with
       | H0 : list_get (shape ?i) 0 = Ok ?b, H1 : list_get (shape ?i) 1 = Ok ?s |- _ =>
           apply list_get_ok in H0, H1; exists i, b, s
       end.
  all: repeat split; try assumption.
  all: cbn [shape cast einsum]; destruct (gpt2.is_incremental_inference st); reflexivity.
Qed.

End ModelOutputs.

Lemma model_outputs_witness :
  exists logits loss loss_batch st',
    gpt2.model (SC := Example.ZScalars) (LB := Example.ZLibrary) "gpt2" Example.features
               Example.other_features (Example.config Example.global_local "GPT2" "train")
               (Given Example.float_dtype) None = (Ok (logits, loss, loss_batch), st') /\
    dtype logits = float32 /\
    shape logits = [Example.batch; Example.sequence;
                    gpt2.vocab_dim Example.other_features].
Proof.
  destruct (is_ok_run
              (gpt2.model (SC := Example.ZScalars) (LB := Example.ZLibrary) "gpt2"
                          Example.features Example.other_features
                          (Example.config Example.global_local "GPT2" "train")
                          (Given Example.float_dtype) None))
    as ([[logits loss] loss_batch] & st' & E); [vm_compute; reflexivity|].
  destruct (@model_outputs Example.ZScalars Example.ZLibrary "gpt2" Example.features
              Example.other_features (Example.config Example.global_local "GPT2" "train")
              Example.float_dtype None st' logits loss loss_batch E)
    as (Hd & _ & _ & Hs).
  destruct (Hs eq_refl) as (x & b & s & Hx & Hb & Hsd & Hshape).
  simpl in Hx. inversion Hx; subst x. simpl in Hb, Hsd.
  inversion Hb; subst b. inversion Hsd; subst s.
  exists logits, loss, loss_batch, st'.
  split; [exact E|]. split; [exact Hd | exact Hshape].
Defined.

(* ------------------------------------------------------------------------ *)
(** ** Linear attention: when it returns *)

Section LinearAttention.
Context {SC : Scalars}.

(** X10.  [linear_attention] first reads the first four dimensions of [v]:
    with fewer it raises [IndexError].  It then renames the dimension
    "features_per_head" of [q] and of [k]: when one of them has no such
    dimension it raises [ValueError].  When it returns, [v] has at least four
    dimensions, [q] and [k] have that dimension, and the result has the first
    four dimensions of [v] as its shape. *)
Theorem linear_attention_returns (q k v : Tensor R) (epsilon : R) :
  ((List.length (shape v) < 4)%nat ->
   exists msg, gpt2.linear_attention q k v epsilon = Raise (IndexError msg)) /\
  ((4 <= List.length (shape v))%nat ->
   (forall d, In d (shape q) -> dname d <> "features_per_head") \/
   (forall d, In d (shape k) -> dname d <> "features_per_head") ->
   exists msg, gpt2.linear_attention q k v epsilon = Raise (ValueError msg)) /\
  (forall out,
      gpt2.linear_attention q k v epsilon = Ok out ->
      (4 <= List.length (shape v))%nat /\
      (exists d, In d (shape q) /\ dname d = "features_per_head") /\
      (exists d, In d (shape k) /\ dname d = "features_per_head") /\
      shape out = firstn 4 (shape v)).
Proof.
  assert (Hnone : forall s : Shape,
             (forall d, In d s -> dname d <> "features_per_head") ->
             existsb (fun d => String.eqb (dname d) "features_per_head") s = false).
  { intros s Hs. destruct (existsb _ s) eqn:E; [|reflexivity].
    apply existsb_exists in E. destruct E as (d & Hd & Hn).
    apply String.eqb_eq in Hn. elim (Hs d Hd Hn). }
  assert (Hsome : forall s : Shape,
             existsb (fun d => String.eqb (dname d) "features_per_head") s = true ->
             exists d, In d s /\ dname d = "features_per_head").
  { intros s E. apply existsb_exists in E. destruct E as (d & Hd & Hn).
    apply String.eqb_eq in Hn. eauto. }
  split; [|split].
  - intros Hv. unfold gpt2.linear_attention, list_get.
    destruct (shape v) as [|b [|s [|h [|o rest]]]]; try (eexists; reflexivity).
    simpl in Hv. lia.
  - intros Hv Hqk. unfold gpt2.linear_attention, list_get, rename_dimension_checked.
    destruct (shape v) as [|b [|s [|h [|o rest]]]]; simpl in Hv; try lia.
    cbn [nth_error bind result_Monad].
    destruct Hqk as [Hq|Hk].
    + rewrite (Hnone _ Hq). eexists. reflexivity.
    + destruct (existsb _ (shape q)); cbn [bind result_Monad];
        [rewrite (Hnone _ Hk)|]; eexists; reflexivity.
  - intros out H. apply linear_attention_inv in H.
    destruct H as (b & s & h & o & rest & dim_in & Hv & Hq & Hk & _ & Hout).
    cbn zeta in Hout. rewrite Hv. split; [simpl; lia|].
    split; [exact (Hsome _ Hq)|]. split; [exact (Hsome _ Hk)|].
    rewrite Hout. reflexivity.
Qed.

End LinearAttention.

Lemma linear_attention_returns_witness :
  exists out,
    gpt2.linear_attention (SC := Example.ZScalars) Example.values Example.values
                          Example.values' 0 = Ok out /\
    shape out = [Example.batch; Example.sequence; Example.heads;
                 Example.features_per_head].
Proof.
  destruct (is_ok_value
              (gpt2.linear_attention (SC := Example.ZScalars) Example.values Example.values
                                     Example.values' 0)) as [out E]; [reflexivity|].
  destruct (@linear_attention_returns Example.ZScalars Example.values Example.values
              Example.values' 0) as (_ & _ & H).
  destruct (H out E) as (_ & _ & _ & Hshape).
  exists out. split; [exact E | exact Hshape].
Defined.

(* ------------------------------------------------------------------------ *)
(** ** Dense and mixture-of-experts feed-forward layers *)

Section FeedForward.
Context {SC : Scalars} {LB : Library}.

Lemma feed_forward_dense
      (vs : string) (params : Params) (layer_num : nat) (vd : VariableDType)
      (nx : Dimension) (x y aux : T) :
  moe_layer params layer_num = false ->
  gpt2.feed_forward_sublayer vs params layer_num vd nx x = Ok (y, aux) ->
  p_mlp_glu params = false /\ aux = zeros [] (slice_dtype vd).
Proof.
  unfold gpt2.feed_forward_sublayer, moe_layer. intros Hmoe H. rewrite Hmoe in H.
  inv_ok. destruct (p_mlp_glu params); [|split; reflexivity].
  match goal with Hg : gpt2.mlp_glu _ _ _ _ _ _ = Ok _ |- _ =>
    unfold gpt2.mlp_glu in Hg;
    destruct (list_last (shape _)); simpl in Hg; discriminate Hg end.
Qed.

Lemma block_dense
      (vs : string) (params : Params) (scope : string) (layer_num : nat) (bias : option T)
      (sequence_dim memory_length_dim : Dimension) (vd : VariableDType)
      (x : T) (st st' : St) (y aux : T) :
  moe_layer params layer_num = false ->
  gpt2.block vs params scope layer_num bias sequence_dim memory_length_dim vd x st
  = (Ok (y, aux), st') ->
  p_mlp_glu params = false /\ aux = zeros [] (slice_dtype vd).
Proof.
  intros Hmoe H. unfold gpt2.block in H. inv_ok.
  eapply feed_forward_dense; eassumption.
Qed.

Lemma layers_loop_glu
      (vs : string) (params : Params) (other : gpt2.OtherFeatures) (sequence_dim : Dimension)
      (vd : VariableDType) (layers : list nat) :
  forall (h0 aux0 : T) (st : St) (out : T * T) (st' : St),
    p_mlp_glu params = true ->
    gpt2.layers_loop vs params other sequence_dim vd layers h0 aux0 st = (Ok out, st') ->
    forall layer, In layer layers -> moe_layer params layer = true.
Proof.
  induction layers as [|l rest IH]; intros h0 aux0 st out st' Hglu H layer Hin;
    cbn [gpt2.layers_loop] in H; [contradiction|].
  rewrite recompute_grad_transparent in H. inv_ok.
  destruct Hin as [<-|Hin].
  - destruct (moe_layer params l) eqn:E; [reflexivity|].
    match goal with
    | Hb : gpt2.block_fn_of _ _ _ _ _ _ _ _ = _ |- _ =>
        unfold gpt2.block_fn_of in Hb; eapply block_dense in Hb; [|exact E];
        destruct Hb as [Hb _]; congruence
    end.
  - eapply IH; eassumption.
Qed.

(** X11.  With the gated feed-forward ([mlp_glu]) configured, a model with a
    layer that is not a mixture-of-experts layer never builds: that layer
    calls [mlp_glu], whose first call of [linear] does not bind
    [variable_dtype].  So a model that builds with [mlp_glu] has a
    mixture-of-experts layer at every depth. *)
Theorem glu_dense_layer_never_builds
  (vs : string) (mtf_features : gpt2.Features) (other_features : gpt2.OtherFeatures)
  (params : Params) (variable_dtype : arg VariableDType) (st : St) (layer : nat) :
  p_mlp_glu params = true ->
  (layer < Z.to_nat (p_n_layer params))%nat ->
  moe_layer params layer = false ->
  is_ok (fst (gpt2.model vs mtf_features other_features params variable_dtype st)) = false.
Proof.
  intros Hglu Hlayer Hdense.
  destruct (gpt2.model vs mtf_features other_features params variable_dtype st)
    as [[out|e] st'] eqn:E; [|reflexivity].
  exfalso. apply model_inv in E.
  destruct E as (vd' & sequence_dim & h0 & aux0 & res & _ & Hloop).
  eapply layers_loop_glu with (layer := layer) in Hloop; [|exact Hglu|].
  - congruence.
  - apply in_seq. lia.
Qed.

End FeedForward.

Lemma glu_dense_layer_never_builds_witness :
  p_mlp_glu Example.glu_config = true /\
  is_ok (fst (gpt2.model (SC := Example.ZScalars) (LB := Example.ZLibrary) "gpt2"
                         Example.features Example.other_features Example.glu_config
                         (Given Example.float_dtype) None)) = false.
Proof.
  split; [reflexivity|].
  apply (@glu_dense_layer_never_builds Example.ZScalars Example.ZLibrary "gpt2"
           Example.features Example.other_features Example.glu_config
           (Given Example.float_dtype) None 0%nat eq_refl).
  - simpl. lia.
  - reflexivity.
Defined.

Section DenseLoss.
Context {SC : Scalars} {LB : Library}.
Hypothesis Rth : ring_theory r0 r1 radd rmul rsub ropp (@eq R).
Add Ring Rdense : Rth.

Lemma layers_loop_dense
      (vs : string) (params : Params) (other : gpt2.OtherFeatures) (sequence_dim : Dimension)
      (vd : VariableDType) (layers : list nat) :
  forall (h0 aux0 : T) (st : St) (h aux : T) (st' : St),
    (forall layer, In layer layers -> moe_layer params layer = false) ->
    gpt2.layers_loop vs params other sequence_dim vd layers h0 aux0 st = (Ok (h, aux), st') ->
    forall e, elem aux e = elem aux0 e.
Proof.
  induction layers as [|l rest IH]; intros h0 aux0 st h aux st' Hdense H e;
    cbn [gpt2.layers_loop] in H.
  - inv_ok. reflexivity.
  - rewrite recompute_grad_transparent in H. inv_ok.
    match goal with
    | Hb : gpt2.block_fn_of _ _ _ _ _ _ _ _ = _ |- _ =>
        unfold gpt2.block_fn_of in Hb; eapply block_dense in Hb;
        [destruct Hb as [_ ->] | apply Hdense; left; reflexivity]
    end.
    erewrite IH; [| |eassumption]; [|intros; apply Hdense; right; assumption].
    cbn [elem mtf.add binary zeros]. ring.
Qed.

(** X12.  When none of the layers is a mixture-of-experts layer the auxiliary
    losses vanish: the training loss is the mean of the per-token loss divided
    by the number of microbatches. *)
Theorem dense_model_loss
  (vs : string) (mtf_features : gpt2.Features) (other_features : gpt2.OtherFeatures)
  (params : Params) (variable_dtype : arg VariableDType) (st st' : St)
  (logits : T) (loss loss_batch : option T) :
  p_mode params = "train" ->
  (forall layer, (layer < Z.to_nat (p_n_layer params))%nat ->
                 moe_layer params layer = false) ->
  gpt2.model vs mtf_features other_features params variable_dtype st =
  (Ok (logits, loss, loss_batch), st') ->
  exists l lb,
    loss = Some l /\ loss_batch = Some lb /\
    forall e, elem l e = rdiv (elem (reduce_mean_all lb) e)
                              (r_of_Z (p_num_microbatches params)).
Proof.
  intros Hmode Hdense H.
  eapply model_train_inv in H; [|exact Hmode].
  destruct H
    as (vd' & sequence_dim & h0 & st0 & h & aux & lg & lg' & l & lb &
        _ & Hloop & Hloss & -> & -> & _).
  apply train_loss_inv in Hloss.
  destruct Hloss as (lbl & vocab & _ & _ & _ & Hl & _).
  exists (cast l (slice_dtype vd')), lb.
  split; [reflexivity|]. split; [reflexivity|].
  assert (Haux : forall e,
             elem aux e =
             elem (get_variable vs "aux_losses" [] (constant_initializer r0) false
                                (slice_dtype vd')) e).
  { eapply layers_loop_dense; [|exact Hloop].
    intros layer Hin. apply Hdense. apply in_seq in Hin. lia. }
  intros e. rewrite Hl. cbn [elem cast mtf.div mtf.add binary scalar].
  rewrite Haux. cbn [elem get_variable]. f_equal. ring.
Qed.

End DenseLoss.

Lemma dense_model_loss_witness :
  exists logits l lb st',
    gpt2.model (SC := Example.ZScalars) (LB := Example.ZLibrary) "gpt2" Example.features
               Example.other_features (Example.config Example.global_local "GPT2" "train")
               (Given Example.float_dtype) None = (Ok (logits, Some l, Some lb), st') /\
    forall e, elem l e = elem (reduce_mean_all (SC := Example.ZScalars) lb) e / 1.
Proof.
  destruct (is_ok_run
              (gpt2.model (SC := Example.ZScalars) (LB := Example.ZLibrary) "gpt2"
                          Example.features Example.other_features
                          (Example.config Example.global_local "GPT2" "train")
                          (Given Example.float_dtype) None))
    as ([[logits loss] loss_batch] & st' & E); [vm_compute; reflexivity|].
  assert (Hdense : forall layer,
             (layer < Z.to_nat (p_n_layer (Example.config Example.global_local
                                                          "GPT2" "train")))%nat ->
             moe_layer (Example.config Example.global_local "GPT2" "train") layer = false)
    by (intros; reflexivity).
  destruct (@dense_model_loss Example.ZScalars Example.ZLibrary InitialRing.Zth "gpt2"
              Example.features Example.other_features
              (Example.config Example.global_local "GPT2" "train")
              (Given Example.float_dtype) None st' logits loss loss_batch eq_refl
              Hdense E) as (l & lb & Hl & Hlb & Hval).
  subst loss loss_batch.
  exists logits, l, lb, st'. split; [exact E | exact Hval].
Defined.

(* ------------------------------------------------------------------------ *)
(** ** Variable scopes of the layers *)

Section LayerScopes.
Context {SC : Scalars} {LB : Library}.

Lemma str_injective (i j : nat) : gpt2.str i = gpt2.str j -> i = j.
Proof.
  unfold gpt2.str. intros H.
  apply (f_equal NilEmpty.uint_of_string) in H. rewrite !NilEmpty.usu in H.
  inversion H as [H']. apply (f_equal Nat.of_uint) in H'.
  rewrite !DecimalNat.Unsigned.of_to in H'. exact H'.
Qed.

Lemma append_injective (p a b : string) : (p ++ a = p ++ b)%string -> a = b.
Proof.
  induction p as [|c p IH]; simpl; intros H; [exact H|].
  inversion H. auto.
Qed.

(** X13.  With [share_parameters] every block is built in the variable scope
    "h": two layers of the same attention type that are both, or both not,
    mixture-of-experts layers are the same function of the hidden state and
    the context.  Without it layer [i] is built in the scope "h" followed by
    its number, and no two layers share a scope. *)
Theorem layer_scopes
  (vs : string) (params : Params) (other_features : gpt2.OtherFeatures)
  (sequence_dim : Dimension) (variable_dtype : VariableDType) (i j : nat) :
  (get_default (p_share_parameters params) false = true ->
   nth_error (p_attention_types params) i = nth_error (p_attention_types params) j ->
   moe_layer params i = moe_layer params j ->
   forall x st,
     gpt2.block_fn_of vs params other_features sequence_dim variable_dtype i x st =
     gpt2.block_fn_of vs params other_features sequence_dim variable_dtype j x st) /\
  (get_default (p_share_parameters params) false = false ->
   gpt2.block_fn_of vs params other_features sequence_dim variable_dtype i =
   gpt2.block vs params ("h" ++ gpt2.str i) i (Some (gpt2.attn_bias other_features))
              sequence_dim (gpt2.memory_length_dim other_features) variable_dtype /\
   (i <> j ->
    variable_scope vs ("h" ++ gpt2.str i) <> variable_scope vs ("h" ++ gpt2.str j))).
Proof.
  split.
  - intros Hshare Htype Hmoe x st. unfold gpt2.block_fn_of. rewrite Hshare.
    cbn [negb]. unfold gpt2.block, gpt2.attention_sublayer, gpt2.attn, gpt2.attn_dispatch,
      gpt2.feed_forward_sublayer, list_get.
    change (match p_moe_layers params with
            | Some l => existsb (Z.eqb (Z.of_nat i)) l
            | None => false
            end) with (moe_layer params i).
    change (match p_moe_layers params with
            | Some l => existsb (Z.eqb (Z.of_nat j)) l
            | None => false
            end) with (moe_layer params j).
    rewrite Htype, Hmoe. reflexivity.
  - intros Hshare. unfold gpt2.block_fn_of. rewrite Hshare. cbn [negb].
    split; [reflexivity|].
    intros Hij Heq. unfold variable_scope in Heq.
    apply append_injective in Heq. apply (append_injective "/") in Heq.
    apply (append_injective "h") in Heq. apply str_injective in Heq. contradiction.
Qed.

End LayerScopes.

Lemma layer_scopes_witness :
  variable_scope "gpt2" ("h" ++ gpt2.str 0) <> variable_scope "gpt2" ("h" ++ gpt2.str 1).
Proof.
  destruct (@layer_scopes Example.ZScalars Example.ZLibrary "gpt2"
              (Example.config Example.global_local "GPT2" "train") Example.other_features
              Example.sequence Example.float_dtype 0%nat 1%nat) as [_ H].
  destruct (H eq_refl) as [_ Hne]. apply Hne. discriminate.
Defined.

(* ------------------------------------------------------------------------ *)
(** ** Missing features *)

Section MissingFeatures.
Context {SC : Scalars} {LB : Library}.

(** X14.  The keys of the features dictionary: without "inputs" the model
    raises [KeyError] at once and leaves the context as it was; in training
    mode without "labels" it never returns; outside training mode the labels
    are never read. *)
Theorem missing_features
  (vs : string) (mtf_features : gpt2.Features) (other_features : gpt2.OtherFeatures)
  (params : Params) (variable_dtype : VariableDType) (st : St) :
  (gpt2.inputs mtf_features = None ->
   gpt2.model vs mtf_features other_features params (Given variable_dtype) st =
   (Raise (KeyError "inputs"), st)) /\
  (p_mode params = "train" -> gpt2.labels mtf_features = None ->
   is_ok (fst (gpt2.model vs mtf_features other_features params (Given variable_dtype) st))
   = false) /\
  (p_mode params <> "train" ->
   gpt2.model vs mtf_features other_features params (Given variable_dtype) st =
   gpt2.model vs (gpt2.mkFeatures (gpt2.inputs mtf_features) None) other_features params
              (Given variable_dtype) st).
Proof.
  split; [|split].
  - intros Hin. unfold gpt2.model. rewrite Hin. reflexivity.
  - intros Hmode Hlab.
    destruct (gpt2.model vs mtf_features other_features params (Given variable_dtype) st)
      as [[[[logits loss] loss_batch]|e] st'] eqn:E; [|reflexivity].
    exfalso. eapply model_train_inv in E; [|exact Hmode].
    destruct E as (vd' & sequence_dim & h0 & st0 & h & aux & lg & lg' & l & lb &
                   _ & _ & Hloss & _).
    apply train_loss_inv in Hloss. destruct Hloss as (lbl & vocab & Hl & _).
    congruence.
  - intros Hmode. apply String.eqb_neq in Hmode. unfold gpt2.model.
    rewrite Hmode. reflexivity.
Qed.

End MissingFeatures.

Lemma missing_features_witness :
  is_ok (fst (gpt2.model (SC := Example.ZScalars) (LB := Example.ZLibrary) "gpt2"
                         (gpt2.mkFeatures (Some Example.tokens) None)
                         Example.other_features
                         (Example.config Example.global_local "GPT2" "train")
                         (Given Example.float_dtype) None)) = false.
Proof.
  destruct (@missing_features Example.ZScalars Example.ZLibrary "gpt2"
              (gpt2.mkFeatures (Some Example.tokens) None) Example.other_features
              (Example.config Example.global_local "GPT2" "train") Example.float_dtype None)
    as (_ & H & _).
  apply H; reflexivity.
Defined.

(* ------------------------------------------------------------------------ *)
(** ** Memory keys and values *)

Section MemoryKeyValues.
Context {SC : Scalars} {LB : Library}.

(** X15.  When [memory_key_values] returns, the last dimension of [k] has a
    positive size (its inverse square root is the deviation of the
    initialiser), and [num_mem_kv] learned slots are put before the keys and
    the values along the sequence: the sequence dimension grows by
    [num_mem_kv], and the element at sequence index [i >= num_mem_kv] is the
    element of the input at index [i - num_mem_kv].  This is for batch, heads
    and feature dimensions that are not named like the two sequence
    dimensions. *)
Theorem memory_key_values_layout
  (vs : string) (k v : T) (num_mem_kv : Z) (dim_batch dim_heads : Dimension)
  (variable_dtype : VariableDType) (k' v' : T) :
  gpt2.memory_key_values vs k v num_mem_kv dim_batch dim_heads variable_dtype
  = Ok (k', v') ->
  exists emb_dim,
    list_last (shape k) = Ok emb_dim /\
    0 < dsize emb_dim /\
    ((forall d, In d [dim_batch; dim_heads; emb_dim] ->
                dname d <> "sequence" /\ dname d <> "mem_kv_sequence") ->
     shape k' = [dim_batch; mkDim "sequence" (num_mem_kv + size_of "sequence" (shape k));
                 dim_heads; emb_dim] /\
     shape v' = [dim_batch; mkDim "sequence" (num_mem_kv + size_of "sequence" (shape v));
                 dim_heads; emb_dim] /\
     forall e, num_mem_kv <= e "sequence" ->
               elem k' e = elem k (upd e "sequence" (e "sequence" - num_mem_kv)) /\
               elem v' e = elem v (upd e "sequence" (e "sequence" - num_mem_kv))).
Proof.
  intros H. unfold gpt2.memory_key_values, gpt2.inv_sqrt in H.
  destruct (list_last (shape k)) as [emb_dim|err]; [|discriminate H].
  cbn [bind result_Monad] in H.
  destruct (Z.ltb_spec (dsize emb_dim) 0) as [|Hge]; [discriminate H|].
  destruct (Z.eqb_spec (dsize emb_dim) 0) as [|Hne]; [discriminate H|].
  cbn [bind result_Monad ret] in H. inversion H; subst k' v'; clear H.
  exists emb_dim. split; [reflexivity|]. split; [lia|].
  intros Hnames.
  destruct (Hnames dim_batch) as [Hb1 Hb2]; [simpl; auto|].
  destruct (Hnames dim_heads) as [Hh1 Hh2]; [simpl; auto|].
  destruct (Hnames emb_dim) as [He1 He2]; [simpl; auto|].
  apply String.eqb_neq in Hb1, Hb2, Hh1, Hh2, He1, He2.
  cbn [shape elem concat rename_dimension broadcast map get_variable].
  unfold rename_dim, size_of. cbn [dname dsize map find].
  rewrite ?Hb1, ?Hb2, ?Hh1, ?Hh2, ?He1, ?He2.
  cbn [String.eqb Ascii.eqb Bool.eqb dname dsize find].
  rewrite ?Hb1, ?Hb2, ?Hh1, ?Hh2, ?He1, ?He2.
  split; [reflexivity|]. split; [reflexivity|].
  intros e He. cbn [dsize].
  destruct (Z.ltb_spec (e "sequence") num_mem_kv); [lia|].
  split; reflexivity.
Qed.

End MemoryKeyValues.

Lemma memory_key_values_layout_witness :
  exists k' v',
    gpt2.memory_key_values (SC := Example.ZScalars) (LB := Example.ZLibrary)
                           "gpt2/h0/attn/attention/memory_key_values"
                           Example.values Example.values' 3 Example.batch Example.heads
                           Example.float_dtype = Ok (k', v') /\
    shape k' = [Example.batch; mkDim "sequence" 5; Example.heads;
                Example.features_per_head] /\
    elem k' (fun _ => 4) = 1.
Proof.
  destruct (is_ok_value
              (gpt2.memory_key_values (SC := Example.ZScalars) (LB := Example.ZLibrary)
                                      "gpt2/h0/attn/attention/memory_key_values"
                                      Example.values Example.values' 3 Example.batch
                                      Example.heads Example.float_dtype))
    as [[k' v'] E]; [reflexivity|].
  destruct (@memory_key_values_layout Example.ZScalars Example.ZLibrary
              "gpt2/h0/attn/attention/memory_key_values" Example.values Example.values' 3
              Example.batch Example.heads Example.float_dtype k' v' E)
    as (emb_dim & Hlast & _ & Hlayout).
  inversion Hlast; subst emb_dim.
  assert (Hn : forall d,
             In d [Example.batch; Example.heads; Example.features_per_head] ->
             dname d <> "sequence" /\ dname d <> "mem_kv_sequence").
  { intros d [<-|[<-|[<-|[]]]]; split; discriminate. }
  destruct (Hlayout Hn) as (Hk & _ & He).
  exists k', v'. split; [exact E|]. split; [exact Hk|].
  destruct (He (fun _ => 4)) as [Hke _]; [simpl; lia|].
  rewrite Hke. reflexivity.
Defined.

(* ------------------------------------------------------------------------ *)
(** ** The attention type "none" and object identity *)

Section NoneByIdentity.
Context {SC : Scalars} {LB : Library}.

Lemma layers_loop_blocked
      (vs : string) (params : Params) (other : gpt2.OtherFeatures) (sequence_dim : Dimension)
      (vd : VariableDType) (layer : nat) (layers : list nat) :
  (forall x st,
      is_ok (fst (gpt2.block_fn_of vs params other sequence_dim vd layer x st)) = false) ->
  In layer layers ->
  forall (h aux : T) (st : St),
    is_ok (fst (gpt2.layers_loop vs params other sequence_dim vd layers h aux st)) = false.
Proof.
  intros Hblock. induction layers as [|l rest IH]; intros Hin h aux st.
  - contradiction.
  - cbn [gpt2.layers_loop]. rewrite recompute_grad_transparent.
    apply bind_Py_not_ok. intros [h1 loss] s1 Hb.
    destruct Hin as [->|Hin].
    + exfalso. eapply not_ok_elim; [|exact Hb]. apply Hblock.
    + apply IH. exact Hin.
Qed.

Lemma model_blocked
      (vs : string) (feats : gpt2.Features) (other : gpt2.OtherFeatures) (params : Params)
      (vd : arg VariableDType) (st : St) (layer : nat) :
  (layer < Z.to_nat (p_n_layer params))%nat ->
  (forall sequence_dim vd' x st,
      is_ok (fst (gpt2.block_fn_of vs params other sequence_dim vd' layer x st)) = false) ->
  is_ok (fst (gpt2.model vs feats other params vd st)) = false.
Proof.
  intros Hlayer Hblock.
  destruct (gpt2.model vs feats other params vd st) as [[out|e] st'] eqn:E; [|reflexivity].
  exfalso. apply model_inv in E.
  destruct E as (vd' & sequence_dim & h0 & aux0 & res & _ & Hloop).
  eapply not_ok_elim; [|exact Hloop].
  eapply layers_loop_blocked; [apply Hblock|].
  apply in_seq. lia.
Qed.

(** X16.  [block] skips the attention of a layer when its type is the very
    object of the literal "none" ([is not]), not when it is equal to it: with
    a type "none" that is another string object, as one read from a JSON
    file is, the layer calls [attn], which knows no such type, and the model
    never builds. *)
Theorem none_skipped_by_identity_only
  (vs : string) (mtf_features : gpt2.Features) (other_features : gpt2.OtherFeatures)
  (params : Params) (variable_dtype : arg VariableDType) (st : St) (layer : nat)
  (t : pystr) :
  (layer < Z.to_nat (p_n_layer params))%nat ->
  nth_error (p_attention_types params) layer = Some t ->
  str_val t = "none" ->
  py_is t (Interned "none") = false ->
  is_ok (fst (gpt2.model vs mtf_features other_features params variable_dtype st)) = false.
Proof.
  intros Hlayer Ht Hnone His. eapply model_blocked; [exact Hlayer|].
  intros sequence_dim vd' x st0. unfold gpt2.block_fn_of, gpt2.block.
  apply bind_Py_not_ok. intros nx s1 _.
  apply bind_Py_not_ok. intros x1 s2 Hsub. exfalso.
  unfold gpt2.attention_sublayer in Hsub. inv_ok.
  match goal with
  | Hg : list_get (p_attention_types params) _ = Ok ?ty |- _ =>
      apply list_get_ok in Hg; rewrite Ht in Hg; inversion Hg; subst ty
  end.
  rewrite His in *. cbn [negb] in *. inv_ok.
  match goal with
  | Ha : gpt2.attn _ _ _ _ _ _ _ _ _ _ _ _ = _ |- _ =>
      eapply not_ok_elim; [|exact Ha]; eapply attn_unknown; [eassumption|]
  end.
  unfold attention_type_known. rewrite Hnone.
  intros [Hk|[Hk|Hk]]; discriminate Hk.
Qed.

End NoneByIdentity.

Lemma none_skipped_by_identity_only_witness :
  is_ok (fst (gpt2.model (SC := Example.ZScalars) (LB := Example.ZLibrary) "gpt2"
                         Example.features Example.other_features
                         (Example.config [Heap 0 "none"] "GPT2" "train")
                         (Given Example.float_dtype) None)) = false.
Proof.
  apply (@none_skipped_by_identity_only Example.ZScalars Example.ZLibrary "gpt2"
           Example.features Example.other_features
           (Example.config [Heap 0 "none"] "GPT2" "train") (Given Example.float_dtype)
           None 0%nat (Heap 0 "none")).
  - simpl. lia.
  - reflexivity.
  - reflexivity.
  - reflexivity.
Defined.

(* ------------------------------------------------------------------------ *)
(** ** The linear layer: when it returns *)

Section Linear.
Context {SC : Scalars} {LB : Library}.



End Linear.


(* ------------------------------------------------------------------------ *)
(** ** A pass that is not incremental does not read the cache *)

Section CacheBlind.
Context {SC : Scalars} {LB : Library}.

Lemma blind_ret {A} (a : A) : cache_blind (ret a) (ret a).
Proof. intros st1 st2 H. split; [reflexivity | exact H]. Qed.

Lemma blind_lift {A} (r : result A) : cache_blind (lift r) (lift r).
Proof. intros st1 st2 H. split; [reflexivity | exact H]. Qed.

Lemma blind_raise {A} (e : exn) : cache_blind (raise (A := A) e) (raise e).
Proof. intros st1 st2 H. split; [reflexivity | exact H]. Qed.

Lemma blind_record (l : list T) : cache_blind (record_new_states l) (record_new_states l).
Proof.
  intros [c1|] [c2|] H; simpl in H; try contradiction.
  - destruct H as (Hm & Hm2 & Hn). simpl. split; [reflexivity|].
    split; [exact Hm|]. split; [exact Hm2|]. rewrite Hn. reflexivity.
  - split; [reflexivity | exact I].
Qed.

Lemma blind_bind {A B} (m1 m2 : Py St A) (f1 f2 : A -> Py St B) :
  cache_blind m1 m2 -> (forall a, cache_blind (f1 a) (f2 a)) ->
  cache_blind (bind m1 f1) (bind m2 f2).
Proof.
  intros Hm Hf st1 st2 H. cbn [bind Py_Monad].
  destruct (Hm st1 st2 H) as [Hr Hs].
  destruct (m1 st1) as [[a1|e1] s1], (m2 st2) as [[a2|e2] s2];
    simpl in Hr, Hs; inversion Hr; subst.
  - apply Hf. exact Hs.
  - split; [reflexivity | exact Hs].
Qed.

Lemma blind_get_context {B} (f1 f2 : St -> Py St B) :
  (forall st1 st2, same_recording st1 st2 -> cache_blind (f1 st1) (f2 st2)) ->
  cache_blind (bind get_context f1) (bind get_context f2).
Proof.
  intros Hf st1 st2 H. cbn [bind Py_Monad get_context]. apply Hf; exact H.
Qed.

Lemma same_recording_cases (st1 st2 : St) :
  same_recording st1 st2 ->
  (st1 = None /\ st2 = None) \/
  exists c1 c2,
    st1 = Some c1 /\ st2 = Some c2 /\
    String.eqb (ctx_mode c1) "incremental" = false /\
    String.eqb (ctx_mode c2) "incremental" = false.
Proof.
  destruct st1 as [c1|], st2 as [c2|]; simpl; try contradiction; [|auto].
  intros (Hm & Hm2 & _). right. exists c1, c2.
  split; [reflexivity|]. split; [reflexivity|].
  rewrite Hm2. apply String.eqb_neq in Hm. auto.
Qed.

Ltac blind_by known :=
  repeat first
    [ known
    | apply blind_ret
    | apply blind_lift
    | apply blind_raise
    | apply blind_record
    | apply blind_bind; [|intro]
    | match goal with
      | |- cache_blind (match ?x with _ => _ end) _ => destruct x
      end ].

Ltac blind := blind_by fail.

Ltac blind_context :=
  apply blind_get_context;
  let s1 := fresh "sa" in
  let s2 := fresh "sb" in
  let H := fresh "Hrel" in
  let c1 := fresh "ca" in
  let c2 := fresh "cb" in
  let E1 := fresh "Ea" in
  let E2 := fresh "Eb" in
  intros s1 s2 H;
  destruct (same_recording_cases _ _ H) as [[-> ->]|(c1 & c2 & -> & -> & E1 & E2)];
  cbn [gpt2.is_incremental_inference gpt2.exists_];
  rewrite ?E1, ?E2; cbn [negb].

Lemma attn_inputs_blind
      (mtfparams : AttentionParams) (x : T) (bias : option T) (dim_seq : Dimension)
      (vd : VariableDType) :
  cache_blind (gpt2.attn_inputs mtfparams x bias dim_seq vd)
              (gpt2.attn_inputs mtfparams x bias dim_seq vd).
Proof.
  unfold gpt2.attn_inputs. blind_context; blind.
Qed.

Lemma attn_dispatch_blind
      (vs : string) (layer_num : nat) (params : Params)
      (dim_batch dim_heads dim_kv dim_seq memory_length_dim : Dimension)
      (vd : VariableDType) (inputs : T * T * T * option T * option T) :
  cache_blind (gpt2.attn_dispatch vs layer_num params dim_batch dim_heads dim_kv dim_seq
                                  memory_length_dim vd inputs)
              (gpt2.attn_dispatch vs layer_num params dim_batch dim_heads dim_kv dim_seq
                                  memory_length_dim vd inputs).
Proof.
  unfold gpt2.attn_dispatch. destruct inputs as [[[[q k] v] bias] one_hot].
  blind_context; blind.
Qed.

Lemma attn_blind
      (vs : string) (x : T) (scope : string) (n_state : Dimension) (attention_type : pystr)
      (layer_num : nat) (params : Params) (bias : option T)
      (dim_seq memory_length_dim : Dimension) (vd : VariableDType) :
  cache_blind (gpt2.attn vs x scope n_state attention_type layer_num params bias dim_seq
                         memory_length_dim vd)
              (gpt2.attn vs x scope n_state attention_type layer_num params bias dim_seq
                         memory_length_dim vd).
Proof.
  unfold gpt2.attn.
  blind_by ltac:(first [apply attn_inputs_blind | apply attn_dispatch_blind]).
Qed.

Lemma block_blind
      (vs : string) (params : Params) (scope : string) (layer_num : nat) (bias : option T)
      (sequence_dim memory_length_dim : Dimension) (vd : VariableDType) (x : T) :
  cache_blind (gpt2.block vs params scope layer_num bias sequence_dim memory_length_dim
                          vd x)
              (gpt2.block vs params scope layer_num bias sequence_dim memory_length_dim
                          vd x).
Proof.
  unfold gpt2.block, gpt2.attention_sublayer.
  blind_by ltac:(apply attn_blind).
Qed.

Lemma layers_loop_blind
      (vs : string) (params : Params) (other : gpt2.OtherFeatures) (sequence_dim : Dimension)
      (vd : VariableDType) (layers : list nat) :
  forall h aux,
    cache_blind (gpt2.layers_loop vs params other sequence_dim vd layers h aux)
                (gpt2.layers_loop vs params other sequence_dim vd layers h aux).
Proof.
  induction layers as [|layer rest IH]; intros h aux; cbn [gpt2.layers_loop].
  - apply blind_ret.
  - rewrite recompute_grad_transparent. unfold gpt2.block_fn_of.
    apply blind_bind; [apply block_blind|].
    intros [h' loss]. apply IH.
Qed.

Lemma model_blind
      (vs : string) (feats : gpt2.Features) (other : gpt2.OtherFeatures) (params : Params)
      (vd : arg VariableDType) :
  cache_blind (gpt2.model vs feats other params vd) (gpt2.model vs feats other params vd).
Proof.
  unfold gpt2.model.
  apply blind_bind; [apply blind_lift|]. intros vd'.
  apply blind_bind; [destruct (gpt2.inputs feats); [apply blind_ret | apply blind_raise]|].
  intros x.
  apply blind_bind; [apply blind_lift|]. intros batch_dim.
  apply blind_bind; [apply blind_lift|]. intros sequence_dim.
  blind_context; blind_by ltac:(apply layers_loop_blind).
Qed.

(** X18.  A pass of the model with a context that is not incremental reads
    neither the cache nor the position of the context: two such contexts of
    the same mode that have recorded the same states give the same result,
    returned or raised, and end with the same recorded states. *)
Theorem first_pass_ignores_cache
  (vs : string) (mtf_features : gpt2.Features) (other_features : gpt2.OtherFeatures)
  (params : Params) (variable_dtype : arg VariableDType) (c1 c2 : Context) :
  ctx_mode c1 <> "incremental" ->
  ctx_mode c2 = ctx_mode c1 ->
  new_states c2 = new_states c1 ->
  fst (gpt2.model vs mtf_features other_features params variable_dtype (Some c1)) =
  fst (gpt2.model vs mtf_features other_features params variable_dtype (Some c2)) /\
  option_map new_states
             (snd (gpt2.model vs mtf_features other_features params variable_dtype (Some c1)))
  = option_map new_states
               (snd (gpt2.model vs mtf_features other_features params variable_dtype
                                (Some c2))).
Proof.
  intros Hm Hm2 Hn.
  destruct (model_blind vs mtf_features other_features params variable_dtype
                        (Some c1) (Some c2)) as [Hr Hs]; [simpl; auto|].
  split; [exact Hr|].
  destruct (snd (gpt2.model vs mtf_features other_features params variable_dtype (Some c1)))
    as [d1|],
    (snd (gpt2.model vs mtf_features other_features params variable_dtype (Some c2)))
    as [d2|]; simpl in Hs; try contradiction; [|reflexivity].
  destruct Hs as (_ & _ & Hs). simpl. rewrite Hs. reflexivity.
Qed.

End CacheBlind.

Lemma first_pass_ignores_cache_witness :
  fst (gpt2.model (SC := Example.ZScalars) (LB := Example.ZLibrary) "gpt2" Example.features
                  Example.other_features
                  (Example.config Example.global_local "GPT2" "predict")
                  (Given Example.float_dtype) (Some Example.full_context)) =
  fst (gpt2.model (SC := Example.ZScalars) (LB := Example.ZLibrary) "gpt2" Example.features
                  Example.other_features
                  (Example.config Example.global_local "GPT2" "predict")
                  (Given Example.float_dtype)
                  (Some (@mkContext Example.ZScalars "first_part" (scalar int32 5)
                                    [Example.values; Example.values'] []))).
Proof.
  assert (Hmode : ctx_mode Example.full_context <> "incremental") by discriminate.
  destruct (@first_pass_ignores_cache Example.ZScalars Example.ZLibrary "gpt2"
              Example.features Example.other_features
              (Example.config Example.global_local "GPT2" "predict")
              (Given Example.float_dtype) Example.full_context
              (@mkContext Example.ZScalars "first_part" (scalar int32 5)
                          [Example.values; Example.values'] [])
              Hmode eq_refl eq_refl) as [H _].
  exact H.
Defined.

(* ------------------------------------------------------------------------ *)
(** ** Dropout *)

Section Dropout.
Context {SC : Scalars} {LB : Library}.

Lemma bind_Py_ext {S A B} (m : Py S A) (f g : A -> Py S B) (s : S) :
  (forall a s1, f a s1 = g a s1) -> bind m f s = bind m g s.
Proof.
  intros H. cbn [bind Py_Monad]. destruct (m s) as [[a|e] s1]; [apply H | reflexivity].
Qed.

Lemma block_without_dropout
      (vs : string) (params : Params) (a r e : Q) (scope : string) (layer_num : nat)
      (bias : option T) (sequence_dim memory_length_dim : Dimension) (vd : VariableDType)
      (x : T) (st : St) :
  p_mode params <> "train" ->
  gpt2.block vs (set_dropout params a r e) scope layer_num bias sequence_dim
             memory_length_dim vd x st =
  gpt2.block vs params scope layer_num bias sequence_dim memory_length_dim vd x st.
Proof.
  intros Hmode. apply String.eqb_neq in Hmode.
  unfold gpt2.block, gpt2.attention_sublayer, gpt2.attn, gpt2.attn_dispatch,
    gpt2.feed_forward_sublayer, gpt2.prenorm, gpt2.pre_residual_fn, get_default.
  cbn [set_dropout p_mode p_n_head p_n_embd p_n_layer p_attention_types p_num_mem_kv
       p_local_attention_radius p_attn_dropout p_res_dropout p_mlp_glu p_scalenorm
       p_rezero p_moe_layers p_moe_params p_scale_by_depth p_scale_by_in].
  destruct (p_mlp_glu params); unfold gpt2.mlp, gpt2.mlp_glu, gpt2.linear;
    cbn [set_dropout p_mode p_n_layer p_res_dropout p_scale_by_depth p_scale_by_in];
    rewrite Hmode; cbn [andb]; reflexivity.
Qed.

Lemma layers_loop_without_dropout
      (vs : string) (params : Params) (a r e : Q) (other : gpt2.OtherFeatures)
      (sequence_dim : Dimension) (vd : VariableDType) (layers : list nat) :
  p_mode params <> "train" ->
  forall (h aux : T) (st : St),
    gpt2.layers_loop vs (set_dropout params a r e) other sequence_dim vd layers h aux st =
    gpt2.layers_loop vs params other sequence_dim vd layers h aux st.
Proof.
  intros Hmode. induction layers as [|layer rest IH]; intros h aux st;
    cbn [gpt2.layers_loop]; [reflexivity|].
  rewrite !recompute_grad_transparent. unfold gpt2.block_fn_of.
  cbn [set_dropout p_share_parameters].
  cbn [bind Py_Monad]. rewrite block_without_dropout by exact Hmode.
  destruct (gpt2.block _ _ _ _ _ _ _ _ _ _) as [[[h' loss]|err] st1]; [apply IH | reflexivity].
Qed.

(** X19.  Dropout is applied in training mode only: in any other mode the
    model is the same, result and context, whatever the dropout rates of the
    configuration are. *)
Theorem dropout_only_in_training
  (vs : string) (mtf_features : gpt2.Features) (other_features : gpt2.OtherFeatures)
  (params : Params) (variable_dtype : arg VariableDType) (st : St)
  (attn_dropout res_dropout embed_dropout : Q) :
  p_mode params <> "train" ->
  gpt2.model vs mtf_features other_features
             (set_dropout params attn_dropout res_dropout embed_dropout)
             variable_dtype st =
  gpt2.model vs mtf_features other_features params variable_dtype st.
Proof.
  intros Hmode. pose proof Hmode as Hneq. apply String.eqb_neq in Hmode.
  unfold gpt2.model, gpt2.linear.
  cbn [set_dropout p_mode p_n_layer p_no_weight_tie p_axial_pos_emb p_embed_dropout
       p_scale_by_depth p_scale_by_in].
  rewrite Hmode, !Bool.andb_false_r.
  repeat (apply bind_Py_ext; intros).
  cbn [bind Py_Monad].
  rewrite layers_loop_without_dropout by exact Hneq.
  reflexivity.
Qed.

End Dropout.

Lemma dropout_only_in_training_witness :
  gpt2.model (SC := Example.ZScalars) (LB := Example.ZLibrary) "gpt2" Example.features
             Example.other_features
             (set_dropout (Example.config Example.global_local "GPT2" "predict")
                          (1 # 2) (1 # 2) (1 # 2))
             (Given Example.float_dtype) None =
  gpt2.model (SC := Example.ZScalars) (LB := Example.ZLibrary) "gpt2" Example.features
             Example.other_features (Example.config Example.global_local "GPT2" "predict")
             (Given Example.float_dtype) None.
Proof.
  apply (@dropout_only_in_training Example.ZScalars Example.ZLibrary "gpt2" Example.features
           Example.other_features (Example.config Example.global_local "GPT2" "predict")
           (Given Example.float_dtype) None (1 # 2)%Q (1 # 2)%Q (1 # 2)%Q).
  discriminate.
Defined.
